(** * Rental-property chatbot: session orchestration and cost accounting

  A shallow embedding of [src/cost-tracker.js], [src/llm-service.js],
  [src/data-loader.js] and the [initialize], [askQuestion] and line-handling
  operations of [src/chatbot.js], followed by the properties of the
  specification that concern them and by further properties of the code.

  Conventions of the embedding.
  - A JavaScript number that holds a token count, a length, a latency or a
    clock reading is an integer ([Z]).  A number that holds money is an exact
    rational ([Q]); the binary rounding of IEEE doubles is not modelled, the
    sums and products below are the mathematical ones.
  - A division whose divisor may be zero yields a [JS.number], which has
    [NaN] and the infinities, as in JavaScript.
  - A string is a [string]; its length is the number of its characters.
  - A property that may be missing on an object is an [option].
  - [console] output and the frames of the spinner are not modelled: they
    read the state and never write it.  The lines the cost reports print are
    given as strings, without the colours.
  - An object read from the JSON file has members of the expected types, each
    possibly missing or [null]; a price is an integer.
  - Where these choices show: a cost that lies exactly halfway between two
    sixth decimals is formatted upwards here, where the double the program
    holds may lie just below the half; sums of costs are exact here and
    rounded in the program; [trim] removes the ASCII white space only, the
    program's also the other Unicode spaces.
  - The outside world of one call is explicit: the clock ([now]), and the
    behaviour of [openai.chat.completions.create] (what it settles to, and
    after how many milliseconds).
  - The trace of the world (prompt generations, requests sent) is ghost
    state: the code keeps no such record, the properties read it. *)

From Stdlib Require Import ZArith QArith Qround Lia Lqa List String Ascii Bool.
From Stdlib Require Import DecimalString.
From Stdlib Require Import Permutation Sorted.
From Stdlib Require DecimalPos DecimalZ.
Import ListNotations.

(* ================================================================== *)
(** * JavaScript values and built-ins used by the sources              *)
(* ================================================================== *)

Module JS.

(** A thrown value: every [throw] of the sources throws [new Error(msg)];
    a [TypeError] is what reading a property of [null] raises. *)
Inductive exn : Type :=
| Error (msg : string)
| TypeError (msg : string).

Definition message (e : exn) : string :=
  match e with Error m => m | TypeError m => m end.

(** The result of a division: finite, or one of the three special doubles. *)
Inductive number : Type :=
| Finite (q : Q)
| NaN
| Infinity (negative : bool).

Definition is_finite (x : number) : bool :=
  match x with Finite _ => true | _ => false end.

(** [a / b] on finite operands. *)
Definition div (a b : Q) : number :=
  if Qeq_bool b 0 then
    if Qeq_bool a 0 then NaN
    else Infinity (negb (Qle_bool 0 a))
  else Finite (a / b).

(** [s.length] *)
Definition length (s : string) : Z := Z.of_nat (String.length s).

(** Truthiness of a string that may be [null] or [undefined]. *)
Definition truthy (s : option string) : bool :=
  match s with
  | None => false
  | Some EmptyString => false
  | Some (String _ _) => true
  end.

(** [x || 0] on a number that may be missing. *)
Definition or_zero (x : option Z) : Z :=
  match x with None => 0%Z | Some n => n end.

(** [s.substring(0, n)] *)
Definition substring0 (n : nat) (s : string) : string := String.substring 0 n s.

(** White space removed by [trim], restricted to the ASCII range. *)
Definition is_white_space (c : ascii) : bool :=
  let n := nat_of_ascii c in
  ((9 <=? n) && (n <=? 13) || (n =? 32))%nat.

Fixpoint trimStart (s : string) : string :=
  match s with
  | EmptyString => EmptyString
  | String c s' => if is_white_space c then trimStart s' else s
  end.

Fixpoint trimEnd (s : string) : string :=
  match s with
  | EmptyString => EmptyString
  | String c s' =>
      match trimEnd s' with
      | EmptyString => if is_white_space c then EmptyString else String c EmptyString
      | r => String c r
      end
  end.

(** [s.trim()] *)
Definition trim (s : string) : string := trimEnd (trimStart s).

(** [Math.ceil(n / d)] for an integer [n] and a positive literal [d]. *)
Definition ceil_div (n : Z) (d : positive) : Z := Qceiling (inject_Z n / inject_Z (Zpos d)).

(** Decimal rendering of an integer, as a template literal does it. *)
Definition show_Z (n : Z) : string := NilZero.string_of_int (Z.to_int n).

Definition show_nat (n : nat) : string := show_Z (Z.of_nat n).

Definition digit (n : Z) : ascii := ascii_of_nat (48 + Z.to_nat (n mod 10)).

(** The [w] low decimal digits of [n], most significant first. *)
Fixpoint digits (w : nat) (n : Z) : string :=
  match w with
  | O => EmptyString
  | S w' => (digits w' (n / 10) ++ String (digit n) EmptyString)%string
  end.

Fixpoint repeat_char (c : ascii) (n : nat) : string :=
  match n with O => EmptyString | S n' => String c (repeat_char c n') end.

(** [x.toFixed(f)]: the integer [n] nearest to [x * 10^f] (the larger one
    on a tie), printed with a point before its last [f] digits. *)
Definition toFixed (f : nat) (x : Q) : string :=
  let neg := negb (Qle_bool 0 x) in
  let ax := if neg then Qopp x else x in
  let n := Qfloor (ax * inject_Z (10 ^ Z.of_nat f) + (1 # 2)) in
  let m := show_Z n in
  let k := String.length m in
  let m' := if (k <=? f)%nat then (repeat_char "0" (f + 1 - k) ++ m)%string else m in
  let k' := String.length m' in
  let body :=
    match f with
    | O => m'
    | _ => (String.substring 0 (k' - f) m' ++ "." ++ String.substring (k' - f) f m')%string
    end in
  ((if neg then "-" else "") ++ body)%string.

(** ** [new Date(ms).toISOString()] *)

Definition msPerDay : Z := 86400000.

(** Civil date of a day number counted from 1970-01-01. *)
Definition civil_from_days (days : Z) : Z * Z * Z :=
  let z := (days + 719468)%Z in
  let era := (z / 146097)%Z in
  let doe := (z - era * 146097)%Z in
  let yoe := ((doe - doe / 1460 + doe / 36524 - doe / 146096) / 365)%Z in
  let doy := (doe - (365 * yoe + yoe / 4 - yoe / 100))%Z in
  let mp := ((5 * doy + 2) / 153)%Z in
  let d := (doy - (153 * mp + 2) / 5 + 1)%Z in
  let m := (if mp <? 10 then mp + 3 else mp - 9)%Z in
  let y := (yoe + era * 400 + (if m <=? 2 then 1 else 0))%Z in
  (y, m, d).

Definition toISOString (ms : Z) : string :=
  let days := (ms / msPerDay)%Z in
  let t := (ms mod msPerDay)%Z in
  let '(y, m, d) := civil_from_days days in
  let year :=
    if ((0 <=? y) && (y <=? 9999))%Z then digits 4 y
    else ((if (y <? 0)%Z then "-" else "+") ++ digits 6 (Z.abs y))%string in
  (year ++ "-" ++ digits 2 m ++ "-" ++ digits 2 d ++ "T"
        ++ digits 2 (t / 3600000) ++ ":" ++ digits 2 (t / 60000 mod 60) ++ ":"
        ++ digits 2 (t / 1000 mod 60) ++ "." ++ digits 3 t ++ "Z")%string.

End JS.

(* ================================================================== *)
(** * Objects exchanged between the components                         *)
(* ================================================================== *)

(** [response.usage] of the completion endpoint. *)
Module Usage.
Record t : Type := mk {
  prompt_tokens : option Z;
  completion_tokens : option Z;
  total_tokens : option Z
}.

(** The literal [{ prompt_tokens: 0, completion_tokens: 0, total_tokens: 0 }]. *)
Definition zero : t := mk (Some 0%Z) (Some 0%Z) (Some 0%Z).

(** The literal [{}]. *)
Definition empty : t := mk None None None.
End Usage.

(** The object returned by [LLMService.answerQuestion]: the success shape
  carries [tokensUsed], [usage] and [model]; the fallback shape carries
  [error] instead. *)
Module Response.
Record t : Type := mk {
  question : string;
  answer : option string;
  tokensUsed : option Z;
  usage : option Usage.t;
  model : option string;
  timestamp : option string;
  error : option string
}.
End Response.

(** The object returned by [calculateQueryCost]. *)
Module QueryCost.
Record t : Type := mk {
  inputTokens : Z;
  outputTokens : Z;
  totalTokens : Z;
  inputCost : Q;
  outputCost : Q;
  totalCost : Q;
  formattedCost : string
}.
End QueryCost.

(** One element of [CostTracker.sessions]: a Cost Entry. *)
Module Session.
Record t : Type := mk {
  question : string;
  responseTime : Z;
  tokens : QueryCost.t;
  timestamp : string
}.
End Session.

Module Pricing.
Record t : Type := mk { input : Q; output : Q }.
End Pricing.

Module TokenTotals.
Record t : Type := mk { input : Z; output : Z; total : Z }.
End TokenTotals.

(** The object returned by [getSessionStats]. *)
Module Stats.
Record t : Type := mk {
  totalQueries : Z;
  totalCost : Q;
  formattedTotalCost : string;
  totalTokens : TokenTotals.t;
  averageCostPerQuery : JS.number;
  averageTokensPerQuery : JS.number;
  sessions : list Session.t
}.
End Stats.

(* ================================================================== *)
(** * [src/cost-tracker.js]                                            *)
(* ================================================================== *)

Module CostTracker.

Record t : Type := mk {
  sessions : list Session.t;
  totalCost : Q;
  totalTokens : TokenTotals.t;
  pricing : Pricing.t
}.

Definition constructor : t :=
  {| sessions := [];
     totalCost := 0;
     totalTokens := TokenTotals.mk 0 0 0;
     pricing := Pricing.mk (0.0015 / 1000) (0.002 / 1000) |}.

Definition calculateQueryCost (this : t) (inputTokens outputTokens : Z) : QueryCost.t :=
  let inputCost := inject_Z inputTokens * Pricing.input (pricing this) in
  let outputCost := inject_Z outputTokens * Pricing.output (pricing this) in
  let totalCost := inputCost + outputCost in
  {| QueryCost.inputTokens := inputTokens;
     QueryCost.outputTokens := outputTokens;
     QueryCost.totalTokens := inputTokens + outputTokens;
     QueryCost.inputCost := inputCost;
     QueryCost.outputCost := outputCost;
     QueryCost.totalCost := totalCost;
     QueryCost.formattedCost := ("$" ++ JS.toFixed 6 totalCost)%string |}.

(** The counts the response reports: [usage.prompt_tokens || 0] and
    [usage.completion_tokens || 0], with [usage = response.usage || {}]. *)
Definition reportedTokens (response : Response.t) : Z * Z :=
  let usage := match Response.usage response with Some u => u | None => Usage.empty end in
  (JS.or_zero (Usage.prompt_tokens usage), JS.or_zero (Usage.completion_tokens usage)).

(** [response.answer?.length || 0] *)
Definition answerLength (response : Response.t) : Z :=
  match Response.answer response with
  | Some a => JS.length a
  | None => 0%Z
  end.

(** The token counts [trackQuery] prices: the reported ones, or the
    estimate when both are zero or missing. *)
Definition countTokens (question : string) (response : Response.t) : Z * Z :=
  let '(inputTokens, outputTokens) := reportedTokens response in
  if ((inputTokens =? 0) && (outputTokens =? 0))%Z then
    (JS.ceil_div (JS.length question + 1000) 4,
     JS.ceil_div (answerLength response) 4)
  else (inputTokens, outputTokens).

(** [question.substring(0, 50) + (question.length > 50 ? '...' : '')] *)
Definition preview (question : string) : string :=
  (JS.substring0 50 question ++ (if (50 <? JS.length question)%Z then "..." else ""))%string.

(** [trackQuery(question, response, responseTime)]; [now] is the reading
    of the clock taken by [new Date()].  Returns the new tracker and the
    returned cost. *)
Definition trackQuery (this : t) (question : string) (response : Response.t)
           (responseTime : Z) (now : Z) : t * QueryCost.t :=
  let '(inputTokens, outputTokens) := countTokens question response in
  let cost := calculateQueryCost this inputTokens outputTokens in
  let session :=
    {| Session.question := preview question;
       Session.responseTime := responseTime;
       Session.tokens := cost;
       Session.timestamp := JS.toISOString now |} in
  ({| sessions := sessions this ++ [session];
      totalCost := totalCost this + QueryCost.totalCost cost;
      totalTokens :=
        {| TokenTotals.input := TokenTotals.input (totalTokens this) + inputTokens;
           TokenTotals.output := TokenTotals.output (totalTokens this) + outputTokens;
           TokenTotals.total :=
             TokenTotals.total (totalTokens this) + QueryCost.totalTokens cost |};
      pricing := pricing this |},
   cost).

Definition getSessionStats (this : t) : Stats.t :=
  let n := Z.of_nat (List.length (sessions this)) in
  {| Stats.totalQueries := n;
     Stats.totalCost := totalCost this;
     Stats.formattedTotalCost := ("$" ++ JS.toFixed 6 (totalCost this))%string;
     Stats.totalTokens := totalTokens this;
     Stats.averageCostPerQuery :=
       if (0 <? n)%Z then JS.div (totalCost this) (inject_Z n) else JS.Finite 0;
     Stats.averageTokensPerQuery :=
       if (0 <? n)%Z
       then JS.div (inject_Z (TokenTotals.total (totalTokens this))) (inject_Z n)
       else JS.Finite 0;
     Stats.sessions := sessions this |}.

Definition estimateCost (this : t) (inputTokens outputTokens : Z) : QueryCost.t :=
  calculateQueryCost this inputTokens outputTokens.

(** The methods of the class, as calls a client can make. *)
Inductive call : Type :=
| CalculateQueryCost (inputTokens outputTokens : Z)
| TrackQuery (question : string) (response : Response.t) (responseTime : Z) (now : Z)
| GetSessionStats
| DisplayQueryCost (cost : QueryCost.t) (responseTime : Z)
| DisplaySessionSummary
| EstimateCost (inputTokens outputTokens : Z).

(** The tracker after one call.  Only [trackQuery] assigns to a field. *)
Definition step (this : t) (c : call) : t :=
  match c with
  | TrackQuery question response responseTime now =>
      fst (trackQuery this question response responseTime now)
  | CalculateQueryCost _ _ | GetSessionStats | DisplayQueryCost _ _
  | DisplaySessionSummary | EstimateCost _ _ => this
  end.

Definition run (this : t) (cs : list call) : t := fold_left step cs this.

Definition is_track (c : call) : bool :=
  match c with TrackQuery _ _ _ _ => true | _ => false end.

(** Sum of the [totalCost] fields of a log. *)
Definition sumCost (l : list Session.t) : Q :=
  fold_right (fun s acc => QueryCost.totalCost (Session.tokens s) + acc) 0 l.

End CostTracker.

(* ================================================================== *)
(** * The outside world and the monad of the asynchronous methods      *)
(* ================================================================== *)

(** One formatted catalog entry, as [formatPropertiesForAI] produces it
    (the fields the prompt reads). *)
Module Property.
Record t : Type := mk {
  index : Z;
  title : string;
  location : string;
  priceDisplay : string;
  description : string;
  facilitiesText : string;
  address : string
}.
End Property.

Module Message.
Record t : Type := mk { role : string; content : string }.
End Message.

(** The argument of [openai.chat.completions.create]. *)
Module Request.
Record t : Type := mk {
  model : string;
  temperature : Q;
  max_tokens : Z;
  stream : bool;
  messages : list Message.t
}.
End Request.

(** What the endpoint answers: [choices[i].message.content] and [usage],
    each of which may be missing. *)
Module Completion.
Record message : Type := mkMessage { content : option string }.
Record choice : Type := mkChoice { message_of : option message }.
Record t : Type := mk { choices : list choice; usage : option Usage.t }.

(** [response.choices[0]?.message?.content] *)
Definition first_content (r : t) : option string :=
  match choices r with
  | [] => None
  | c :: _ =>
      match message_of c with
      | None => None
      | Some m => content m
      end
  end.
End Completion.

(** How one call of the client settles, and after how many milliseconds. *)
Module Settlement.
Inductive outcome : Type :=
| Resolved (response : Completion.t)
| Rejected (error : JS.exn).
Record t : Type := mk { elapsed : Z; result : outcome }.
End Settlement.

(** The completion client: the behaviour of the endpoint during one call. *)
Definition client : Type := Request.t -> Settlement.t.

Module World.
(** What the outside world can observe of a call. *)
Inductive event : Type :=
| Generated (prompt : string)
| Sent (request : Request.t).

Record t : Type := mk {
  now : Z;
  trace : list event
}.
End World.

(** A computation over an object of type [S] and the world, which returns
    or throws.  What was written before a [throw] stays written. *)
Module Async.

Inductive res (A : Type) : Type :=
| Val (a : A)
| Exn (e : JS.exn).
Arguments Val {A} a.
Arguments Exn {A} e.

Definition M (S A : Type) : Type := S -> World.t -> res A * S * World.t.

Definition ret {S A} (a : A) : M S A := fun s w => (Val a, s, w).

Definition bind {S A B} (m : M S A) (k : A -> M S B) : M S B :=
  fun s w =>
    match m s w with
    | (Val a, s', w') => k a s' w'
    | (Exn e, s', w') => (Exn e, s', w')
    end.

Definition throw {S A} (e : JS.exn) : M S A := fun s w => (Exn e, s, w).

(** [try { m } catch (error) { h error }] *)
Definition try_catch {S A} (m : M S A) (h : JS.exn -> M S A) : M S A :=
  fun s w =>
    match m s w with
    | (Val a, s', w') => (Val a, s', w')
    | (Exn e, s', w') => h e s' w'
    end.

Definition get {S} : M S S := fun s w => (Val s, s, w).

Definition modify {S} (f : S -> S) : M S unit := fun s w => (Val tt, f s, w).

(** [Date.now()] *)
Definition Date_now {S} : M S Z := fun s w => (Val (World.now w), s, w).

(** [new Date().toISOString()] *)
Definition Date_iso {S} : M S string := fun s w => (Val (JS.toISOString (World.now w)), s, w).

Definition emit {S} (e : World.event) : M S unit :=
  fun s w => (Val tt, s, World.mk (World.now w) (World.trace w ++ [e])).

(** [await create(request)]: the request goes out, the clock advances by
    the time the call takes, and the call resolves or rejects. *)
Definition await_create {S} (create : client) (request : Request.t) : M S Completion.t :=
  fun s w =>
    let settled := create request in
    let w' := World.mk (World.now w + Settlement.elapsed settled)
                       (World.trace w ++ [World.Sent request]) in
    match Settlement.result settled with
    | Settlement.Resolved r => (Val r, s, w')
    | Settlement.Rejected e => (Exn e, s, w')
    end.

End Async.

Declare Scope async_scope.
Delimit Scope async_scope with async.
Notation "x <- m ;; k" := (Async.bind m (fun x => k))
  (at level 61, m at next level, right associativity) : async_scope.
Notation "m ;; k" := (Async.bind m (fun _ => k))
  (at level 61, right associativity) : async_scope.

(* ================================================================== *)
(** * [src/llm-service.js]                                             *)
(* ================================================================== *)

Module LLMService.

Import Async.
Local Open Scope async_scope.
Local Open Scope string_scope.

Record options_t : Type := mkOptions {
  model : string;
  temperature : Q;
  maxTokens : Z;
  responseTimeout : Z;
  cacheSystemPrompt : bool;
  stream : bool
}.

Record t : Type := mk {
  options : options_t;
  cachedSystemPrompt : option string;
  properties : list Property.t
}.

(** [new LLMService(apiKey, options)] with every key of [options] given, as
    the chatbot gives them: the spread [...options] then decides each key,
    and [stream] keeps its literal [false]. *)
Definition constructor (model : string) (temperature : Q) (maxTokens responseTimeout : Z)
           (cacheSystemPrompt : bool) : t :=
  {| options := mkOptions model temperature maxTokens responseTimeout cacheSystemPrompt false;
     cachedSystemPrompt := None;
     properties := [] |}.

Definition setProperties (this : t) (properties : list Property.t) : t :=
  {| options := options this;
     cachedSystemPrompt := cachedSystemPrompt this;
     properties := properties |}.

Definition nl : string := String (ascii_of_nat 10) EmptyString.

Definition dq : string := String (ascii_of_nat 34) EmptyString.

(** [parts.join(sep)] *)
Fixpoint join (sep : string) (parts : list string) : string :=
  match parts with
  | [] => EmptyString
  | [p] => p
  | p :: rest => p ++ sep ++ join sep rest
  end.

Definition propertyBlock (property : Property.t) : string :=
  join nl
    [ "Property " ++ JS.show_Z (Property.index property) ++ ": " ++ Property.title property;
      "- Location: " ++ Property.location property;
      "- Price: " ++ Property.priceDisplay property;
      "- Description: " ++ Property.description property;
      "- Facilities: " ++ Property.facilitiesText property;
      "- Address: " ++ Property.address property ].

Definition generateSystemPrompt (this : t) : string :=
  let propertyData := join (nl ++ nl) (map propertyBlock (properties this)) in
  let count := JS.show_nat (List.length (properties this)) in
  join nl
    [ "You are a helpful and knowledgeable rental property assistant. You have access to "
        ++ count
        ++ " rental properties and can answer questions about them quickly and accurately.";
      "";
      "PROPERTY DATABASE:";
      propertyData;
      "";
      "INSTRUCTIONS:";
      "- Answer questions about rental properties using ONLY the data provided above";
      "- Be concise but informative in your responses";
      "- Always mention specific property details (price, location, facilities) when relevant";
      "- If asked about properties not in the database, politely explain you only have information about the "
        ++ count ++ " properties listed";
      "- For location-based queries, suggest the most relevant properties";
      "- For budget-based queries, recommend properties within the specified price range";
      "- For facility-based queries (bedrooms, bathrooms, parking), match user needs to property facilities";
      "- Always format prices as shown (e.g., $123/night)";
      "- Be helpful and enthusiastic about the properties";
      "";
      "RESPONSE FORMAT:";
      "- Keep responses under 200 words for quick reading and faster generation";
      "- Use bullet points for multiple property recommendations";
      "- Include property names, locations, and prices";
      "- Mention key facilities that match the user's needs";
      "- Be concise but helpful - prioritize speed and clarity";
      "- Write in a friendly, conversational tone";
      "- Use encouraging language and show genuine enthusiasm for helping";
      "- Add personal touches like " ++ dq ++ "Perfect for you!" ++ dq ++ " or "
        ++ dq ++ "You'll love this!" ++ dq;
      "- Show empathy if no exact matches found: " ++ dq
        ++ "I understand you're looking for..." ++ dq ].

(** The fixed answer of the fallback response. *)
Definition apology : string :=
  "I apologize, but I'm having trouble processing your question right now. Please try asking about specific properties, locations, price ranges, or facilities you're looking for.".

(** The system prompt of a call: the cached one when caching is on and a
    prompt is stored, a freshly generated one otherwise. *)
Definition systemPromptFor : M t string :=
  this <- get ;;
  if cacheSystemPrompt (options this) && JS.truthy (cachedSystemPrompt this)
  then ret (match cachedSystemPrompt this with Some p => p | None => EmptyString end)
  else
    let p := generateSystemPrompt this in
    emit (World.Generated p) ;;
    ret p.

(** [if (cacheSystemPrompt && !cachedSystemPrompt) cachedSystemPrompt = systemPrompt] *)
Definition storeSystemPrompt (systemPrompt : string) : M t unit :=
  this <- get ;;
  if cacheSystemPrompt (options this) && negb (JS.truthy (cachedSystemPrompt this))
  then modify (fun this => {| options := options this;
                              cachedSystemPrompt := Some systemPrompt;
                              properties := properties this |})
  else ret tt.

Definition requestFor (this : t) (systemPrompt userQuestion : string) : Request.t :=
  {| Request.model := model (options this);
     Request.temperature := temperature (options this);
     Request.max_tokens := maxTokens (options this);
     Request.stream := false;
     Request.messages :=
       [ Message.mk "system" systemPrompt;
         Message.mk "user" ("Question: " ++ userQuestion) ] |}.

(** The object the [try] block returns. *)
Definition success (this : t) (userQuestion answer : string) (response : Completion.t)
           (timestamp : string) : Response.t :=
  {| Response.question := userQuestion;
     Response.answer := Some (JS.trim answer);
     Response.tokensUsed :=
       Some (JS.or_zero (match Completion.usage response with
                         | Some u => Usage.total_tokens u
                         | None => None
                         end));
     Response.usage :=
       Some (match Completion.usage response with
             | Some u => u
             | None => Usage.zero
             end);
     Response.model := Some (model (options this));
     Response.timestamp := Some timestamp;
     Response.error := None |}.

(** The object the [catch] block returns: the fallback response. *)
Definition fallback (userQuestion : string) (error : JS.exn) (timestamp : string)
  : Response.t :=
  {| Response.question := userQuestion;
     Response.answer := Some apology;
     Response.tokensUsed := None;
     Response.usage := None;
     Response.model := None;
     Response.timestamp := Some timestamp;
     Response.error := Some (JS.message error) |}.

(** The body of the [try] block of [answerQuestion]. *)
Definition answerQuestion_try (create : client) (userQuestion : string) : M t Response.t :=
  this <- get ;;
  match properties this with
  | [] => throw (JS.Error "No property data loaded. Please load properties first.")
  | _ :: _ =>
      systemPrompt <- systemPromptFor ;;
      storeSystemPrompt systemPrompt ;;
      this <- get ;;
      response <- await_create create (requestFor this systemPrompt userQuestion) ;;
      match Completion.first_content response with
      | Some (String c rest) =>
          timestamp <- Date_iso ;;
          ret (success this userQuestion (String c rest) response timestamp)
      | Some EmptyString | None =>
          throw (JS.Error "No response received from AI")
      end
  end.

(** The [catch] block of [answerQuestion]. *)
Definition answerQuestion_catch (userQuestion : string) (error : JS.exn) : M t Response.t :=
  timestamp <- Date_iso ;;
  ret (fallback userQuestion error timestamp).

Definition answerQuestion (create : client) (userQuestion : string) : M t Response.t :=
  try_catch (answerQuestion_try create userQuestion) (answerQuestion_catch userQuestion).

(** Calls of [answerQuestion] one after the other, each with the behaviour
    the endpoint shows during it. *)
Fixpoint answer_all (qs : list (client * string)) : M t (list Response.t) :=
  match qs with
  | [] => ret []
  | (create, userQuestion) :: rest =>
      r <- answerQuestion create userQuestion ;;
      rs <- answer_all rest ;;
      ret (r :: rs)
  end.

End LLMService.

(* ================================================================== *)
(** * [src/chatbot.js]                                                 *)
(* ================================================================== *)

(** The [cost] property of a Result: missing, [null], or a cost object. *)
Inductive cost_field : Type :=
| CostAbsent
| CostNull
| CostOf (cost : QueryCost.t).

(** The object [askQuestion] resolves to. *)
Module Result.
Record t : Type := mk {
  question : string;
  answer : option string;
  tokensUsed : option Z;
  usage : option Usage.t;
  model : option string;
  timestamp : option string;
  error : option string;
  responseTime : Z;
  questionNumber : Z;
  cost : cost_field
}.
End Result.

Module Config.
Record t : Type := mk {
  openaiApiKey : option string;
  openaiModel : string;
  temperature : Q;
  maxTokens : Z;
  responseTimeout : Z;
  enableCostTracking : bool;
  cacheSystemPrompt : bool;
  enableAnimations : bool;
  showPerformanceMetrics : bool
}.

(** The configuration of an environment that sets only the API key. *)
Definition default (apiKey : string) : t :=
  {| openaiApiKey := Some apiKey;
     openaiModel := "gpt-3.5-turbo";
     temperature := 0.2;
     maxTokens := 400;
     responseTimeout := 30000;
     enableCostTracking := true;
     cacheSystemPrompt := true;
     enableAnimations := true;
     showPerformanceMetrics := true |}.
End Config.

Module ThinkingAnimation.
Record t : Type := mk { isAnimating : bool }.

Definition start (this : t) : t := if isAnimating this then this else mk true.

Definition stop (this : t) : t := if isAnimating this then mk false else this.
End ThinkingAnimation.

Module Chatbot.

Import Async.
Local Open Scope async_scope.
Local Open Scope string_scope.

Record t : Type := mk {
  llmService : option LLMService.t;
  isInitialized : bool;
  questionCount : Z;
  costTracker : CostTracker.t;
  thinkingAnimation : ThinkingAnimation.t;
  config : Config.t
}.

Definition constructor (config : Config.t) : t :=
  {| llmService := None;
     isInitialized := false;
     questionCount := 0;
     costTracker := CostTracker.constructor;
     thinkingAnimation := ThinkingAnimation.mk false;
     config := config |}.

Definition set_llmService (svc : option LLMService.t) (this : t) : t :=
  mk svc (isInitialized this) (questionCount this) (costTracker this)
     (thinkingAnimation this) (config this).

Definition set_isInitialized (b : bool) (this : t) : t :=
  mk (llmService this) b (questionCount this) (costTracker this)
     (thinkingAnimation this) (config this).

Definition set_questionCount (n : Z) (this : t) : t :=
  mk (llmService this) (isInitialized this) n (costTracker this)
     (thinkingAnimation this) (config this).

Definition set_costTracker (c : CostTracker.t) (this : t) : t :=
  mk (llmService this) (isInitialized this) (questionCount this) c
     (thinkingAnimation this) (config this).

Definition set_thinkingAnimation (a : ThinkingAnimation.t) (this : t) : t :=
  mk (llmService this) (isInitialized this) (questionCount this) (costTracker this)
     a (config this).

(** A method call on [this.llmService]; on [null] the property read throws. *)
Definition on_llmService {A} (method : string) (m : M LLMService.t A) : M t A :=
  fun this w =>
    match llmService this with
    | None =>
        (Exn (JS.TypeError ("Cannot read properties of null (reading '" ++ method ++ "')")),
         this, w)
    | Some svc =>
        match m svc w with
        | (r, svc', w') => (r, set_llmService (Some svc') this, w')
        end
    end.

(** [this.costTracker.trackQuery(question, response, responseTime)] *)
Definition trackQuery (question : string) (response : Response.t) (responseTime : Z)
  : M t QueryCost.t :=
  fun this w =>
    match CostTracker.trackQuery (costTracker this) question response responseTime (World.now w) with
    | (tracker', cost) => (Val cost, set_costTracker tracker' this, w)
    end.

Definition when {S} (b : bool) (m : M S unit) : M S unit := if b then m else ret tt.

(** What the outside world does during [initialize]: whether the
    connection check succeeds, and what the data loader returns or throws. *)
Record startup : Type := mkStartup {
  isConnected : bool;
  loaded : res (list Property.t)
}.

(** [initialize()], up to the point where it marks the chatbot initialized;
    the report it prints after that only reads the catalog. *)
Definition initialize (env : startup) : M t bool :=
  try_catch
    (this <- get ;;
     when (negb (JS.truthy (Config.openaiApiKey (config this))))
          (throw (JS.Error "OPENAI_API_KEY is required. Please set it in your .env file.")) ;;
     modify (set_llmService
               (Some (LLMService.constructor
                        (Config.openaiModel (config this))
                        (Config.temperature (config this))
                        (Config.maxTokens (config this))
                        (Config.responseTimeout (config this))
                        (Config.cacheSystemPrompt (config this))))) ;;
     when (negb (isConnected env))
          (throw (JS.Error "Failed to connect to OpenAI. Please check your API key.")) ;;
     properties <- match loaded env with
                   | Val ps => ret ps
                   | Exn e => throw e
                   end ;;
     when (match properties with [] => true | _ => false end)
          (throw (JS.Error "No property data available. Please check the JSON file.")) ;;
     on_llmService "setProperties"
       (modify (fun svc => LLMService.setProperties svc properties)) ;;
     modify (set_isInitialized true) ;;
     ret true)
    (fun error => ret false).

(** The fixed answer of the [catch] block of [askQuestion]. *)
Definition apology : string :=
  "I apologize, but I encountered an error while processing your question. Please try rephrasing your question or ask about specific properties, locations, or facilities.".

Definition animation (f : ThinkingAnimation.t -> ThinkingAnimation.t) : M t unit :=
  this <- get ;;
  when (Config.enableAnimations (config this))
       (modify (fun this => set_thinkingAnimation (f (thinkingAnimation this)) this)).

(** The body of the [try] block of [askQuestion]. *)
Definition askQuestion_try (create : client) (question : string) (startTime : Z)
  : M t Result.t :=
  animation ThinkingAnimation.start ;;
  response <- on_llmService "answerQuestion" (LLMService.answerQuestion create question) ;;
  now <- Date_now ;;
  let responseTime := (now - startTime)%Z in
  animation ThinkingAnimation.stop ;;
  this <- get ;;
  cost <- (if Config.enableCostTracking (config this)
           then c <- trackQuery question response responseTime ;; ret (CostOf c)
           else ret CostNull) ;;
  this <- get ;;
  ret {| Result.question := Response.question response;
         Result.answer := Response.answer response;
         Result.tokensUsed := Response.tokensUsed response;
         Result.usage := Response.usage response;
         Result.model := Response.model response;
         Result.timestamp := Response.timestamp response;
         Result.error := Response.error response;
         Result.responseTime := responseTime;
         Result.questionNumber := questionCount this;
         Result.cost := cost |}.

(** The [catch] block of [askQuestion]. *)
Definition askQuestion_catch (question : string) (startTime : Z) (error : JS.exn)
  : M t Result.t :=
  animation ThinkingAnimation.stop ;;
  now <- Date_now ;;
  this <- get ;;
  ret {| Result.question := question;
         Result.answer := Some apology;
         Result.tokensUsed := None;
         Result.usage := None;
         Result.model := None;
         Result.timestamp := None;
         Result.error := Some (JS.message error);
         Result.responseTime := (now - startTime)%Z;
         Result.questionNumber := questionCount this;
         Result.cost := CostAbsent |}.

(** [askQuestion(question)] *)
Definition askQuestion (create : client) (question : string) : M t Result.t :=
  this <- get ;;
  if negb (isInitialized this)
  then throw (JS.Error "Chatbot not initialized. Please call initialize() first.")
  else
    startTime <- Date_now ;;
    modify (fun this => set_questionCount (questionCount this + 1) this) ;;
    try_catch (askQuestion_try create question startTime)
              (askQuestion_catch question startTime).

(** A session: [initialize], then questions one after the other, each with
    the client behaviour the endpoint shows during it. *)
Fixpoint ask_all (qs : list (client * string)) : M t (list Result.t) :=
  match qs with
  | [] => ret []
  | (create, question) :: rest =>
      r <- askQuestion create question ;;
      rs <- ask_all rest ;;
      ret (r :: rs)
  end.

End Chatbot.

(* ================================================================== *)
(** * Predicates used to state the properties                          *)
(* ================================================================== *)

Definition is_digit (c : ascii) : bool :=
  let n := nat_of_ascii c in ((48 <=? n) && (n <=? 57))%nat.

(** [s] consists of exactly [w] decimal digits. *)
Fixpoint all_digits (w : nat) (s : string) : bool :=
  match w, s with
  | O, EmptyString => true
  | S w', String c s' => is_digit c && all_digits w' s'
  | _, _ => false
  end.

(** The proleptic Gregorian calendar that ISO 8601 dates are written in,
    stated by its own rules (leap years, lengths of months), not by the
    conversion the program uses. *)
Module Calendar.

Local Open Scope Z_scope.

Definition is_leap (y : Z) : bool :=
  (y mod 4 =? 0) && (negb (y mod 100 =? 0) || (y mod 400 =? 0)).

Definition days_in_month (y m : Z) : Z :=
  if m =? 2 then (if is_leap y then 29 else 28)
  else if (m =? 4) || (m =? 6) || (m =? 9) || (m =? 11) then 30
  else 31.

(** Days of year [y] that precede its month [m]. *)
Definition days_before_month (y m : Z) : Z :=
  fold_right (fun k acc => if k <? m then days_in_month y k + acc else acc) 0
             [1; 2; 3; 4; 5; 6; 7; 8; 9; 10; 11; 12].

(** Leap years among the years 1 to [y]. *)
Definition leap_years_through (y : Z) : Z := y / 4 - y / 100 + y / 400.

(** Days from 1 January 1970 to 1 January of year [y]. *)
Definition days_before_year (y : Z) : Z :=
  365 * (y - 1970) + (leap_years_through (y - 1) - leap_years_through 1969).

(** Days from 1 January 1970 to the day [d] of month [m] of year [y]. *)
Definition day_number (y m d : Z) : Z :=
  days_before_year y + days_before_month y m + (d - 1).

(** The number a string of decimal digits writes, read after [acc]. *)
Fixpoint read_digits (acc : Z) (s : string) : Z :=
  match s with
  | EmptyString => acc
  | String c s' => read_digits (acc * 10 + (Z.of_nat (nat_of_ascii c) - 48)) s'
  end.

Definition decimal (s : string) : Z := read_digits 0 s.

End Calendar.

(** The content of the system message of a request, if it has one first. *)
Definition system_prompt_of (request : Request.t) : option string :=
  match Request.messages request with
  | m :: _ => if String.eqb (Message.role m) "system" then Some (Message.content m) else None
  | [] => None
  end.

(** Number of prompt generations recorded in a trace. *)
Definition generations (trace : list World.event) : nat :=
  List.length (filter (fun e => match e with World.Generated _ => true | _ => false end) trace).

(** The requests recorded in a trace, oldest first. *)
Fixpoint requests (trace : list World.event) : list Request.t :=
  match trace with
  | [] => []
  | World.Sent r :: rest => r :: requests rest
  | World.Generated _ :: rest => requests rest
  end.

(** Sums of the token counts of a log. *)
Definition sumTokens (f : QueryCost.t -> Z) (l : list Session.t) : Z :=
  fold_right (fun s acc => (f (Session.tokens s) + acc)%Z) 0%Z l.

(** What [trackQuery] keeps true: the running totals are the sums over the
    log. *)
Definition totals_agree (this : CostTracker.t) : Prop :=
  CostTracker.totalCost this == CostTracker.sumCost (CostTracker.sessions this)
  /\ TokenTotals.input (CostTracker.totalTokens this)
     = sumTokens QueryCost.inputTokens (CostTracker.sessions this)
  /\ TokenTotals.output (CostTracker.totalTokens this)
     = sumTokens QueryCost.outputTokens (CostTracker.sessions this)
  /\ TokenTotals.total (CostTracker.totalTokens this)
     = sumTokens QueryCost.totalTokens (CostTracker.sessions this).

(** The response of a call that reaches the client, by what the client does. *)
Definition response_for (this : LLMService.t) (q : string) (settled : Settlement.t)
           (timestamp : string) : Response.t :=
  match Settlement.result settled with
  | Settlement.Rejected e => LLMService.fallback q e timestamp
  | Settlement.Resolved r =>
      match Completion.first_content r with
      | Some (String c rest) => LLMService.success this q (String c rest) r timestamp
      | _ => LLMService.fallback q (JS.Error "No response received from AI") timestamp
      end
  end.

(** The Result of the [try] block, from the response of the service. *)
Definition result_of (response : Response.t) (responseTime questionNumber : Z)
           (cost : cost_field) : Result.t :=
  {| Result.question := Response.question response;
     Result.answer := Response.answer response;
     Result.tokensUsed := Response.tokensUsed response;
     Result.usage := Response.usage response;
     Result.model := Response.model response;
     Result.timestamp := Response.timestamp response;
     Result.error := Response.error response;
     Result.responseTime := responseTime;
     Result.questionNumber := questionNumber;
     Result.cost := cost |}.

Definition animation_after (this : Chatbot.t) : ThinkingAnimation.t :=
  if Config.enableAnimations (Chatbot.config this)
  then ThinkingAnimation.mk false
  else Chatbot.thinkingAnimation this.


(* ================================================================== *)
(** * A concrete session                                               *)
(* ================================================================== *)

Module Scenario.

Local Open Scope string_scope.

Definition catalog : list Property.t :=
  [ Property.mk 1 "Rio Beach House" "Rio de Janeiro, Brazil" "$18/night"
      "A bright house two streets from the beach."
      "2 bedrooms, 1 bathrooms, 0 parking spaces" "Rua das Flores 12";
    Property.mk 2 "Lisbon Loft" "Lisbon, Portugal" "$95/night"
      "A loft under the roofs of the old town."
      "1 bedrooms, 1 bathrooms, 1 parking spaces" "Address not provided" ].

(** The world at the start: the clock at 2023-11-14T22:13:20.000Z. *)
Definition w0 : World.t := World.mk 1700000000000 [].

(** The chatbot of an environment that sets only the API key, after an
    [initialize()] that finds the endpoint and the catalog. *)
Definition bot : Chatbot.t :=
  snd (fst (Chatbot.initialize (Chatbot.mkStartup true (Async.Val catalog))
                               (Chatbot.constructor (Config.default "sk-test")) w0)).

Definition completion (text : option string) (promptTokens completionTokens : Z)
  : Completion.t :=
  Completion.mk
    [ Completion.mkChoice (Some (Completion.mkMessage text)) ]
    (Some (Usage.mk (Some promptTokens) (Some completionTokens)
                    (Some (promptTokens + completionTokens)%Z))).

(** The endpoint gives up after 30 seconds: the client rejects. *)
Definition timing_out : client :=
  fun _ => Settlement.mk 30000 (Settlement.Rejected (JS.Error "Request timed out.")).

(** The endpoint answers, but only after 45 seconds. *)
Definition slow : client :=
  fun _ => Settlement.mk 45000
             (Settlement.Resolved (completion (Some "Rio Beach House at $18/night") 650 18)).

(** The endpoint answers with one blank. *)
Definition blank : client :=
  fun _ => Settlement.mk 900 (Settlement.Resolved (completion (Some " ") 650 1)).

(** The endpoint answers with an empty text. *)
Definition empty : client :=
  fun _ => Settlement.mk 900 (Settlement.Resolved (completion (Some EmptyString) 650 0)).

(** The endpoint answers without any choice. *)
Definition absent : client :=
  fun _ => Settlement.mk 900 (Settlement.Resolved (Completion.mk [] None)).

End Scenario.

(** Unfolding of the monadic code of the two classes. *)
Ltac async_unfold :=
  unfold LLMService.answerQuestion, LLMService.answerQuestion_try,
    LLMService.answerQuestion_catch, LLMService.systemPromptFor,
    LLMService.storeSystemPrompt, Async.try_catch, Async.bind, Async.get, Async.throw,
    Async.ret, Async.emit, Async.modify, Async.await_create, Async.Date_iso,
    Async.Date_now.

Ltac chatbot_unfold :=
  unfold Chatbot.askQuestion, Chatbot.askQuestion_try, Chatbot.askQuestion_catch,
    Chatbot.animation, Chatbot.when, Chatbot.on_llmService, Chatbot.trackQuery,
    Async.try_catch, Async.bind, Async.get, Async.throw, Async.ret, Async.modify,
    Async.Date_now.

(* ================================================================== *)
(** * [src/cost-tracker.js]: what the class displays                   *)
(* ================================================================== *)

(** The text handed to [console.log]; the colours [chalk] adds around it
    depend on the terminal and are left out. *)
Module CostReport.

Local Open Scope string_scope.

(** [x.toFixed(6)] on the result of a division. *)
Definition toFixed6 (x : JS.number) : string :=
  match x with
  | JS.Finite q => JS.toFixed 6 q
  | JS.NaN => "NaN"
  | JS.Infinity negative => if negative then "-Infinity" else "Infinity"
  end.

(** [Math.round(x)] rendered by a template literal. *)
Definition showRound (x : JS.number) : string :=
  match x with
  | JS.Finite q => JS.show_Z (Qfloor (q + (1 # 2)))
  | JS.NaN => "NaN"
  | JS.Infinity negative => if negative then "-Infinity" else "Infinity"
  end.

(** ['━'.repeat(40)] *)
Definition rule : string :=
  let fix rep (n : nat) : string :=
    match n with O => EmptyString | S n' => "━" ++ rep n' end in
  rep 40%nat.

(** [displayQueryCost(cost, responseTime)]: the line it prints. *)
Definition displayQueryCost (cost : QueryCost.t) (responseTime : Z) : string :=
  let tokensInfo :=
    if (0 <? QueryCost.totalTokens cost)%Z
    then "Tokens: " ++ JS.show_Z (QueryCost.totalTokens cost)
          ++ " (" ++ JS.show_Z (QueryCost.inputTokens cost)
          ++ "+" ++ JS.show_Z (QueryCost.outputTokens cost) ++ ")"
    else "Tokens: estimated" in
  "💰 Query cost: " ++ QueryCost.formattedCost cost ++ " | " ++ tokensInfo
    ++ " | Time: " ++ JS.show_Z responseTime ++ "ms".

(** The closing line of the summary, chosen by the total cost. *)
Definition costTip (totalCost : Q) : string :=
  if Qlt_le_dec 0.01 totalCost
  then "💡 Tip: Consider using shorter prompts to reduce costs"
  else if Qlt_le_dec 0.001 totalCost
       then "💡 Good: Reasonable cost for this session"
       else "💡 Excellent: Very cost-effective session!".

(** [displaySessionSummary()]: the lines it prints, in order.
    [toLocaleString] is the number formatting of the host's locale. *)
Definition displaySessionSummary (toLocaleString : Z -> string) (this : CostTracker.t)
  : list string :=
  let stats := CostTracker.getSessionStats this in
  [ LLMService.nl ++ "💰 Session Cost Summary";
    rule;
    "Total Queries: " ++ JS.show_Z (Stats.totalQueries stats);
    "Total Tokens: " ++ toLocaleString (TokenTotals.total (Stats.totalTokens stats));
    "  • Input: " ++ toLocaleString (TokenTotals.input (Stats.totalTokens stats));
    "  • Output: " ++ toLocaleString (TokenTotals.output (Stats.totalTokens stats));
    "Total Cost: " ++ Stats.formattedTotalCost stats ]
  ++ (if (0 <? Stats.totalQueries stats)%Z
      then [ "Average per query: $" ++ toFixed6 (Stats.averageCostPerQuery stats);
             "Average tokens: " ++ showRound (Stats.averageTokensPerQuery stats) ]
      else [])
  ++ [ rule; costTip (Stats.totalCost stats) ].

End CostReport.

(** A call whose reported token counts, if any, are not negative. *)
Definition reports_nonnegative (c : CostTracker.call) : Prop :=
  match c with
  | CostTracker.TrackQuery _ response _ _ =>
      (0 <= fst (CostTracker.reportedTokens response))%Z
      /\ (0 <= snd (CostTracker.reportedTokens response))%Z
  | _ => True
  end.

(** [needle] occurs in [hay]. *)
Definition contains (needle hay : string) : Prop :=
  exists pre post, hay = (pre ++ needle ++ post)%string.

(* ================================================================== *)
(** * [src/chatbot.js]: the line handler of the interactive session    *)
(* ================================================================== *)

Module Interactive.

Import Async.
Local Open Scope async_scope.
Local Open Scope string_scope.

(** [c.toLowerCase()] on the ASCII range. *)
Definition lower (c : ascii) : ascii :=
  let n := nat_of_ascii c in
  if ((65 <=? n) && (n <=? 90))%nat then ascii_of_nat (n + 32) else c.

(** [s.toLowerCase()] *)
Fixpoint toLowerCase (s : string) : string :=
  match s with
  | EmptyString => EmptyString
  | String c s' => String (lower c) (toLowerCase s')
  end.

(** [words.includes(s)] *)
Definition includes (words : list string) (s : string) : bool :=
  existsb (String.eqb s) words.

(** What the handler of a line does with it. *)
Inductive action : Type :=
| ExitSession
| Reprompt
| ShowHelp
| Ask (question : string).

(** The tests the ['line'] handler makes on [input.trim()], in its order. *)
Definition dispatch (input : string) : action :=
  let question := JS.trim input in
  if includes ["exit"; "quit"; "bye"; "goodbye"] (toLowerCase question) then ExitSession
  else if negb (JS.truthy (Some question)) then Reprompt
  else if includes ["help"; "?"] (toLowerCase question) then ShowHelp
  else Ask question.

(** What the handler has shown when it returns. *)
Inductive shown : Type :=
| Goodbye (questionsAnswered : Z) (withSummary : bool)
| Prompt
| Help
| Answer (answer : option string)
| Sorry.

(** The ['line'] handler, one line handled to its end.  The help branch
    calls [this.llmService.getSuggestedQuestions()] outside any [try]; which
    questions it then prints is left out. *)
Definition onLine (create : client) (input : string) : M Chatbot.t shown :=
  match dispatch input with
  | ExitSession =>
      this <- get ;;
      ret (Goodbye (Chatbot.questionCount this)
                   (Config.enableCostTracking (Chatbot.config this)
                    && (0 <? Chatbot.questionCount this)%Z))
  | Reprompt => ret Prompt
  | ShowHelp => Chatbot.on_llmService "getSuggestedQuestions" (ret Help)
  | Ask question =>
      try_catch
        (response <- Chatbot.askQuestion create question ;;
         ret (Answer (Result.answer response)))
        (fun error => ret Sorry)
  end.

End Interactive.

(* ================================================================== *)
(** * [src/data-loader.js]                                             *)
(* ================================================================== *)

(** A member of a JSON object whose value, when present, has the expected
    type: missing, [null], or a value.  Prices are JSON integers. *)
Inductive field (A : Type) : Type :=
| Undefined
| Null
| Value (a : A).
Arguments Undefined {A}.
Arguments Null {A}.
Arguments Value {A} a.

Module DataLoader.

Local Open Scope string_scope.

(** [f || d] for a string member. *)
Definition stringOr (f : field string) (d : string) : string :=
  match f with
  | Value (String c s) => String c s
  | _ => d
  end.

(** [f || 0] for a number member. *)
Definition numberOr0 (f : field Z) : Z :=
  match f with
  | Value n => n
  | _ => 0%Z
  end.

(** A string member inside a template literal. *)
Definition showString (f : field string) : string :=
  match f with
  | Undefined => "undefined"
  | Null => "null"
  | Value s => s
  end.

(** A number member inside a template literal. *)
Definition showNumber (f : field Z) : string :=
  match f with
  | Undefined => "undefined"
  | Null => "null"
  | Value n => JS.show_Z n
  end.

(** Truthiness of a string member and of a number member. *)
Definition truthyString (f : field string) : bool :=
  match f with Value (String _ _) => true | _ => false end.

Definition truthyNumber (f : field Z) : bool :=
  match f with Value n => negb (n =? 0)%Z | _ => false end.

(** A facility count as the JSON file may hold it: missing, [null], an
    integer literal, or a string. *)
Inductive count : Type :=
| CUndefined
| CNull
| CNum (n : Z)
| CStr (s : string).

Definition truthyCount (c : count) : bool :=
  match c with
  | CNum n => negb (n =? 0)%Z
  | CStr (String _ _) => true
  | _ => false
  end.

(** The value of a digit in radix 10 or 16, if the character is one. *)
Definition digitValue (radix : Z) (c : ascii) : option Z :=
  let n := Z.of_nat (nat_of_ascii c) in
  let v := if ((48 <=? n) && (n <=? 57))%Z then Some (n - 48)%Z
           else if ((97 <=? n) && (n <=? 102))%Z then Some (n - 87)%Z
           else if ((65 <=? n) && (n <=? 70))%Z then Some (n - 55)%Z
           else None in
  match v with
  | Some d => if (d <? radix)%Z then Some d else None
  | None => None
  end.

(** The number written by the longest prefix of digits of [s], read after
    the digits already read, whose number is [acc]; [None] if no digit was
    read at all. *)
Fixpoint digitsPrefix (radix : Z) (s : string) (acc : option Z) : option Z :=
  match s with
  | EmptyString => acc
  | String c s' =>
      match digitValue radix c with
      | Some d =>
          digitsPrefix radix s'
            (Some (match acc with Some a => a * radix + d | None => d end)%Z)
      | None => acc
      end
  end.

(** The double nearest to an integer, the even one of two that are equally
    near: the number that JavaScript holds for it.  Integers below 2^53 in
    absolute value are doubles themselves.  (Beyond 2^1024 the nearest
    double is an infinity; such counts are not modelled.) *)
Definition toDouble (n : Z) : Z :=
  let a := Z.abs n in
  if (a <? 2 ^ 53)%Z then n
  else
    let e := (Z.log2 a - 52)%Z in
    let q := (a / 2 ^ e)%Z in
    let r := (a mod 2 ^ e)%Z in
    let half := (2 ^ (e - 1))%Z in
    let q' := if ((half <? r) || ((r =? half) && Z.odd q))%Z then (q + 1)%Z else q in
    (Z.sgn n * (q' * 2 ^ e))%Z.

(** [parseInt(s)] for a string; [None] is [NaN].  The digits are read as an
    integer, and the result is the double nearest to it. *)
Definition parseIntString (s : string) : option Z :=
  let s := JS.trimStart s in
  let '(sign, s) :=
    match s with
    | String "-" s' => ((-1)%Z, s')
    | String "+" s' => (1%Z, s')
    | _ => (1%Z, s)
    end in
  let '(radix, s) :=
    match s with
    | String "0" (String "x" s') => (16%Z, s')
    | String "0" (String "X" s') => (16%Z, s')
    | _ => (10%Z, s)
    end in
  match digitsPrefix radix s None with
  | Some n => Some (toDouble (sign * n))%Z
  | None => None
  end.

(** The first decimal digit of a positive integer. *)
Definition leadingDigit (n : Z) : Z :=
  let fix go (fuel : nat) (n : Z) : Z :=
    match fuel with
    | O => n
    | S fuel' => if (n <? 10)%Z then n else go fuel' (n / 10)%Z
    end in
  go (Z.to_nat (Z.log2 n)) n.

(** [parseInt(c)]: the argument is turned into a string first.  A number
    below 10^21 is written with all its digits, which read back as the
    number; from 10^21 on it is written with an exponent, of which
    [parseInt] reads the first digit. *)
Definition parseInt (c : count) : option Z :=
  match c with
  | CUndefined | CNull => None
  | CNum n =>
      let d := toDouble n in
      if (Z.abs d <? 10 ^ 21)%Z then Some d
      else Some (Z.sgn d * leadingDigit (Z.abs d))%Z
  | CStr s => parseIntString s
  end.

(** [parseInt(c) || 0] *)
Definition parseIntOr0 (c : count) : Z :=
  match parseInt c with Some n => n | None => 0%Z end.

Module RawFacilities.
Record t : Type := mk {
  bedrooms : count;
  bathrooms : count;
  parkings : count;
  parking : count
}.
End RawFacilities.

Module Facilities.
Record t : Type := mk { bedrooms : Z; bathrooms : Z; parking : Z }.
End Facilities.

(** [normalizeFacilities(facilities)] *)
Definition normalizeFacilities (facilities : field RawFacilities.t) : Facilities.t :=
  match facilities with
  | Value f =>
      {| Facilities.bedrooms := parseIntOr0 (RawFacilities.bedrooms f);
         Facilities.bathrooms := parseIntOr0 (RawFacilities.bathrooms f);
         Facilities.parking :=
           parseIntOr0 (if truthyCount (RawFacilities.parkings f)
                        then RawFacilities.parkings f
                        else RawFacilities.parking f) |}
  | _ => Facilities.mk 0 0 0
  end.

(** One element of the [properties] array of the JSON file. *)
Module Raw.
Record t : Type := mk {
  id : field string;
  title : field string;
  description : field string;
  price : field Z;
  city : field string;
  country : field string;
  address : field string;
  facilities : field RawFacilities.t;
  image : field string
}.
End Raw.

(** One element of what [formatPropertiesForAI] returns. *)
Module Formatted.
Record t : Type := mk {
  id : field string;
  index : Z;
  title : string;
  description : string;
  price : Z;
  priceDisplay : string;
  location : string;
  address : string;
  facilities : Facilities.t;
  facilitiesText : string;
  hasImage : bool;
  summary : string
}.

(** The members the system prompt reads. *)
Definition forPrompt (p : t) : Property.t :=
  {| Property.index := index p;
     Property.title := title p;
     Property.location := location p;
     Property.priceDisplay := priceDisplay p;
     Property.description := description p;
     Property.facilitiesText := facilitiesText p;
     Property.address := address p |}.
End Formatted.

(** The callback of [properties.map] in [formatPropertiesForAI]. *)
Definition formatProperty (property : Raw.t) (index : nat) : Formatted.t :=
  let facilities := normalizeFacilities (Raw.facilities property) in
  {| Formatted.id := Raw.id property;
     Formatted.index := Z.of_nat index + 1;
     Formatted.title := stringOr (Raw.title property) "Untitled Property";
     Formatted.description := JS.substring0 300 (stringOr (Raw.description property) "");
     Formatted.price := numberOr0 (Raw.price property);
     Formatted.priceDisplay := "$" ++ showNumber (Raw.price property) ++ "/night";
     Formatted.location :=
       stringOr (Raw.city property) "Unknown" ++ ", "
         ++ stringOr (Raw.country property) "Unknown";
     Formatted.address := stringOr (Raw.address property) "Address not provided";
     Formatted.facilities := facilities;
     Formatted.facilitiesText :=
       JS.show_Z (Facilities.bedrooms facilities) ++ " bedrooms, "
         ++ JS.show_Z (Facilities.bathrooms facilities) ++ " bathrooms, "
         ++ JS.show_Z (Facilities.parking facilities) ++ " parking spaces";
     Formatted.hasImage := truthyString (Raw.image property);
     Formatted.summary :=
       showString (Raw.title property) ++ " in " ++ showString (Raw.city property)
         ++ ", " ++ showString (Raw.country property)
         ++ " - $" ++ showNumber (Raw.price property) ++ "/night" |}.

(** [array.map((x, index) => f(x, index))], counting from [start]. *)
Fixpoint mapi {A B : Type} (f : A -> nat -> B) (start : nat) (l : list A) : list B :=
  match l with
  | [] => []
  | x :: rest => f x start :: mapi f (S start) rest
  end.

(** [formatPropertiesForAI(properties)] *)
Definition formatPropertiesForAI (properties : list Raw.t) : list Formatted.t :=
  mapi formatProperty 0 properties.

(** [isCompleteProperty(property)] *)
Definition isCompleteProperty (property : Raw.t) : bool :=
  truthyString (Raw.title property)
  && truthyString (Raw.description property)
  && truthyNumber (Raw.price property)
  && truthyString (Raw.city property)
  && truthyString (Raw.country property)
  && match Raw.facilities property with Value _ => true | _ => false end.

(** What reading and parsing the file gives: an exception, or the
    [properties] member of the parsed object, if it is an array. *)
Definition file : Type := Async.res (option (list Raw.t)).

(** [loadPropertiesFromFile()] *)
Definition loadPropertiesFromFile (content : file) : Async.res (list Raw.t) :=
  match content with
  | Async.Exn e => Async.Exn e
  | Async.Val None =>
      Async.Exn (JS.Error "Invalid JSON structure: properties array not found")
  | Async.Val (Some properties) => Async.Val properties
  end.

(** [getProperties()], for a loader built with [maxProperties]. *)
Definition getProperties (maxProperties : Z) (content : file) : Async.res (list Formatted.t) :=
  match loadPropertiesFromFile content with
  | Async.Exn e => Async.Exn e
  | Async.Val allProperties => Async.Val (formatPropertiesForAI allProperties)
  end.

(** What [initialize()] meets when it runs against a file: the outcome of
    the connection check, and what [new PropertyDataLoader(maxProperties)
    .getProperties()] returns or throws, as the members the service reads. *)
Definition startup (isConnected : bool) (maxProperties : Z) (content : file)
  : Chatbot.startup :=
  {| Chatbot.isConnected := isConnected;
     Chatbot.loaded :=
       match getProperties maxProperties content with
       | Async.Exn e => Async.Exn e
       | Async.Val properties => Async.Val (map Formatted.forPrompt properties)
       end |}.

End DataLoader.

(** [l] is what is left of [l'] when some of its elements are dropped. *)
Inductive subsequence {A : Type} : list A -> list A -> Prop :=
| subsequence_nil : subsequence [] []
| subsequence_skip (x : A) (l l' : list A) : subsequence l l' -> subsequence l (x :: l')
| subsequence_keep (x : A) (l l' : list A) : subsequence l l' -> subsequence (x :: l) (x :: l').

(** The numbers that the statistics of a catalog can show: an integer, or
    what JavaScript makes of the minimum, maximum or mean of no number. *)
Inductive shownNumber : Type :=
| Int (n : Z)
| PlusInfinity
| MinusInfinity
| NotANumber.

Module Catalog.

Local Open Scope string_scope.

Definition show (x : shownNumber) : string :=
  match x with
  | Int n => JS.show_Z n
  | PlusInfinity => "Infinity"
  | MinusInfinity => "-Infinity"
  | NotANumber => "NaN"
  end.

(** [s.split(',')[0]] *)
Fixpoint beforeComma (s : string) : string :=
  match s with
  | EmptyString => EmptyString
  | String c s' => if Ascii.eqb c "," then EmptyString else String c (beforeComma s')
  end.

(** What follows the first comma of [s], if there is one. *)
Fixpoint afterComma (s : string) : option string :=
  match s with
  | EmptyString => None
  | String c s' => if Ascii.eqb c "," then Some s' else afterComma s'
  end.

(** [s.split(',')[1]] *)
Definition secondPart (s : string) : option string :=
  option_map beforeComma (afterComma s).

(** [[...new Set(l)]]: the first occurrence of each element, in order. *)
Fixpoint unique {A : Type} (eqb : A -> A -> bool) (seen : list A) (l : list A) : list A :=
  match l with
  | [] => []
  | x :: rest =>
      if existsb (eqb x) seen then unique eqb seen rest
      else x :: unique eqb (x :: seen) rest
  end.

(** [prices.filter(p => p > 0)] *)
Definition positive (prices : list Z) : list Z := filter (fun p => (0 <? p)%Z) prices.

(** [Math.min(...l)] and [Math.max(...l)] *)
Definition minOf (l : list Z) : shownNumber :=
  match l with
  | [] => PlusInfinity
  | x :: rest => Int (fold_left Z.min rest x)
  end.

Definition maxOf (l : list Z) : shownNumber :=
  match l with
  | [] => MinusInfinity
  | x :: rest => Int (fold_left Z.max rest x)
  end.

(** [Math.round((a + b) / 2)] *)
Definition roundedMiddle (a b : shownNumber) : shownNumber :=
  match a, b with
  | Int x, Int y => Int ((x + y + 1) / 2)
  | PlusInfinity, PlusInfinity => PlusInfinity
  | PlusInfinity, Int _ => PlusInfinity
  | Int _, PlusInfinity => PlusInfinity
  | MinusInfinity, MinusInfinity => MinusInfinity
  | MinusInfinity, Int _ => MinusInfinity
  | Int _, MinusInfinity => MinusInfinity
  | _, _ => NotANumber
  end.

(** [Math.round(l.reduce((a, b) => a + b, 0) / l.length)] *)
Definition roundedMean (l : list Z) : shownNumber :=
  match l with
  | [] => NotANumber
  | _ =>
      let sum := fold_left Z.add l 0%Z in
      let n := Z.of_nat (List.length l) in
      Int ((2 * sum + n) / (2 * n))
  end.

(** [LLMService.getSuggestedQuestions()], on the catalog the service was
    given by [setProperties]. *)
Definition getSuggestedQuestions (properties : list DataLoader.Formatted.t) : list string :=
  match properties with
  | [] => []
  | _ :: _ =>
      let locations :=
        unique String.eqb []
               (map (fun p => beforeComma (DataLoader.Formatted.location p)) properties) in
      let prices := positive (map DataLoader.Formatted.price properties) in
      let minPrice := minOf prices in
      let maxPrice := maxOf prices in
      let first := match locations with l :: _ => l | [] => "undefined" end in
      let second :=
        match locations with
        | _ :: String c s :: _ => String c s
        | _ => first
        end in
      [ "What properties do you have available?";
        "Show me properties under $" ++ show (roundedMiddle minPrice maxPrice) ++ "/night";
        "What properties are available in " ++ first ++ "?";
        "I need a property with at least 2 bedrooms";
        "What's the cheapest property available?";
        "Show me luxury properties";
        "I need a place with parking";
        "Do you have anything in " ++ second ++ "?";
        "What properties have the most bathrooms?";
        "I'm looking for a romantic getaway" ]
  end.

(** The object [PropertyDataLoader.getStats()] returns (without the
    metadata of the file). *)
Record stats : Type := mkStats {
  totalProperties : Z;
  priceMin : shownNumber;
  priceMax : shownNumber;
  priceAvg : shownNumber;
  countries : Z;
  countryList : list (option string)
}.

Definition optionEqb (a b : option string) : bool :=
  match a, b with
  | Some x, Some y => String.eqb x y
  | None, None => true
  | _, _ => false
  end.

(** [PropertyDataLoader.getStats()]; [None] is [null]. *)
Definition getStats (properties : list DataLoader.Formatted.t) : option stats :=
  match properties with
  | [] => None
  | _ :: _ =>
      let prices := positive (map DataLoader.Formatted.price properties) in
      let countryList :=
        unique optionEqb []
               (map (fun p => option_map JS.trim
                                (secondPart (DataLoader.Formatted.location p)))
                    properties) in
      Some {| totalProperties := Z.of_nat (List.length properties);
              priceMin := minOf prices;
              priceMax := maxOf prices;
              priceAvg := roundedMean prices;
              countries := Z.of_nat (List.length countryList);
              countryList := countryList |}
  end.

End Catalog.

(** [selectDiverseProperties(allProperties)] of [src/data-loader.js]. *)
Module Selection.

Local Open Scope Z_scope.

(** The comparator given to [sort]; a difference that is [NaN] (a missing
    price) counts as 0, as [sort] takes it.  [null] counts as the number 0. *)
Definition compare (a b : DataLoader.Raw.t) : Z :=
  let aComplete := DataLoader.isCompleteProperty a in
  let bComplete := DataLoader.isCompleteProperty b in
  if negb (Bool.eqb aComplete bComplete)
  then (if bComplete then 1 else 0) - (if aComplete then 1 else 0)
  else
    match DataLoader.Raw.price a, DataLoader.Raw.price b with
    | Undefined, _ | _, Undefined => 0
    | pa, pb => DataLoader.numberOr0 pa - DataLoader.numberOr0 pb
    end.

(** Insertion of [x] in front of the first element it does not follow. *)
Fixpoint insert (x : DataLoader.Raw.t) (l : list DataLoader.Raw.t) : list DataLoader.Raw.t :=
  match l with
  | [] => [x]
  | y :: rest => if compare x y <=? 0 then x :: l else y :: insert x rest
  end.

(** [[...allProperties].sort(compare)]: the stable sort.  It is what every
    engine returns when the comparator is consistent, which it is when no
    price is missing. *)
Definition sorted (allProperties : list DataLoader.Raw.t) : list DataLoader.Raw.t :=
  fold_right insert [] allProperties.

Inductive priceRange : Type := Budget | Mid | Luxury.

Record counts : Type := mkCounts { budget : Z; mid : Z; luxury : Z }.

Definition countOf (r : priceRange) (c : counts) : Z :=
  match r with Budget => budget c | Mid => mid c | Luxury => luxury c end.

Definition increment (r : priceRange) (c : counts) : counts :=
  match r with
  | Budget => mkCounts (budget c + 1) (mid c) (luxury c)
  | Mid => mkCounts (budget c) (mid c + 1) (luxury c)
  | Luxury => mkCounts (budget c) (mid c) (luxury c + 1)
  end.

Definition rangeOf (price : Z) : priceRange :=
  if 150 <=? price then Luxury else if 50 <=? price then Mid else Budget.

(** [property.country?.toLowerCase()] *)
Definition countryOf (property : DataLoader.Raw.t) : option string :=
  match DataLoader.Raw.country property with
  | Value s => Some (Interactive.toLowerCase s)
  | _ => None
  end.

(** [usedCountries.has(country)] *)
Definition has (usedCountries : list string) (country : option string) : bool :=
  match country with
  | Some s => existsb (String.eqb s) usedCountries
  | None => false
  end.

(** The [for] loop over the sorted properties: [selected] is the array
    built so far, oldest first. *)
Fixpoint loop (maxProperties : Z) (properties : list DataLoader.Raw.t)
         (selected : list DataLoader.Raw.t) (usedCountries : list string)
         (priceRanges : counts) : list DataLoader.Raw.t :=
  match properties with
  | [] => selected
  | property :: rest =>
      if maxProperties <=? Z.of_nat (List.length selected) then selected
      else
        let country := countryOf property in
        let price := DataLoader.numberOr0 (DataLoader.Raw.price property) in
        let range := rangeOf price in
        let needsCountry := negb (has usedCountries country) in
        let needsPriceRange := countOf range priceRanges <? 3 in
        if needsCountry || needsPriceRange || (Z.of_nat (List.length selected) <? 5)
        then loop maxProperties rest (selected ++ [property])
                  (match country with
                   | Some (String c s) => String c s :: usedCountries
                   | _ => usedCountries
                   end)
                  (increment range priceRanges)
        else loop maxProperties rest selected usedCountries priceRanges
  end.

Definition selectDiverseProperties (maxProperties : Z) (allProperties : list DataLoader.Raw.t)
  : list DataLoader.Raw.t :=
  loop maxProperties (sorted allProperties) [] [] (mkCounts 0 0 0).

End Selection.

(** A small file: two complete properties, and one that has only a city
    and quoted counts. *)
Module Sample.

Local Open Scope string_scope.

Definition allProperties : list DataLoader.Raw.t :=
  [ DataLoader.Raw.mk
      (Value "p-1") (Value "Rio Beach House")
      (Value "A bright house two streets from the beach.") (Value 18%Z)
      (Value "Rio de Janeiro") (Value "Brazil") (Value "Rua das Flores 12")
      (Value (DataLoader.RawFacilities.mk
                (DataLoader.CNum 2) (DataLoader.CNum 1)
                DataLoader.CUndefined (DataLoader.CNum 0)))
      (Value "rio.jpg");
    DataLoader.Raw.mk
      Undefined Undefined Undefined Undefined
      (Value "Porto") Null Undefined
      (Value (DataLoader.RawFacilities.mk
                (DataLoader.CStr "3") (DataLoader.CStr "2 baths")
                (DataLoader.CStr "0") (DataLoader.CNum 4)))
      Undefined;
    DataLoader.Raw.mk
      (Value "p-3") (Value "Lisbon Loft")
      (Value "A loft under the roofs of the old town.") (Value 95%Z)
      (Value "Lisbon") (Value "Portugal") Undefined
      (Value (DataLoader.RawFacilities.mk
                (DataLoader.CNum 1) (DataLoader.CNum 1)
                (DataLoader.CNum 1) DataLoader.CUndefined))
      Null ].

Definition properties : list DataLoader.Formatted.t :=
  DataLoader.formatPropertiesForAI allProperties.

End Sample.

(* ================================================================== *)
(** * The built-ins on known values                                    *)
(* ================================================================== *)

Section BuiltIns.

Local Open Scope string_scope.

Example toISOString_epoch : JS.toISOString 0 = "1970-01-01T00:00:00.000Z".
Proof. reflexivity. Qed.

Example toISOString_leap_day : JS.toISOString 951782400000 = "2000-02-29T00:00:00.000Z".
Proof. reflexivity. Qed.

Example toISOString_before_epoch : JS.toISOString (-1) = "1969-12-31T23:59:59.999Z".
Proof. reflexivity. Qed.

Example toISOString_last_four_digit_year :
  JS.toISOString 253402300799999 = "9999-12-31T23:59:59.999Z"
  /\ JS.toISOString 253402300800000 = "+010000-01-01T00:00:00.000Z".
Proof. split; reflexivity. Qed.

Example day_number_known_dates :
  (Calendar.day_number 1970 1 1 = 0
   /\ Calendar.day_number 1969 12 31 = -1
   /\ Calendar.day_number 2000 2 29 = 11016
   /\ Calendar.day_number 2000 3 1 = 11017
   /\ Calendar.day_number 2023 11 14 = 19675
   /\ Calendar.day_number 1900 3 1 - Calendar.day_number 1900 2 1 = 28
   /\ Calendar.day_number 2024 3 1 - Calendar.day_number 2024 2 1 = 29
   /\ Calendar.day_number 2371 1 1 - Calendar.day_number 1971 1 1 = 146097)%Z
  /\ Calendar.decimal "0950" = 950%Z.
Proof. repeat split; reflexivity. Qed.

Example toFixed_six_decimals :
  JS.toFixed 6 0.0000016 = "0.000002" /\ JS.toFixed 6 0.0000014 = "0.000001"
  /\ JS.toFixed 6 0.001011 = "0.001011" /\ JS.toFixed 6 0 = "0.000000"
  /\ JS.toFixed 6 12.5 = "12.500000".
Proof. repeat split; reflexivity. Qed.

Example trim_both_ends :
  JS.trim ("  Rio " ++ LLMService.nl) = "Rio" /\ JS.trim "in  Rio" = "in  Rio"
  /\ JS.trim "   " = "".
Proof. repeat split; reflexivity. Qed.

Example ceil_div_rounds_up :
  JS.ceil_div 1040 4 = 260%Z /\ JS.ceil_div 1041 4 = 261%Z /\ JS.ceil_div 0 4 = 0%Z.
Proof. repeat split; reflexivity. Qed.

(** A blank-only string is truthy, and empty once trimmed. *)
Example blank_is_truthy : JS.truthy (Some " ") = true /\ JS.trim " " = "".
Proof. split; reflexivity. Qed.

End BuiltIns.

(* ================================================================== *)
(** * The Cost Accountant                                              *)
(* ================================================================== *)

Section CostAccountant.

Local Open Scope Q_scope.

Lemma ceil_div_4 (n : Z) : JS.ceil_div n 4 = ((n + 3) / 4)%Z.
Proof.
  unfold JS.ceil_div, Qceiling, Qfloor, Qdiv, Qinv, Qmult, Qopp, inject_Z.
  cbn [Qnum Qden].
  rewrite Z.mul_1_r. change (Z.pos (1 * 4)) with 4%Z.
  assert (H := Z.div_mod (- n) 4). assert (H' := Z.div_mod (n + 3) 4).
  assert (B := Z.mod_pos_bound (- n) 4). assert (B' := Z.mod_pos_bound (n + 3) 4).
  lia.
Qed.

(** Running the class never touches the rate table. *)
Lemma run_pricing (calls : list CostTracker.call) (this : CostTracker.t) :
  CostTracker.pricing (CostTracker.run this calls) = CostTracker.pricing this.
Proof.
  revert this. induction calls as [| c calls IH]; intros this; [reflexivity |].
  unfold CostTracker.run in *. cbn [fold_left]. rewrite IH.
  destruct c; try reflexivity.
  cbn [CostTracker.step]. unfold CostTracker.trackQuery.
  destruct (CostTracker.countTokens question response); reflexivity.
Qed.

Section TrackQuery.

Variables (this : CostTracker.t) (question : string) (response : Response.t).
Variables (responseTime now : Z).

(** The entry [trackQuery] pushes. *)
Lemma trackQuery_sessions :
  CostTracker.sessions (fst (CostTracker.trackQuery this question response responseTime now))
  = CostTracker.sessions this
      ++ [ {| Session.question := CostTracker.preview question;
              Session.responseTime := responseTime;
              Session.tokens :=
                snd (CostTracker.trackQuery this question response responseTime now);
              Session.timestamp := JS.toISOString now |} ].
Proof.
  unfold CostTracker.trackQuery.
  destruct (CostTracker.countTokens question response); reflexivity.
Qed.

(** The cost it returns. *)
Lemma trackQuery_cost :
  snd (CostTracker.trackQuery this question response responseTime now)
  = CostTracker.calculateQueryCost this
      (fst (CostTracker.countTokens question response))
      (snd (CostTracker.countTokens question response)).
Proof.
  unfold CostTracker.trackQuery.
  destruct (CostTracker.countTokens question response); reflexivity.
Qed.

(** The total it updates. *)
Lemma trackQuery_totalCost :
  CostTracker.totalCost (fst (CostTracker.trackQuery this question response responseTime now))
  = CostTracker.totalCost this
    + QueryCost.totalCost
        (snd (CostTracker.trackQuery this question response responseTime now)).
Proof.
  unfold CostTracker.trackQuery.
  destruct (CostTracker.countTokens question response); reflexivity.
Qed.

End TrackQuery.

Lemma sumCost_app l1 l2 :
  CostTracker.sumCost (l1 ++ l2) == CostTracker.sumCost l1 + CostTracker.sumCost l2.
Proof.
  unfold CostTracker.sumCost.
  induction l1 as [| s l1 IH]; cbn [app fold_right].
  - ring.
  - rewrite IH. ring.
Qed.

Lemma sumTokens_app f l1 l2 :
  sumTokens f (l1 ++ l2) = (sumTokens f l1 + sumTokens f l2)%Z.
Proof.
  unfold sumTokens.
  induction l1 as [| s l1 IH]; cbn [app fold_right]; lia.
Qed.

Lemma totals_agree_constructor : totals_agree CostTracker.constructor.
Proof. repeat split; reflexivity. Qed.

Lemma totals_agree_trackQuery this question response responseTime now :
  totals_agree this ->
  totals_agree (fst (CostTracker.trackQuery this question response responseTime now)).
Proof.
  intros (Hc & Hi & Ho & Ht).
  unfold totals_agree.
  rewrite trackQuery_sessions, trackQuery_totalCost, sumCost_app, !sumTokens_app.
  rewrite trackQuery_cost.
  unfold CostTracker.trackQuery.
  destruct (CostTracker.countTokens question response) as [i o].
  cbn [fst snd CostTracker.totalTokens TokenTotals.input TokenTotals.output TokenTotals.total
       CostTracker.sumCost sumTokens fold_right Session.tokens
       CostTracker.calculateQueryCost QueryCost.totalCost QueryCost.inputTokens
       QueryCost.outputTokens QueryCost.totalTokens].
  rewrite Hc, Hi, Ho, Ht.
  repeat split; try lia. ring.
Qed.

Lemma totals_agree_step this c : totals_agree this -> totals_agree (CostTracker.step this c).
Proof.
  destruct c; cbn [CostTracker.step]; auto using totals_agree_trackQuery.
Qed.

Lemma run_app this cs1 cs2 :
  CostTracker.run this (cs1 ++ cs2) = CostTracker.run (CostTracker.run this cs1) cs2.
Proof. unfold CostTracker.run. apply fold_left_app. Qed.

Lemma totals_agree_run cs : forall this, totals_agree this -> totals_agree (CostTracker.run this cs).
Proof.
  induction cs as [| c cs IH]; intros this H; [exact H |].
  apply (IH (CostTracker.step this c)), totals_agree_step, H.
Qed.

(** The log only grows, at its end. *)
Lemma run_sessions_grow cs : forall this,
  exists appended,
    CostTracker.sessions (CostTracker.run this cs) = CostTracker.sessions this ++ appended
    /\ List.length appended = List.length (filter CostTracker.is_track cs).
Proof.
  induction cs as [| c cs IH]; intros this.
  - exists []. split; [symmetry; apply app_nil_r | reflexivity].
  - destruct (IH (CostTracker.step this c)) as (app' & Happ & Hlen).
    change (CostTracker.run this (c :: cs)) with (CostTracker.run (CostTracker.step this c) cs).
    rewrite Happ.
    destruct c; cbn [CostTracker.step CostTracker.is_track filter];
      try (exists app'; split; [reflexivity | exact Hlen]).
    rewrite trackQuery_sessions, <- app_assoc.
    eexists. split; [reflexivity |]. cbn [app List.length]. now rewrite Hlen.
Qed.


Lemma digit_is_digit n : is_digit (JS.digit n) = true.
Proof.
  unfold JS.digit, is_digit.
  assert (B := Z.mod_pos_bound n 10 eq_refl).
  rewrite nat_ascii_embedding by lia.
  apply andb_true_intro; split; apply Nat.leb_le; lia.
Qed.

Lemma all_digits_snoc w s c :
  all_digits w s = true -> is_digit c = true -> all_digits (S w) (s ++ String c EmptyString) = true.
Proof.
  revert s. induction w as [| w IH]; intros [| a s] Hs Hc; try discriminate.
  - cbn. now rewrite Hc.
  - cbn [all_digits] in Hs. apply andb_prop in Hs as [Ha Hs].
    change (String a s ++ String c EmptyString)%string with (String a (s ++ String c EmptyString)).
    cbn [all_digits]. rewrite Ha. cbn [andb]. exact (IH s Hs Hc).
Qed.

Lemma digits_all_digits w : forall n, all_digits w (JS.digits w n) = true.
Proof.
  induction w as [| w IH]; intros n; [reflexivity |].
  cbn [JS.digits]. apply all_digits_snoc; [apply IH | apply digit_is_digit].
Qed.

Lemma toISOString_shape ms :
  exists year month day hours minutes seconds millis,
    JS.toISOString ms
    = (year ++ "-" ++ month ++ "-" ++ day ++ "T" ++ hours ++ ":" ++ minutes ++ ":"
            ++ seconds ++ "." ++ millis ++ "Z")%string
    /\ (all_digits 4 year = true
        \/ exists sign digits6,
             year = (sign ++ digits6)%string /\ (sign = "+" \/ sign = "-")%string
             /\ all_digits 6 digits6 = true)
    /\ all_digits 2 month = true /\ all_digits 2 day = true
    /\ all_digits 2 hours = true /\ all_digits 2 minutes = true
    /\ all_digits 2 seconds = true /\ all_digits 3 millis = true.
Proof.
  unfold JS.toISOString.
  destruct (JS.civil_from_days (ms / JS.msPerDay)) as [[y m] d].
  do 7 eexists. split; [reflexivity |].
  repeat split; try apply digits_all_digits.
  destruct ((0 <=? y) && (y <=? 9999))%Z.
  - left. apply digits_all_digits.
  - right. exists (if (y <? 0)%Z then "-" else "+")%string, (JS.digits 6 (Z.abs y)).
    repeat split; [destruct (y <? 0)%Z; auto | apply digits_all_digits].
Qed.

(** ** The timestamp, read back

    [JS.civil_from_days] is the conversion the embedding of [toISOString]
    uses; the lemmas below show that what it writes is the date of the
    calendar ([Calendar]) on which the clock reading falls. *)

Section Timestamps.

Local Open Scope Z_scope.

Lemma read_digits_app (s t : string) : forall acc,
  Calendar.read_digits acc (s ++ t) = Calendar.read_digits (Calendar.read_digits acc s) t.
Proof.
  induction s as [| c s IH]; intros acc; cbn [String.append Calendar.read_digits];
    [reflexivity | apply IH].
Qed.

Lemma decimal_digits (w : nat) : forall n,
  Calendar.decimal (JS.digits w n) = n mod 10 ^ Z.of_nat w.
Proof.
  unfold Calendar.decimal.
  induction w as [| w IH]; intros n.
  - cbn. now rewrite Z.mod_1_r.
  - cbn [JS.digits]. rewrite read_digits_app, IH.
    cbn [Calendar.read_digits]. unfold JS.digit.
    assert (B := Z.mod_pos_bound n 10 eq_refl).
    rewrite nat_ascii_embedding by lia.
    rewrite Nat2Z.inj_succ, Z.pow_succ_r by lia.
    rewrite (Z.rem_mul_r n 10 (10 ^ Z.of_nat w)) by lia.
    lia.
Qed.

Lemma decimal_digits_small (w : nat) (n : Z) :
  0 <= n < 10 ^ Z.of_nat w -> Calendar.decimal (JS.digits w n) = n.
Proof. intros H. rewrite decimal_digits. now apply Z.mod_small. Qed.

Lemma is_leap_spec (y : Z) :
  (Calendar.is_leap y = true /\ y mod 4 = 0 /\ (y mod 100 <> 0 \/ y mod 400 = 0))
  \/ (Calendar.is_leap y = false /\ (y mod 4 <> 0 \/ (y mod 100 = 0 /\ y mod 400 <> 0))).
Proof.
  unfold Calendar.is_leap.
  destruct (Z.eqb_spec (y mod 4) 0), (Z.eqb_spec (y mod 100) 0),
    (Z.eqb_spec (y mod 400) 0); cbn; tauto.
Qed.

Lemma days_before_month_table (y : Z) :
  let leap := if Calendar.is_leap y then 1 else 0 in
  Calendar.days_before_month y 1 = 0 /\ Calendar.days_before_month y 2 = 31
  /\ Calendar.days_before_month y 3 = 59 + leap
  /\ Calendar.days_before_month y 4 = 90 + leap
  /\ Calendar.days_before_month y 5 = 120 + leap
  /\ Calendar.days_before_month y 6 = 151 + leap
  /\ Calendar.days_before_month y 7 = 181 + leap
  /\ Calendar.days_before_month y 8 = 212 + leap
  /\ Calendar.days_before_month y 9 = 243 + leap
  /\ Calendar.days_before_month y 10 = 273 + leap
  /\ Calendar.days_before_month y 11 = 304 + leap
  /\ Calendar.days_before_month y 12 = 334 + leap.
Proof.
  unfold Calendar.days_before_month, Calendar.days_in_month.
  destruct (Calendar.is_leap y); repeat split; reflexivity.
Qed.

(** The year of the 400-year cycle that starts on 1 March, and the day of
    that year. *)
Lemma year_of_era (doe : Z) :
  0 <= doe < 146097 ->
  let yoe := (doe - doe / 1460 + doe / 36524 - doe / 146096) / 365 in
  let doy := doe - (365 * yoe + yoe / 4 - yoe / 100) in
  0 <= yoe <= 399 /\ 0 <= doy <= 365
  /\ (doy = 365 -> (yoe + 1) mod 4 = 0 /\ ((yoe + 1) mod 100 <> 0 \/ yoe = 399)).
Proof.
  intros H yoe doy. unfold doy, yoe.
  Z.to_euclidean_division_equations. lia.
Qed.

(** The conversion of a day number is a date of the calendar, and it is the
    date of that day. *)
Lemma civil_from_days_spec (days : Z) :
  let '(y, m, d) := JS.civil_from_days days in
  1 <= m <= 12 /\ 1 <= d <= Calendar.days_in_month y m
  /\ Calendar.day_number y m d = days.
Proof.
  unfold JS.civil_from_days. cbv zeta.
  set (z := days + 719468).
  set (era := z / 146097).
  set (doe := z - era * 146097).
  assert (Hdoe : 0 <= doe < 146097).
  { unfold doe, era. Z.to_euclidean_division_equations. lia. }
  assert (Hdays : days = doe + 146097 * era - 719468) by (unfold doe, z; lia).
  clearbody doe. clearbody era. clear z. subst days.
  pose proof (year_of_era doe Hdoe) as Hy. cbv zeta in Hy.
  set (yoe := (doe - doe / 1460 + doe / 36524 - doe / 146096) / 365) in *.
  clearbody yoe.
  set (doy := doe - (365 * yoe + yoe / 4 - yoe / 100)) in *.
  destruct Hy as (Hyoe & Hdoy & Hlast).
  assert (Hdoe' : doe = doy + (365 * yoe + yoe / 4 - yoe / 100)) by (unfold doy; lia).
  clearbody doy. subst doe.
  set (mp := (5 * doy + 2) / 153).
  assert (Hmp : 0 <= mp <= 11 /\ 153 * mp <= 5 * doy + 2 < 153 * (mp + 1)).
  { unfold mp. Z.to_euclidean_division_equations. lia. }
  clearbody mp. destruct Hmp as [Hmp Hmpd].
  unfold Calendar.day_number, Calendar.days_before_year, Calendar.leap_years_through.
  assert (Hcase : mp = 0 \/ mp = 1 \/ mp = 2 \/ mp = 3 \/ mp = 4 \/ mp = 5 \/ mp = 6
                  \/ mp = 7 \/ mp = 8 \/ mp = 9 \/ mp = 10 \/ mp = 11) by lia.
  destruct Hcase as [-> | [-> | [-> | [-> | [-> | [-> | [-> | [-> | [-> | [-> | [-> | ->]]]]]]]]]]].
  all: cbn [Z.ltb Z.leb Z.compare Pos.compare Pos.compare_cont].
  all: match goal with
       | |- context [Calendar.days_in_month _ ?m] =>
           let m' := eval vm_compute in m in change m with m'
       end.
  all: cbn [Z.leb Z.compare Pos.compare Pos.compare_cont].
  all: match goal with
       | |- context [Calendar.days_in_month ?y _] =>
           pose proof (days_before_month_table y) as Ht; cbv zeta in Ht;
           pose proof (is_leap_spec y) as Hl
       end.
  all: unfold Calendar.days_in_month; cbn [Z.eqb Pos.eqb orb].
  all: destruct Ht as (T1 & T2 & T3 & T4 & T5 & T6 & T7 & T8 & T9 & T10 & T11 & T12).
  all: repeat match goal with
              | H : Calendar.days_before_month _ _ = _ |- _ => rewrite H || clear H
              end.
  all: destruct Hl as [(E & Hl) | (E & Hl)]; rewrite ?E.
  all: Z.to_euclidean_division_equations; lia.
Qed.


Local Open Scope string_scope.

(** The text of [toISOString] read back: its fields are a date of the
    calendar and a time of day, and together they are the clock reading. *)
Lemma toISOString_reads_back (ms : Z) :
  exists year month day hours minutes seconds millis,
    JS.toISOString ms
    = (year ++ "-" ++ month ++ "-" ++ day ++ "T" ++ hours ++ ":" ++ minutes ++ ":"
            ++ seconds ++ "." ++ millis ++ "Z")%string
    /\ (all_digits 4 year = true
        \/ exists sign digits6,
             year = (sign ++ digits6)%string /\ (sign = "+" \/ sign = "-")%string
             /\ all_digits 6 digits6 = true)
    /\ all_digits 2 month = true /\ all_digits 2 day = true
    /\ all_digits 2 hours = true /\ all_digits 2 minutes = true
    /\ all_digits 2 seconds = true /\ all_digits 3 millis = true
    /\ exists y : Z,
        (Calendar.day_number y (Calendar.decimal month) (Calendar.decimal day) * 86400000
         + Calendar.decimal hours * 3600000 + Calendar.decimal minutes * 60000
         + Calendar.decimal seconds * 1000 + Calendar.decimal millis = ms)%Z
        /\ (1 <= Calendar.decimal month <= 12)%Z
        /\ (1 <= Calendar.decimal day
            <= Calendar.days_in_month y (Calendar.decimal month))%Z
        /\ (0 <= Calendar.decimal hours <= 23)%Z
        /\ (0 <= Calendar.decimal minutes <= 59)%Z
        /\ (0 <= Calendar.decimal seconds <= 59)%Z
        /\ (0 <= Calendar.decimal millis <= 999)%Z
        /\ ((0 <= y <= 9999)%Z -> all_digits 4 year = true /\ Calendar.decimal year = y)
        /\ ((y < 0)%Z ->
            exists digits6, year = ("-" ++ digits6)%string /\ all_digits 6 digits6 = true
                            /\ ((-999999 <= y)%Z -> Calendar.decimal digits6 = (- y)%Z))
        /\ ((9999 < y)%Z ->
            exists digits6, year = ("+" ++ digits6)%string /\ all_digits 6 digits6 = true
                            /\ ((y <= 999999)%Z -> Calendar.decimal digits6 = y)).
Proof.
  unfold JS.toISOString.
  pose proof (civil_from_days_spec (ms / JS.msPerDay)) as Hdate.
  destruct (JS.civil_from_days (ms / JS.msPerDay)) as [[y m] d].
  destruct Hdate as (Hm & Hd & Hday).
  assert (Hdim : (Calendar.days_in_month y m <= 31)%Z).
  { unfold Calendar.days_in_month.
    destruct (m =? 2)%Z; [destruct (Calendar.is_leap y); lia |].
    destruct ((m =? 4) || (m =? 6) || (m =? 9) || (m =? 11))%Z; lia. }
  unfold JS.msPerDay in *.
  set (t := (ms mod 86400000)%Z).
  assert (Ht : (0 <= t < 86400000)%Z) by (apply Z.mod_pos_bound; lia).
  assert (Hms : (ms = (ms / 86400000) * 86400000 + t)%Z).
  { unfold t. Z.to_euclidean_division_equations. lia. }
  clearbody t.
  assert (Vm : Calendar.decimal (JS.digits 2 m) = m)
    by (apply decimal_digits_small; cbn; lia).
  assert (Vd : Calendar.decimal (JS.digits 2 d) = d)
    by (apply decimal_digits_small; cbn; lia).
  assert (Vh : Calendar.decimal (JS.digits 2 (t / 3600000)) = (t / 3600000)%Z).
  { apply decimal_digits_small. cbn. Z.to_euclidean_division_equations. lia. }
  assert (Vi : Calendar.decimal (JS.digits 2 (t / 60000 mod 60)) = (t / 60000 mod 60)%Z).
  { apply decimal_digits_small. cbn. Z.to_euclidean_division_equations. lia. }
  assert (Vs : Calendar.decimal (JS.digits 2 (t / 1000 mod 60)) = (t / 1000 mod 60)%Z).
  { apply decimal_digits_small. cbn. Z.to_euclidean_division_equations. lia. }
  assert (Vt : Calendar.decimal (JS.digits 3 t) = (t mod 1000)%Z)
    by apply decimal_digits.
  do 7 eexists. split; [reflexivity |].
  split.
  { destruct ((0 <=? y) && (y <=? 9999))%Z.
    - left. apply digits_all_digits.
    - right. exists (if (y <? 0)%Z then "-" else "+")%string, (JS.digits 6 (Z.abs y)).
      repeat split; [destruct (y <? 0)%Z; auto | apply digits_all_digits]. }
  do 6 (split; [apply digits_all_digits |]).
  exists y. rewrite Vm, Vd, Vh, Vi, Vs, Vt, Hday.
  split; [Z.to_euclidean_division_equations; lia |].
  split; [exact Hm |]. split; [exact Hd |].
  split; [Z.to_euclidean_division_equations; lia |].
  split; [Z.to_euclidean_division_equations; lia |].
  split; [Z.to_euclidean_division_equations; lia |].
  split; [Z.to_euclidean_division_equations; lia |].
  split; [| split].
  - intros Hy.
    replace ((0 <=? y) && (y <=? 9999))%Z with true
      by (symmetry; apply andb_true_intro; split; apply Z.leb_le; lia).
    split; [apply digits_all_digits | apply decimal_digits_small; cbn; lia].
  - intros Hy.
    replace ((0 <=? y) && (y <=? 9999))%Z with false
      by (symmetry; apply andb_false_intro1; apply Z.leb_gt; lia).
    replace (y <? 0)%Z with true by (symmetry; apply Z.ltb_lt; lia).
    exists (JS.digits 6 (Z.abs y)). split; [reflexivity |].
    split; [apply digits_all_digits |].
    intros Hr. rewrite decimal_digits_small; cbn; lia.
  - intros Hy.
    replace ((0 <=? y) && (y <=? 9999))%Z with false
      by (symmetry; apply andb_false_intro2; apply Z.leb_gt; lia).
    replace (y <? 0)%Z with false by (symmetry; apply Z.ltb_ge; lia).
    exists (JS.digits 6 (Z.abs y)). split; [reflexivity |].
    split; [apply digits_all_digits |].
    intros Hr. rewrite decimal_digits_small; cbn; lia.
Qed.

End Timestamps.

Lemma substring0_prefix n : forall s,
  (n < String.length s)%nat ->
  exists tail, s = (JS.substring0 n s ++ tail)%string
               /\ String.length (JS.substring0 n s) = n /\ tail <> EmptyString.
Proof.
  unfold JS.substring0.
  induction n as [| n IH]; intros s Hlt.
  - exists s. destruct s; cbn in *; [lia |]. repeat split; auto. discriminate.
  - destruct s as [| c s]; cbn [String.length] in Hlt; [lia |].
    destruct (IH s) as (tail & Heq & Hlen & Hne); [lia |].
    exists tail. cbn [String.substring String.append String.length].
    repeat split; [now rewrite <- Heq | now rewrite Hlen | exact Hne].
Qed.

Lemma substring0_short n : forall s,
  (String.length s <= n)%nat -> JS.substring0 n s = s.
Proof.
  unfold JS.substring0.
  induction n as [| n IH]; intros [| c s] Hle; cbn in *; try reflexivity; try lia.
  now rewrite IH by lia.
Qed.

Lemma prefix_is_substring0 (head tail s : string) :
  s = (head ++ tail)%string -> head = JS.substring0 (String.length head) s.
Proof.
  intros ->. unfold JS.substring0.
  induction head as [| c head IH]; cbn.
  - destruct tail; reflexivity.
  - now rewrite <- IH.
Qed.

Lemma append_empty_r (s : string) : (s ++ "")%string = s.
Proof. induction s as [| c s IH]; cbn; [reflexivity | now rewrite IH]. Qed.


(** C2.  On every tracker the class can reach, pricing [i] input and [o]
    output tokens stores [i * (0.0015/1000) + o * (0.002/1000)] as the total
    cost, that is exactly [(3 i + 4 o) / 2000000]: the sum of the two partial
    costs, with no rounding (the 6-decimal rendering lives in
    [formattedCost] only); it is never negative, and pricing no token costs
    exactly zero. *)
Theorem calculateQueryCost_exact (calls : list CostTracker.call) (i o : Z) :
  (0 <= i)%Z -> (0 <= o)%Z ->
  let this := CostTracker.run CostTracker.constructor calls in
  let price := CostTracker.calculateQueryCost this in
  QueryCost.totalCost (price i o) = inject_Z i * (0.0015 / 1000) + inject_Z o * (0.002 / 1000)
  /\ QueryCost.totalCost (price i o) == inject_Z (3 * i + 4 * o) / 2000000
  /\ QueryCost.totalCost (price i o)
     = QueryCost.inputCost (price i o) + QueryCost.outputCost (price i o)
  /\ QueryCost.totalTokens (price i o) = (i + o)%Z
  /\ 0 <= QueryCost.totalCost (price i o)
  /\ QueryCost.totalCost (price 0%Z 0%Z) == 0.
Proof.
  intros Hi Ho this price.
  assert (Hrates : CostTracker.pricing this = Pricing.mk (0.0015 / 1000) (0.002 / 1000)).
  { unfold this. now rewrite run_pricing. }
  unfold price, CostTracker.calculateQueryCost.
  rewrite Hrates.
  cbn [QueryCost.totalCost QueryCost.inputCost QueryCost.outputCost QueryCost.totalTokens
       Pricing.input Pricing.output].
  assert (Hclosed : inject_Z i * (0.0015 / 1000) + inject_Z o * (0.002 / 1000)
                    == inject_Z (3 * i + 4 * o) / 2000000).
  { rewrite inject_Z_plus, !inject_Z_mult. field. }
  split; [reflexivity |].
  split; [exact Hclosed |].
  split; [reflexivity |].
  split; [reflexivity |].
  split.
  - rewrite Hclosed.
    apply Qle_shift_div_l; [reflexivity |].
    rewrite Qmult_0_l, <- (Zle_Qle 0). lia.
  - reflexivity.
Qed.

Lemma calculateQueryCost_exact_witness :
  QueryCost.totalCost (CostTracker.calculateQueryCost CostTracker.constructor 650%Z 18%Z)
  == 0.001011.
Proof.
  destruct (calculateQueryCost_exact [] 650%Z 18%Z) as (_ & H & _); [lia | lia |].
  cbn [CostTracker.run fold_left] in H. rewrite H. reflexivity.
Defined.

(** C3.  [trackQuery] always returns.  When the response reports no input
    and no output token (each count zero or missing), the priced counts are
    [ceil((question.length + 1000) / 4)] and [ceil(answer.length / 4)];
    for a question of 40 characters and an answer of 80 these are 260 and
    20.  When one reported count is not zero, the reported counts are priced
    as they are.  The priced counts are the ones added to the totals. *)
Theorem trackQuery_token_fallback
        (this : CostTracker.t) (question : string) (response : Response.t)
        (responseTime now : Z) :
  let reported := CostTracker.reportedTokens response in
  let after := fst (CostTracker.trackQuery this question response responseTime now) in
  let cost := snd (CostTracker.trackQuery this question response responseTime now) in
  (fst reported = 0%Z /\ snd reported = 0%Z ->
     QueryCost.inputTokens cost = ((JS.length question + 1000 + 3) / 4)%Z
     /\ QueryCost.outputTokens cost = ((CostTracker.answerLength response + 3) / 4)%Z
     /\ (JS.length question = 40%Z -> CostTracker.answerLength response = 80%Z ->
         QueryCost.inputTokens cost = 260%Z /\ QueryCost.outputTokens cost = 20%Z))
  /\ (~ (fst reported = 0%Z /\ snd reported = 0%Z) ->
      QueryCost.inputTokens cost = fst reported
      /\ QueryCost.outputTokens cost = snd reported)
  /\ TokenTotals.input (CostTracker.totalTokens after)
     = (TokenTotals.input (CostTracker.totalTokens this) + QueryCost.inputTokens cost)%Z
  /\ TokenTotals.output (CostTracker.totalTokens after)
     = (TokenTotals.output (CostTracker.totalTokens this) + QueryCost.outputTokens cost)%Z.
Proof.
  cbv zeta.
  unfold CostTracker.trackQuery, CostTracker.countTokens.
  destruct (CostTracker.reportedTokens response) as [i o].
  cbn [fst snd].
  destruct (Z.eqb_spec i 0) as [Hi | Hi]; [destruct (Z.eqb_spec o 0) as [Ho | Ho] |];
    cbn [andb fst snd QueryCost.inputTokens QueryCost.outputTokens
         CostTracker.calculateQueryCost CostTracker.totalTokens
         TokenTotals.input TokenTotals.output].
  - rewrite !ceil_div_4.
    split; [intros _ | split; [tauto | split; reflexivity]].
    split; [reflexivity | split; [reflexivity |]].
    intros Hq Ha. now rewrite Hq, Ha.
  - split; [intros [_ Ho'] | split; [intros _; split |]; try split; reflexivity].
    contradiction.
  - split; [intros [Hi' _] | split; [intros _; split |]; try split; reflexivity].
    contradiction.
Qed.


Lemma trackQuery_token_fallback_witness :
  let question := "Which two-bedroom flats are near Rio???."%string in
  let answer :=
    "Rio Beach House is the one: two bedrooms, one bathroom, at only $18 per night..."%string in
  let missing := Response.mk question (Some answer) None None None None None in
  let zero := Response.mk question (Some answer) (Some 0%Z) (Some Usage.zero) None None None in
  let billed :=
    Response.mk question (Some answer) (Some 668%Z)
                (Some (Usage.mk (Some 650%Z) (Some 18%Z) (Some 668%Z))) None None None in
  let priced r := snd (CostTracker.trackQuery CostTracker.constructor question r 850 0) in
  (QueryCost.inputTokens (priced missing) = 260%Z
   /\ QueryCost.outputTokens (priced missing) = 20%Z)
  /\ (QueryCost.inputTokens (priced zero) = 260%Z
      /\ QueryCost.outputTokens (priced zero) = 20%Z)
  /\ (QueryCost.inputTokens (priced billed) = 650%Z
      /\ QueryCost.outputTokens (priced billed) = 18%Z).
Proof.
  intros question answer missing zero billed priced.
  split; [| split].
  - destruct (trackQuery_token_fallback CostTracker.constructor question missing 850 0)
      as (H & _).
    destruct H as (_ & _ & H); [split; reflexivity |].
    apply H; reflexivity.
  - destruct (trackQuery_token_fallback CostTracker.constructor question zero 850 0)
      as (H & _).
    destruct H as (_ & _ & H); [split; reflexivity |].
    apply H; reflexivity.
  - destruct (trackQuery_token_fallback CostTracker.constructor question billed 850 0)
      as (_ & H & _).
    apply H. intros [H0 _]. discriminate H0.
Defined.

(** C4.  After any sequence of calls of the class on a fresh tracker, [N]
    of which are [trackQuery]: the log has [N] entries; the running total
    cost is the sum of the entries' total costs (and the token totals are
    the sums of the entries' counts); [getSessionStats] reports exactly
    these; whatever is called next, the log so far stays as a prefix of
    the later log; and a call that is not [trackQuery] changes nothing. *)
Theorem session_totals_invariant (calls : list CostTracker.call) :
  let this := CostTracker.run CostTracker.constructor calls in
  let N := List.length (filter CostTracker.is_track calls) in
  List.length (CostTracker.sessions this) = N
  /\ CostTracker.totalCost this == CostTracker.sumCost (CostTracker.sessions this)
  /\ TokenTotals.total (CostTracker.totalTokens this)
     = sumTokens QueryCost.totalTokens (CostTracker.sessions this)
  /\ Stats.totalQueries (CostTracker.getSessionStats this) = Z.of_nat N
  /\ Stats.totalCost (CostTracker.getSessionStats this)
     == CostTracker.sumCost (Stats.sessions (CostTracker.getSessionStats this))
  /\ (forall more : list CostTracker.call,
        exists appended,
          CostTracker.sessions (CostTracker.run this more)
          = CostTracker.sessions this ++ appended
          /\ List.length appended = List.length (filter CostTracker.is_track more))
  /\ (forall c : CostTracker.call,
        CostTracker.step this c = this \/ CostTracker.is_track c = true).
Proof.
  intros this N.
  assert (Hlen : List.length (CostTracker.sessions this) = N).
  { destruct (run_sessions_grow calls CostTracker.constructor) as (app & Happ & Hl).
    fold this in Happ. rewrite Happ. exact Hl. }
  destruct (totals_agree_run calls _ totals_agree_constructor) as (Hc & _ & _ & Ht).
  fold this in Hc, Ht.
  split; [exact Hlen |].
  split; [exact Hc |].
  split; [exact Ht |].
  split; [cbn [CostTracker.getSessionStats Stats.totalQueries]; now rewrite Hlen |].
  split; [exact Hc |].
  split.
  - intros more. apply run_sessions_grow.
  - intros c. destruct c; cbn [CostTracker.step CostTracker.is_track]; auto.
Qed.

(** C9.  [trackQuery] appends one entry.  Its question preview is the
    question itself when the question has at most 50 characters, and
    otherwise the 50-character prefix of the question followed by "...".
    The entry carries the response time it was given and the ISO-8601
    rendering of the clock: year (4 digits, or a sign and 6), month, day,
    "T", hours, minutes, seconds, milliseconds, "Z".  Read back as numbers,
    these fields are a date of the Gregorian calendar (month 1 to 12, day 1
    to the length of that month) and a time of day (hours to 23, minutes
    and seconds to 59, milliseconds to 999), and the day number of that date
    with that time of day is the clock reading [now], to the millisecond. *)
Theorem trackQuery_entry
        (this : CostTracker.t) (question : string) (response : Response.t)
        (responseTime now : Z) :
  exists entry : Session.t,
    CostTracker.sessions (fst (CostTracker.trackQuery this question response responseTime now))
    = CostTracker.sessions this ++ [entry]
    /\ ((String.length question <= 50)%nat -> Session.question entry = question)
    /\ ((50 < String.length question)%nat ->
        exists head tail,
          question = (head ++ tail)%string /\ String.length head = 50%nat
          /\ tail <> EmptyString
          /\ Session.question entry = (head ++ "...")%string)
    /\ Session.responseTime entry = responseTime
    /\ Session.tokens entry
       = snd (CostTracker.trackQuery this question response responseTime now)
    /\ exists year month day hours minutes seconds millis,
        Session.timestamp entry
        = (year ++ "-" ++ month ++ "-" ++ day ++ "T" ++ hours ++ ":" ++ minutes ++ ":"
                ++ seconds ++ "." ++ millis ++ "Z")%string
        /\ (all_digits 4 year = true
            \/ exists sign digits6,
                 year = (sign ++ digits6)%string /\ (sign = "+" \/ sign = "-")%string
                 /\ all_digits 6 digits6 = true)
        /\ all_digits 2 month = true /\ all_digits 2 day = true
        /\ all_digits 2 hours = true /\ all_digits 2 minutes = true
        /\ all_digits 2 seconds = true /\ all_digits 3 millis = true
        /\ exists y : Z,
            (Calendar.day_number y (Calendar.decimal month) (Calendar.decimal day)
               * 86400000
             + Calendar.decimal hours * 3600000 + Calendar.decimal minutes * 60000
             + Calendar.decimal seconds * 1000 + Calendar.decimal millis = now)%Z
            /\ (1 <= Calendar.decimal month <= 12)%Z
            /\ (1 <= Calendar.decimal day
                <= Calendar.days_in_month y (Calendar.decimal month))%Z
            /\ (0 <= Calendar.decimal hours <= 23)%Z
            /\ (0 <= Calendar.decimal minutes <= 59)%Z
            /\ (0 <= Calendar.decimal seconds <= 59)%Z
            /\ (0 <= Calendar.decimal millis <= 999)%Z
            /\ ((0 <= y <= 9999)%Z ->
                all_digits 4 year = true /\ Calendar.decimal year = y)
            /\ ((y < 0)%Z ->
                exists digits6,
                  year = ("-" ++ digits6)%string /\ all_digits 6 digits6 = true
                  /\ ((-999999 <= y)%Z -> Calendar.decimal digits6 = (- y)%Z))
            /\ ((9999 < y)%Z ->
                exists digits6,
                  year = ("+" ++ digits6)%string /\ all_digits 6 digits6 = true
                  /\ ((y <= 999999)%Z -> Calendar.decimal digits6 = y)).
Proof.
  eexists. split; [apply trackQuery_sessions |].
  cbn [Session.question Session.responseTime Session.tokens Session.timestamp].
  unfold CostTracker.preview, JS.length.
  split; [| split; [| split; [reflexivity | split; [reflexivity | apply toISOString_reads_back]]]].
  - intros Hshort.
    destruct (Z.ltb_spec 50 (Z.of_nat (String.length question))) as [Hlt | _]; [lia |].
    now rewrite append_empty_r, substring0_short.
  - intros Hlong.
    destruct (Z.ltb_spec 50 (Z.of_nat (String.length question))) as [_ | Hle]; [| lia].
    destruct (substring0_prefix 50 question Hlong) as (tail & Heq & Hlen & Hne).
    exists (JS.substring0 50 question), tail. auto.
Qed.

Lemma trackQuery_entry_witness :
  let long := "Which properties have at least two bedrooms and a parking space?"%string in
  let short := "Show me the cheapest property"%string in
  let reply := Response.mk long (Some "Rio Beach House"%string) None None None None None in
  let log q := CostTracker.sessions
                 (fst (CostTracker.trackQuery CostTracker.constructor q reply 850 1700000000000)) in
  (exists entry, log long = [entry]
     /\ Session.question entry
        = "Which properties have at least two bedrooms and a ..."%string
     /\ Session.responseTime entry = 850%Z
     /\ Session.timestamp entry = "2023-11-14T22:13:20.000Z"%string
     /\ (Calendar.day_number 2023 11 14 * 86400000 + 22 * 3600000 + 13 * 60000
         + 20 * 1000 + 0 = 1700000000000)%Z)
  /\ (exists entry, log short = [entry] /\ Session.question entry = short).
Proof.
  intros long short reply log. split.
  - destruct (trackQuery_entry CostTracker.constructor long reply 850 1700000000000)
      as (entry & Hlog & _ & Hlong & Htime & _).
    exists entry. split; [exact Hlog |].
    split.
    { destruct Hlong as (head & tail & Heq & Hlen & _ & Hq); [subst long; cbn; lia |].
      rewrite Hq, (prefix_is_substring0 _ _ _ Heq), Hlen. reflexivity. }
    split; [exact Htime |].
    assert (He : [entry] = log long) by (symmetry; exact Hlog).
    vm_compute in He. injection He as ->. split; reflexivity.
  - destruct (trackQuery_entry CostTracker.constructor short reply 850 1700000000000)
      as (entry & Hlog & Hshort & _).
    exists entry. split; [exact Hlog |]. apply Hshort. subst short. cbn. lia.
Defined.

(** C10.  With an empty log [getSessionStats] reports an average cost and
    an average token count of 0, whatever the totals hold; and on every
    tracker both averages are finite numbers: the divisions are only made
    by a positive log length. *)
Theorem getSessionStats_zero_query_guard :
  (forall totalCost totalTokens pricing,
      let stats := CostTracker.getSessionStats
                     (CostTracker.mk [] totalCost totalTokens pricing) in
      Stats.totalQueries stats = 0%Z
      /\ Stats.averageCostPerQuery stats = JS.Finite 0
      /\ Stats.averageTokensPerQuery stats = JS.Finite 0)
  /\ (forall this : CostTracker.t,
        let stats := CostTracker.getSessionStats this in
        let n := inject_Z (Z.of_nat (List.length (CostTracker.sessions this))) in
        JS.is_finite (Stats.averageCostPerQuery stats) = true
        /\ JS.is_finite (Stats.averageTokensPerQuery stats) = true
        /\ (Stats.averageCostPerQuery stats = JS.Finite 0
            \/ Stats.averageCostPerQuery stats = JS.Finite (CostTracker.totalCost this / n)
               /\ ~ n == 0)).
Proof.
  split.
  - intros totalCost totalTokens pricing. cbn. auto.
  - intros this. cbv zeta.
    unfold CostTracker.getSessionStats.
    cbn [Stats.averageCostPerQuery Stats.averageTokensPerQuery].
    set (n := Z.of_nat (List.length (CostTracker.sessions this))).
    destruct (Z.ltb_spec 0 n) as [Hpos | Hzero]; [| cbn; auto].
    assert (Hn : ~ inject_Z n == 0).
    { unfold Qeq. cbn. lia. }
    unfold JS.div.
    destruct (Qeq_bool (inject_Z n) 0) eqn:E; [apply Qeq_bool_eq in E; contradiction |].
    cbn [JS.is_finite]. auto.
Qed.

(** The summary of three priced queries of 50, 100 and 150 output tokens
    (costs 0.0001, 0.0002 and 0.0003): total 0.0006, average 0.0002. *)
Example three_query_summary :
  let reply n :=
    Response.mk "q" (Some "a"%string) (Some n)
                (Some (Usage.mk (Some 0%Z) (Some n) (Some n))) None None None in
  let stats :=
    CostTracker.getSessionStats
      (CostTracker.run CostTracker.constructor
         [ CostTracker.TrackQuery "q" (reply 50%Z) 800 0;
           CostTracker.TrackQuery "q" (reply 100%Z) 900 1000;
           CostTracker.TrackQuery "q" (reply 150%Z) 700 2000 ]) in
  Stats.totalQueries stats = 3%Z
  /\ Stats.totalCost stats == 0.0006
  /\ TokenTotals.total (Stats.totalTokens stats) = 300%Z
  /\ exists average,
       Stats.averageCostPerQuery stats = JS.Finite average /\ average == 0.0002.
Proof.
  cbv zeta. split; [reflexivity |]. split; [reflexivity |]. split; [reflexivity |].
  eexists. split; reflexivity.
Qed.

End CostAccountant.

(* ================================================================== *)
(** * The Completion Client and the cached prompt                      *)
(* ================================================================== *)

Section CompletionClient.

Import Async.
Local Open Scope string_scope.

(** The generated prompt is never the empty string, hence always truthy. *)
Lemma generateSystemPrompt_nonempty (this : LLMService.t) :
  exists c rest, LLMService.generateSystemPrompt this = String c rest.
Proof.
  unfold LLMService.generateSystemPrompt.
  cbn [LLMService.join String.append]. eauto.
Qed.

(** The prompt depends on the catalog only. *)
Lemma generateSystemPrompt_ext (this this' : LLMService.t) :
  LLMService.properties this = LLMService.properties this' ->
  LLMService.generateSystemPrompt this = LLMService.generateSystemPrompt this'.
Proof.
  unfold LLMService.generateSystemPrompt. intros ->. reflexivity.
Qed.

Lemma generateSystemPrompt_truthy (this : LLMService.t) :
  JS.truthy (Some (LLMService.generateSystemPrompt this)) = true.
Proof.
  destruct (generateSystemPrompt_nonempty this) as (c & rest & ->). reflexivity.
Qed.

(** The prompt a call uses, the service it leaves and what it generates. *)
Lemma prompt_of_call (this : LLMService.t) (w : World.t)
      (A : Type) (k : string -> M LLMService.t A) :
  exists prompt generated cached',
    bind LLMService.systemPromptFor
         (fun p => bind (LLMService.storeSystemPrompt p) (fun _ => k p)) this w
    = k prompt
        (LLMService.mk (LLMService.options this) cached' (LLMService.properties this))
        (World.mk (World.now w) (World.trace w ++ generated))
    /\ JS.truthy (Some prompt) = true
    /\ (generated = [] /\ LLMService.cachedSystemPrompt this = Some prompt
        /\ LLMService.cacheSystemPrompt (LLMService.options this) = true
        \/ generated = [World.Generated prompt]
           /\ prompt = LLMService.generateSystemPrompt this
           /\ (LLMService.cacheSystemPrompt (LLMService.options this)
               && JS.truthy (LLMService.cachedSystemPrompt this))%bool = false)
    /\ (if LLMService.cacheSystemPrompt (LLMService.options this)
        then cached' = Some prompt
        else cached' = LLMService.cachedSystemPrompt this).
Proof.
  destruct this as [opts cached props].
  destruct (LLMService.cacheSystemPrompt opts) eqn:Hcache;
    [destruct (JS.truthy cached) eqn:Htruthy |].
  - destruct cached as [[| c rest] |]; try discriminate Htruthy.
    exists (String c rest), [], (Some (String c rest)).
    split; [| split; [reflexivity | split; [left; auto | now cbn; rewrite Hcache]]].
    async_unfold.
    repeat (cbn [LLMService.options LLMService.cachedSystemPrompt LLMService.properties
                 andb negb JS.truthy World.now World.trace];
            rewrite ?Hcache).
    rewrite app_nil_r. now destruct w.
  - set (this := LLMService.mk opts cached props).
    exists (LLMService.generateSystemPrompt this),
           [World.Generated (LLMService.generateSystemPrompt this)],
           (Some (LLMService.generateSystemPrompt this)).
    split; [| split; [apply generateSystemPrompt_truthy
                     | split; [right; cbn; rewrite Hcache, Htruthy; auto
                              | now cbn; rewrite Hcache]]].
    async_unfold. subst this.
    repeat (cbn [LLMService.options LLMService.cachedSystemPrompt LLMService.properties
                 andb negb World.now World.trace];
            rewrite ?Hcache, ?Htruthy).
    reflexivity.
  - set (this := LLMService.mk opts cached props).
    exists (LLMService.generateSystemPrompt this),
           [World.Generated (LLMService.generateSystemPrompt this)], cached.
    split; [| split; [apply generateSystemPrompt_truthy
                     | split; [right; cbn; rewrite Hcache; auto
                              | now cbn; rewrite Hcache]]].
    async_unfold. subst this.
    repeat (cbn [LLMService.options LLMService.cachedSystemPrompt LLMService.properties
                 andb negb World.now World.trace];
            rewrite ?Hcache).
    reflexivity.
Qed.

(** Without a catalog no request is sent: the call falls back at once. *)
Lemma answerQuestion_no_properties (create : client) (q : string)
      (this : LLMService.t) (w : World.t) :
  LLMService.properties this = [] ->
  LLMService.answerQuestion create q this w
  = (Val (LLMService.fallback q
            (JS.Error "No property data loaded. Please load properties first.")
            (JS.toISOString (World.now w))),
     this, w).
Proof.
  intros Hnone.
  unfold LLMService.answerQuestion, LLMService.answerQuestion_try, try_catch, bind, get.
  rewrite Hnone. reflexivity.
Qed.

(** With a catalog, exactly one request is sent, and the call returns. *)
Lemma answerQuestion_sends (create : client) (q : string)
      (this : LLMService.t) (w : World.t) :
  LLMService.properties this <> [] ->
  exists prompt generated cached',
    let this' :=
      LLMService.mk (LLMService.options this) cached' (LLMService.properties this) in
    let request := LLMService.requestFor this' prompt q in
    let settled := create request in
    let w' := World.mk (World.now w + Settlement.elapsed settled)
                       ((World.trace w ++ generated) ++ [World.Sent request]) in
    LLMService.answerQuestion create q this w
    = (Val (response_for this' q settled (JS.toISOString (World.now w'))), this', w')
    /\ JS.truthy (Some prompt) = true
    /\ (generated = [] /\ LLMService.cachedSystemPrompt this = Some prompt
        /\ LLMService.cacheSystemPrompt (LLMService.options this) = true
        \/ generated = [World.Generated prompt]
           /\ prompt = LLMService.generateSystemPrompt this
           /\ (LLMService.cacheSystemPrompt (LLMService.options this)
               && JS.truthy (LLMService.cachedSystemPrompt this))%bool = false)
    /\ (if LLMService.cacheSystemPrompt (LLMService.options this)
        then cached' = Some prompt
        else cached' = LLMService.cachedSystemPrompt this).
Proof.
  intros Hsome.
  unfold LLMService.answerQuestion, LLMService.answerQuestion_try.
  unfold try_catch at 1. unfold bind at 1. unfold get at 1.
  destruct (LLMService.properties this) as [| p0 ps] eqn:Hprops; [contradiction |].
  match goal with
  | |- context [bind LLMService.systemPromptFor (fun p => bind _ (fun _ => @?k p))] =>
      destruct (prompt_of_call this w _ k)
        as (prompt & generated & cached' & Heq & Htruthy & Hgen & Hcached)
  end.
  exists prompt, generated, cached'. cbv zeta.
  rewrite Heq, Hprops. clear Heq.
  split; [| auto].
  unfold bind, get, await_create, Date_iso, ret, throw, response_for,
    LLMService.answerQuestion_catch.
  cbn [World.now World.trace].
  destruct (Settlement.result (create _)) as [r | e]; [| reflexivity].
  destruct (Completion.first_content r) as [[| c rest] |]; reflexivity.
Qed.

Lemma requests_app (t1 t2 : list World.event) :
  requests (t1 ++ t2) = (requests t1 ++ requests t2)%list.
Proof.
  induction t1 as [| [p | r] t1 IH]; cbn [app requests]; [reflexivity | exact IH |].
  now rewrite IH.
Qed.

Lemma generations_app (t1 t2 : list World.event) :
  generations (t1 ++ t2) = (generations t1 + generations t2)%nat.
Proof.
  unfold generations. now rewrite filter_app, length_app.
Qed.

Lemma truthy_nonempty (s : string) : JS.truthy (Some s) = true -> s <> EmptyString.
Proof. intros H ->. discriminate H. Qed.

(** Once a prompt is cached, a call leaves the service as it is and sends
    that prompt, generating nothing. *)
Lemma answerQuestion_cached (create : client) (q : string) (this : LLMService.t)
      (w : World.t) (prompt : string) :
  LLMService.cacheSystemPrompt (LLMService.options this) = true ->
  LLMService.properties this <> [] ->
  LLMService.cachedSystemPrompt this = Some prompt ->
  JS.truthy (Some prompt) = true ->
  exists response request w',
    LLMService.answerQuestion create q this w = (Val response, this, w')
    /\ World.trace w' = (World.trace w ++ [World.Sent request])%list
    /\ system_prompt_of request = Some prompt.
Proof.
  intros Hcache Hprops Hcached Htruthy.
  destruct (answerQuestion_sends create q this w Hprops)
    as (p & g & c & Heq & _ & Hg & Hc).
  cbv zeta in Heq. rewrite Hcache in Hc. subst c.
  assert (Hsame : p = prompt /\ g = []).
  { destruct Hg as [(-> & Hp & _) | (_ & _ & Hfalsy)].
    - rewrite Hcached in Hp. now injection Hp as ->.
    - rewrite Hcache, Hcached, Htruthy in Hfalsy. discriminate Hfalsy. }
  destruct Hsame as [-> ->].
  assert (Hthis : LLMService.mk (LLMService.options this) (Some prompt)
                                (LLMService.properties this) = this).
  { destruct this; cbn in *. now rewrite Hcached. }
  rewrite Hthis, app_nil_r in Heq.
  do 3 eexists. split; [exact Heq |]. split; reflexivity.
Qed.

(** ... and so does every later sequence of calls. *)
Lemma answer_all_cached (qs : list (client * string)) :
  forall (this : LLMService.t) (w : World.t) (prompt : string),
    LLMService.cacheSystemPrompt (LLMService.options this) = true ->
    LLMService.properties this <> [] ->
    LLMService.cachedSystemPrompt this = Some prompt ->
    JS.truthy (Some prompt) = true ->
    exists responses sent w',
      LLMService.answer_all qs this w = (Val responses, this, w')
      /\ List.length responses = List.length qs
      /\ World.trace w' = (World.trace w ++ map World.Sent sent)%list
      /\ List.length sent = List.length qs
      /\ Forall (fun request => system_prompt_of request = Some prompt) sent.
Proof.
  induction qs as [| [create q] qs IH]; intros this w prompt Hcache Hprops Hcached Htruthy.
  - exists [], [], w. cbn. rewrite app_nil_r. auto.
  - destruct (answerQuestion_cached create q this w prompt Hcache Hprops Hcached Htruthy)
      as (r & request & w1 & Heq & Htrace & Hprompt).
    destruct (IH this w1 prompt Hcache Hprops Hcached Htruthy)
      as (rs & sent & w2 & Heq2 & Hlen & Htrace2 & Hlen2 & Hall).
    exists (r :: rs), (request :: sent), w2.
    cbn [LLMService.answer_all]. unfold bind at 1. rewrite Heq.
    unfold bind at 1. rewrite Heq2.
    split; [reflexivity |].
    cbn [List.length map]. rewrite Htrace2, Htrace, <- app_assoc.
    repeat split; auto.
Qed.

Lemma requests_sent (sent : list Request.t) : requests (map World.Sent sent) = sent.
Proof. induction sent as [| r sent IH]; cbn; [reflexivity | now rewrite IH]. Qed.

Lemma generations_sent (sent : list Request.t) : generations (map World.Sent sent) = 0%nat.
Proof. induction sent as [| r sent IH]; [reflexivity | exact IH]. Qed.

(** C7.  With caching on and a catalog loaded, a call sends one request;
    its system prompt is not empty and is what the service holds as cached
    prompt from then on.  Every later call, whatever the client did, sends
    that same string and leaves the cache as it is; none of them generates a
    prompt, so that the prompt is generated at most once in all.  (Two
    consecutive calls are the case of one later call.) *)
Theorem system_prompt_cached_once
        (create : client) (q : string) (later : list (client * string))
        (this : LLMService.t) (w : World.t) :
  LLMService.cacheSystemPrompt (LLMService.options this) = true ->
  LLMService.properties this <> [] ->
  let '(_, this1, w1) := LLMService.answerQuestion create q this w in
  let '(_, thisN, wN) := LLMService.answer_all later this1 w1 in
  exists prompt first rest,
    prompt <> EmptyString
    /\ requests (World.trace wN) = (requests (World.trace w) ++ first :: rest)%list
    /\ List.length rest = List.length later
    /\ Forall (fun request => system_prompt_of request = Some prompt) (first :: rest)
    /\ LLMService.cachedSystemPrompt this1 = Some prompt
    /\ LLMService.cachedSystemPrompt thisN = Some prompt
    /\ generations (World.trace wN) = generations (World.trace w1)
    /\ (generations (World.trace wN) <= generations (World.trace w) + 1)%nat.
Proof.
  intros Hcache Hprops.
  destruct (answerQuestion_sends create q this w Hprops)
    as (p & g & c & Heq & Htruthy & Hg & Hc).
  cbv zeta in Heq. rewrite Heq. clear Heq.
  rewrite Hcache in Hc. subst c.
  set (this1 := LLMService.mk (LLMService.options this) (Some p) (LLMService.properties this)).
  set (first := LLMService.requestFor this1 p q).
  set (w1 := World.mk _ _).
  destruct (answer_all_cached later this1 w1 p Hcache Hprops eq_refl Htruthy)
    as (rs & rest & wN & HeqN & _ & HtraceN & Hlen & Hall).
  rewrite HeqN.
  exists p, first, rest.
  split; [exact (truthy_nonempty _ Htruthy) |].
  rewrite HtraceN. cbn [World.trace w1].
  rewrite !requests_app, !generations_app, requests_sent, generations_sent.
  assert (Hgen : requests g = [] /\ (generations g <= 1)%nat).
  { destruct Hg as [(-> & _) | (-> & _)]; cbn; auto. }
  destruct Hgen as [Hreq Hgen]. rewrite Hreq.
  cbn [requests app]. rewrite app_nil_r, <- app_assoc.
  split; [reflexivity |]. split; [exact Hlen |].
  split; [constructor; [reflexivity | exact Hall] |].
  split; [reflexivity |]. split; [reflexivity |].
  split; cbn; lia.
Qed.

Lemma system_prompt_cached_once_witness :
  let svc := LLMService.setProperties
               (LLMService.constructor "gpt-3.5-turbo" 0.2 400 30000 true)
               Scenario.catalog in
  let '(_, this1, w1) :=
    LLMService.answerQuestion Scenario.slow "Anything in Rio?" svc Scenario.w0 in
  let '(_, this2, w2) :=
    LLMService.answer_all [(Scenario.timing_out, "And in Lisbon?")] this1 w1 in
  exists prompt first rest,
    prompt <> EmptyString
    /\ requests (World.trace w2)
       = (requests (World.trace Scenario.w0) ++ first :: rest)%list
    /\ List.length rest = 1%nat
    /\ Forall (fun request => system_prompt_of request = Some prompt) (first :: rest)
    /\ LLMService.cachedSystemPrompt this1 = Some prompt
    /\ LLMService.cachedSystemPrompt this2 = Some prompt
    /\ generations (World.trace w2) = generations (World.trace w1)
    /\ (generations (World.trace w2) <= generations (World.trace Scenario.w0) + 1)%nat.
Proof.
  intros svc.
  apply (system_prompt_cached_once
           Scenario.slow "Anything in Rio?" [(Scenario.timing_out, "And in Lisbon?")]
           svc Scenario.w0).
  - reflexivity.
  - discriminate.
Defined.

(** [LLMService.answerQuestion] never throws: it returns a response. *)
Lemma answerQuestion_returns (create : client) (q : string)
      (this : LLMService.t) (w : World.t) :
  exists response this' w',
    LLMService.answerQuestion create q this w = (Val response, this', w')
    /\ Response.question response = q
    /\ (World.now w' = World.now w
        \/ exists request,
             World.now w' = (World.now w + Settlement.elapsed (create request))%Z).
Proof.
  destruct (LLMService.properties this) as [| p0 ps] eqn:Hprops.
  - rewrite (answerQuestion_no_properties create q this w Hprops).
    do 3 eexists. split; [reflexivity |]. split; [reflexivity | now left].
  - destruct (answerQuestion_sends create q this w) as (p & g & c & Heq & _).
    { rewrite Hprops. discriminate. }
    cbv zeta in Heq. rewrite Heq.
    do 3 eexists. split; [reflexivity |]. split; [| right; eexists; reflexivity].
    unfold response_for.
    destruct (Settlement.result _) as [r | e]; [| reflexivity].
    destruct (Completion.first_content r) as [[| c0 rest] |]; reflexivity.
Qed.

(** The stored [responseTimeout] plays no part in a call. *)
Lemma answerQuestion_ignores_responseTimeout
      (create : client) (q : string) (this : LLMService.t) (w : World.t) (timeout : Z) :
  let opts := LLMService.options this in
  let this_t :=
    LLMService.mk
      (LLMService.mkOptions (LLMService.model opts) (LLMService.temperature opts)
                            (LLMService.maxTokens opts) timeout
                            (LLMService.cacheSystemPrompt opts) (LLMService.stream opts))
      (LLMService.cachedSystemPrompt this) (LLMService.properties this) in
  fst (fst (LLMService.answerQuestion create q this_t w))
  = fst (fst (LLMService.answerQuestion create q this w))
  /\ snd (LLMService.answerQuestion create q this_t w)
     = snd (LLMService.answerQuestion create q this w).
Proof.
  destruct this as [[mdl temp maxTok timeout0 cache stream] cached props].
  cbv zeta. cbn [LLMService.options LLMService.model LLMService.temperature
                 LLMService.maxTokens LLMService.cacheSystemPrompt LLMService.stream
                 LLMService.cachedSystemPrompt LLMService.properties].
  async_unfold.
  cbn [LLMService.properties].
  destruct props as [| p0 ps]; [split; reflexivity |].
  cbn [LLMService.options LLMService.cacheSystemPrompt LLMService.cachedSystemPrompt].
  match goal with
  | |- context [LLMService.generateSystemPrompt ?a] =>
      match goal with
      | |- context [LLMService.generateSystemPrompt ?b] =>
          tryif constr_eq a b then fail else
            rewrite (generateSystemPrompt_ext a b eq_refl)
      end
  end.
  destruct cache, cached as [[| c0 rest0] |];
    cbn [LLMService.options LLMService.cacheSystemPrompt LLMService.cachedSystemPrompt
         LLMService.properties andb negb JS.truthy World.now World.trace];
    unfold LLMService.requestFor;
    cbn [LLMService.options LLMService.model LLMService.temperature LLMService.maxTokens
         LLMService.properties LLMService.cacheSystemPrompt LLMService.cachedSystemPrompt];
    match goal with
    | |- context [Settlement.result ?s] =>
        destruct (Settlement.result s) as [r | e];
        [destruct (Completion.first_content r) as [[| c rest] |] |]
    end; split; reflexivity.
Qed.

End CompletionClient.

Section Orchestrator.

Import Async.
Local Open Scope string_scope.

Section OneQuestion.

Variables (create : client) (q : string) (this : Chatbot.t) (w : World.t).

Lemma askQuestion_uninitialized :
  Chatbot.isInitialized this = false ->
  Chatbot.askQuestion create q this w
  = (Exn (JS.Error "Chatbot not initialized. Please call initialize() first."), this, w).
Proof.
  intros Hinit. unfold Chatbot.askQuestion, bind, get. now rewrite Hinit.
Qed.

Hypothesis Hinit : Chatbot.isInitialized this = true.

(** An initialized chatbot: what one question does, from what the service
    does with it. *)
Lemma askQuestion_initialized
      (svc svc' : LLMService.t) (response : Response.t) (w' : World.t) :
  Chatbot.llmService this = Some svc ->
  LLMService.answerQuestion create q svc w = (Val response, svc', w') ->
  let responseTime := (World.now w' - World.now w)%Z in
  let tracked :=
    CostTracker.trackQuery (Chatbot.costTracker this) q response responseTime (World.now w') in
  let tracking := Config.enableCostTracking (Chatbot.config this) in
  Chatbot.askQuestion create q this w
  = (Val (result_of response responseTime (Chatbot.questionCount this + 1)
                    (if tracking then CostOf (snd tracked) else CostNull)),
     Chatbot.mk (Some svc') true (Chatbot.questionCount this + 1)
                (if tracking then fst tracked else Chatbot.costTracker this)
                (animation_after this) (Chatbot.config this),
     w').
Proof.
  intros Hsvc Hanswer. cbv zeta. revert Hinit Hsvc.
  destruct this as [llm init count tracker anim cfg].
  cbn [Chatbot.isInitialized Chatbot.llmService Chatbot.costTracker Chatbot.config
       Chatbot.questionCount].
  intros -> ->.
  destruct cfg as [key mdl temp maxTok timeout tracking cache animations metrics].
  destruct anim as [animating].
  chatbot_unfold. unfold animation_after.
  unfold Chatbot.set_questionCount, Chatbot.set_thinkingAnimation, Chatbot.set_llmService,
    Chatbot.set_costTracker, ThinkingAnimation.start, ThinkingAnimation.stop.
  destruct animations, tracking, animating;
    cbn -[LLMService.answerQuestion CostTracker.trackQuery Z.add Z.sub];
    rewrite Hanswer;
    cbn -[LLMService.answerQuestion CostTracker.trackQuery Z.add Z.sub];
    try destruct (CostTracker.trackQuery _ _ _ _ _) as [tracker' cost];
    reflexivity.
Qed.

(** A chatbot marked initialized without a service: the [catch] block answers. *)
Lemma askQuestion_no_service :
  Chatbot.llmService this = None ->
  exists result,
    Chatbot.askQuestion create q this w
    = (Val result,
       Chatbot.mk None true (Chatbot.questionCount this + 1) (Chatbot.costTracker this)
                  (animation_after this) (Chatbot.config this),
       w)
    /\ Result.question result = q
    /\ Result.answer result = Some Chatbot.apology
    /\ Result.error result = Some "Cannot read properties of null (reading 'answerQuestion')"
    /\ Result.questionNumber result = (Chatbot.questionCount this + 1)%Z
    /\ Result.cost result = CostAbsent.
Proof.
  revert Hinit.
  destruct this as [llm init count tracker anim cfg].
  cbn [Chatbot.isInitialized Chatbot.llmService Chatbot.costTracker Chatbot.config
       Chatbot.questionCount].
  intros -> ->.
  destruct cfg as [key mdl temp maxTok timeout tracking cache animations metrics].
  destruct anim as [animating].
  chatbot_unfold. unfold animation_after.
  unfold Chatbot.set_questionCount, Chatbot.set_thinkingAnimation, Chatbot.set_llmService,
    Chatbot.set_costTracker, ThinkingAnimation.start, ThinkingAnimation.stop.
  destruct animations, animating; cbn -[Z.add Z.sub Chatbot.apology];
    eexists; (split; [reflexivity |]); cbn; auto.
Qed.

(** On an initialized chatbot a question always resolves to a Result, and
    is counted. *)
Lemma askQuestion_resolves :
  exists result this' w',
    Chatbot.askQuestion create q this w = (Val result, this', w')
    /\ Result.question result = q
    /\ Result.questionNumber result = (Chatbot.questionCount this + 1)%Z
    /\ Chatbot.questionCount this' = (Chatbot.questionCount this + 1)%Z
    /\ Chatbot.isInitialized this' = true
    /\ Chatbot.config this' = Chatbot.config this.
Proof.
  destruct (Chatbot.llmService this) as [svc |] eqn:Hsvc.
  - destruct (answerQuestion_returns create q svc w) as (response & svc' & w' & Heq & Hq & _).
    rewrite (askQuestion_initialized svc svc' response w' Hsvc Heq).
    do 3 eexists. split; [reflexivity |]. cbn. auto.
  - destruct (askQuestion_no_service Hsvc) as (result & Heq & Hq & _ & _ & Hn & _).
    rewrite Heq. do 3 eexists. split; [reflexivity |]. cbn. auto.
Qed.

(** A failed completion attempt: the response of the service carries an
    error; with cost tracking on, the chatbot prices it all the same. *)
Lemma failed_attempt_tracked
      (svc svc' : LLMService.t) (response : Response.t) (w' : World.t) (message : string) :
  Chatbot.llmService this = Some svc ->
  LLMService.answerQuestion create q svc w = (Val response, svc', w') ->
  Response.error response = Some message ->
  Config.enableCostTracking (Chatbot.config this) = true ->
  exists result this' cost entry,
    Chatbot.askQuestion create q this w = (Val result, this', w')
    /\ Result.error result = Some message
    /\ Result.cost result = CostOf cost
    /\ CostTracker.sessions (Chatbot.costTracker this')
       = (CostTracker.sessions (Chatbot.costTracker this) ++ [entry])%list
    /\ Session.tokens entry = cost.
Proof.
  intros Hsvc Heq Herr Htrack.
  rewrite (askQuestion_initialized svc svc' response w' Hsvc Heq).
  rewrite Htrack.
  do 4 eexists. split; [reflexivity |].
  cbn [Chatbot.costTracker result_of Result.error Result.cost].
  split; [exact Herr |]. split; [reflexivity |].
  rewrite trackQuery_sessions. split; reflexivity.
Qed.

(** With cost tracking off nothing is priced, whatever the attempt gives. *)
Lemma untracked_question_isolated :
  Config.enableCostTracking (Chatbot.config this) = false ->
  exists result this' w',
    Chatbot.askQuestion create q this w = (Val result, this', w')
    /\ Chatbot.costTracker this' = Chatbot.costTracker this
    /\ (Result.cost result = CostNull \/ Result.cost result = CostAbsent).
Proof.
  intros Htrack.
  destruct (Chatbot.llmService this) as [svc |] eqn:Hsvc.
  - destruct (answerQuestion_returns create q svc w) as (response & svc' & w' & Heq & _).
    rewrite (askQuestion_initialized svc svc' response w' Hsvc Heq).
    rewrite Htrack. do 3 eexists. split; [reflexivity |]. cbn. auto.
  - destruct (askQuestion_no_service Hsvc) as (result & Heq & _ & _ & _ & _ & Hcost).
    rewrite Heq. do 3 eexists. split; [reflexivity |]. cbn. auto.
Qed.

(** One question keeps the totals of the tracker equal to the sums over its
    log, and adds at most one entry. *)
Lemma askQuestion_keeps_totals :
  totals_agree (Chatbot.costTracker this) ->
  exists result this' w',
    Chatbot.askQuestion create q this w = (Val result, this', w')
    /\ Chatbot.isInitialized this' = true
    /\ totals_agree (Chatbot.costTracker this')
    /\ Chatbot.questionCount this' = (Chatbot.questionCount this + 1)%Z
    /\ (List.length (CostTracker.sessions (Chatbot.costTracker this'))
        <= List.length (CostTracker.sessions (Chatbot.costTracker this)) + 1)%nat.
Proof.
  intros Hagree.
  destruct (Chatbot.llmService this) as [svc |] eqn:Hsvc.
  - destruct (answerQuestion_returns create q svc w) as (response & svc' & w' & Heq & _).
    rewrite (askQuestion_initialized svc svc' response w' Hsvc Heq).
    do 3 eexists. split; [reflexivity |].
    cbn [Chatbot.isInitialized Chatbot.costTracker Chatbot.questionCount].
    destruct (Config.enableCostTracking (Chatbot.config this)).
    + split; [reflexivity |]. split; [now apply totals_agree_trackQuery |].
      split; [reflexivity |].
      rewrite trackQuery_sessions, length_app. cbn [List.length]. lia.
    + repeat split; auto; try apply Hagree. lia.
  - destruct (askQuestion_no_service Hsvc) as (result & Heq & _).
    rewrite Heq. do 3 eexists. split; [reflexivity |].
    cbn [Chatbot.isInitialized Chatbot.costTracker Chatbot.questionCount].
    repeat split; auto; try apply Hagree. lia.
Qed.

End OneQuestion.

(** A chatbot that was only constructed refuses every question, and stays
    as it is. *)
Lemma never_initialized_rejects (config : Config.t) (create : client) (q : string)
      (w : World.t) :
  Chatbot.askQuestion create q (Chatbot.constructor config) w
  = (Exn (JS.Error "Chatbot not initialized. Please call initialize() first."),
     Chatbot.constructor config, w).
Proof. now apply askQuestion_uninitialized. Qed.

(** [initialize()] resolves to [true] or [false], never throws, and marks
    the chatbot initialized exactly when it resolves to [true]; the service
    then holds the loaded catalog, which is not empty, the options of the
    configuration, and no cached prompt yet. *)
Lemma initialize_outcome (env : Chatbot.startup) (config : Config.t) (w : World.t) :
  exists (ok : bool) this',
    Chatbot.initialize env (Chatbot.constructor config) w = (Val ok, this', w)
    /\ Chatbot.isInitialized this' = ok
    /\ Chatbot.costTracker this' = CostTracker.constructor
    /\ Chatbot.questionCount this' = 0%Z
    /\ (ok = true ->
        exists catalog,
          Chatbot.loaded env = Val catalog /\ catalog <> []
          /\ Chatbot.llmService this'
             = Some (LLMService.setProperties
                       (LLMService.constructor
                          (Config.openaiModel config) (Config.temperature config)
                          (Config.maxTokens config) (Config.responseTimeout config)
                          (Config.cacheSystemPrompt config))
                       catalog)).
Proof.
  destruct env as [connected loaded].
  destruct config as [key mdl temp maxTok timeout tracking cache animations metrics].
  unfold Chatbot.initialize, Chatbot.when, Chatbot.on_llmService, Chatbot.constructor,
    Chatbot.set_llmService, Chatbot.set_isInitialized,
    try_catch, bind, get, throw, ret, modify.
  cbn [Chatbot.config Config.openaiApiKey Chatbot.isConnected Chatbot.loaded
       Chatbot.llmService Chatbot.isInitialized Chatbot.questionCount Chatbot.costTracker
       Chatbot.thinkingAnimation Config.openaiModel Config.temperature Config.maxTokens
       Config.responseTimeout Config.cacheSystemPrompt].
  destruct (JS.truthy key); cbn [negb];
    [| do 2 eexists; split; [reflexivity |]; cbn; repeat split; discriminate].
  cbn [Chatbot.config Config.openaiApiKey Chatbot.isConnected Chatbot.loaded
       Chatbot.llmService Chatbot.isInitialized Chatbot.questionCount Chatbot.costTracker
       Chatbot.thinkingAnimation Config.openaiModel Config.temperature Config.maxTokens
       Config.responseTimeout Config.cacheSystemPrompt].
  destruct connected; cbn [negb];
    [| do 2 eexists; split; [reflexivity |]; cbn; repeat split; discriminate].
  destruct loaded as [[| p0 ps] | e];
    cbn [Chatbot.llmService Chatbot.isInitialized Chatbot.questionCount Chatbot.costTracker
         Chatbot.thinkingAnimation Chatbot.config];
    do 2 eexists; (split; [reflexivity |]); cbn; repeat split; try discriminate.
  intros _. eexists. repeat split. discriminate.
Qed.

(** A whole session: every question resolves, all are counted, and the
    totals still agree with the log at the end. *)
Lemma session_keeps_totals (qs : list (client * string)) :
  forall (this : Chatbot.t) (w : World.t),
    Chatbot.isInitialized this = true ->
    totals_agree (Chatbot.costTracker this) ->
    exists results this' w',
      Chatbot.ask_all qs this w = (Val results, this', w')
      /\ List.length results = List.length qs
      /\ Chatbot.questionCount this'
         = (Chatbot.questionCount this + Z.of_nat (List.length qs))%Z
      /\ totals_agree (Chatbot.costTracker this')
      /\ (List.length (CostTracker.sessions (Chatbot.costTracker this'))
          <= List.length (CostTracker.sessions (Chatbot.costTracker this))
             + List.length qs)%nat.
Proof.
  induction qs as [| [create q] qs IH]; intros this w Hinit Hagree.
  - exists [], this, w. cbn. repeat split; auto; try apply Hagree; lia.
  - destruct (askQuestion_keeps_totals create q this w Hinit Hagree)
      as (r & this1 & w1 & Heq & Hinit1 & Hagree1 & Hcount1 & Hlen1).
    destruct (IH this1 w1 Hinit1 Hagree1)
      as (rs & this2 & w2 & Heq2 & Hlen & Hcount2 & Hagree2 & Hlen2).
    exists (r :: rs), this2, w2.
    cbn [Chatbot.ask_all]. unfold bind at 1. rewrite Heq.
    unfold bind at 1. rewrite Heq2.
    split; [reflexivity |].
    cbn [List.length]. repeat split; auto; try apply Hagree2; lia.
Qed.

(** C8.  When the client resolves but the first choice has no text, or an
    empty one, the service takes its [catch] block: the response, and the
    Result the chatbot makes of it, carry the error "No response received
    from AI" and the apology as answer, and none of the fields of a
    success ([usage], [tokensUsed], [model]). *)
Theorem empty_answer_is_failure
        (create : client) (q : string) (this : Chatbot.t) (w : World.t) (svc : LLMService.t) :
  Chatbot.isInitialized this = true ->
  Chatbot.llmService this = Some svc ->
  LLMService.properties svc <> [] ->
  (forall request, exists r,
      Settlement.result (create request) = Settlement.Resolved r
      /\ (Completion.first_content r = None
          \/ Completion.first_content r = Some EmptyString)) ->
  (exists response svc' w',
      LLMService.answerQuestion create q svc w = (Val response, svc', w')
      /\ Response.error response = Some "No response received from AI"
      /\ Response.answer response = Some LLMService.apology
      /\ Response.usage response = None)
  /\ (exists result this' w',
        Chatbot.askQuestion create q this w = (Val result, this', w')
        /\ Result.error result = Some "No response received from AI"
        /\ Result.answer result = Some LLMService.apology
        /\ Result.usage result = None
        /\ Result.tokensUsed result = None
        /\ Result.model result = None).
Proof.
  intros Hinit Hsvc Hprops Hempty.
  destruct (answerQuestion_sends create q svc w Hprops) as (p & g & c & Heq & _).
  cbv zeta in Heq.
  set (svc' := LLMService.mk _ _ _) in Heq.
  set (request := LLMService.requestFor svc' p q) in Heq.
  destruct (Hempty request) as (r & Hres & Hcontent).
  assert (Hfallback :
            forall ts, response_for svc' q (create request) ts
                       = LLMService.fallback q (JS.Error "No response received from AI") ts).
  { intros ts. unfold response_for. rewrite Hres.
    destruct Hcontent as [-> | ->]; reflexivity. }
  rewrite Hfallback in Heq.
  split.
  - do 3 eexists. split; [exact Heq |]. cbn. auto.
  - rewrite (askQuestion_initialized create q this w Hinit svc _ _ _ Hsvc Heq).
    do 3 eexists. split; [reflexivity |]. cbn. auto.
Qed.

Lemma empty_answer_is_failure_witness :
  let failed (create : client) :=
    exists result this' w',
      Chatbot.askQuestion create "Is there a pool?" Scenario.bot Scenario.w0
      = (Val result, this', w')
      /\ Result.error result = Some "No response received from AI"
      /\ Result.answer result = Some LLMService.apology
      /\ Result.usage result = None
      /\ Result.tokensUsed result = None
      /\ Result.model result = None in
  failed Scenario.empty /\ failed Scenario.absent.
Proof.
  set (svc := LLMService.setProperties
                (LLMService.constructor "gpt-3.5-turbo" 0.2 400 30000 true)
                Scenario.catalog).
  split.
  - refine (proj2 (empty_answer_is_failure
                     Scenario.empty "Is there a pool?" Scenario.bot Scenario.w0 svc
                     eq_refl eq_refl _ _)).
    + discriminate.
    + intros request. eexists. split; [reflexivity | right; reflexivity].
  - refine (proj2 (empty_answer_is_failure
                     Scenario.absent "Is there a pool?" Scenario.bot Scenario.w0 svc
                     eq_refl eq_refl _ _)).
    + discriminate.
    + intros request. eexists. split; [reflexivity | left; reflexivity].
Defined.

(** C1 (the code departs from it).  In a session with the default
    configuration, a question whose completion attempt is rejected is
    counted, and its Result carries the error and the apology; but the
    Result also carries a cost, estimated from the lengths of the question
    and of the apology, and that cost is appended to the log and added to
    the session totals. *)
Theorem failed_query_is_cost_tracked :
  Chatbot.isInitialized Scenario.bot = true
  /\ CostTracker.sessions (Chatbot.costTracker Scenario.bot) = []
  /\ let '(r, bot', _) :=
       Chatbot.askQuestion Scenario.timing_out "hi" Scenario.bot Scenario.w0 in
     exists result cost entry,
       r = Val result
       /\ Result.error result = Some "Request timed out."
       /\ Result.answer result = Some LLMService.apology
       /\ Result.questionNumber result = 1%Z
       /\ Chatbot.questionCount bot' = 1%Z
       /\ Result.cost result = CostOf cost
       /\ QueryCost.inputTokens cost = 251%Z
       /\ QueryCost.outputTokens cost = 44%Z
       /\ CostTracker.sessions (Chatbot.costTracker bot') = [entry]
       /\ Session.tokens entry = cost
       /\ TokenTotals.total (CostTracker.totalTokens (Chatbot.costTracker bot')) = 295%Z
       /\ (CostTracker.totalCost (Chatbot.costTracker bot') == 0.0004645)%Q.
Proof.
  split; [reflexivity |]. split; [reflexivity |].
  vm_compute.
  do 3 eexists.
  repeat (split; [reflexivity |]).
  reflexivity.
Qed.

(** C5 (the code departs from it).  With the response timeout configured
    to 30000 ms, both in the chatbot and in the options of the service, a
    completion that resolves after 45000 ms is taken as a success: the
    Result has the answer, no error, and a response time of 45000 ms. *)
Theorem slow_completion_is_accepted :
  Config.responseTimeout (Chatbot.config Scenario.bot) = 30000%Z
  /\ option_map (fun svc => LLMService.responseTimeout (LLMService.options svc))
                (Chatbot.llmService Scenario.bot) = Some 30000%Z
  /\ let '(r, _, w') :=
       Chatbot.askQuestion Scenario.slow "What's the cheapest property?"
                           Scenario.bot Scenario.w0 in
     exists result,
       r = Val result
       /\ Result.error result = None
       /\ Result.answer result = Some "Rio Beach House at $18/night"
       /\ Result.responseTime result = 45000%Z
       /\ (World.now w' - World.now Scenario.w0 = 45000)%Z.
Proof.
  split; [reflexivity |]. split; [reflexivity |].
  vm_compute.
  eexists.
  repeat (split; [reflexivity |]).
  reflexivity.
Qed.

(** C6 (the code departs from it).  On an initialized chatbot, a completion
    whose text is a single blank passes the test for a missing answer and
    is then trimmed: the Result is a success whose answer is the empty
    string. *)
Theorem blank_completion_gives_empty_answer :
  Chatbot.isInitialized Scenario.bot = true
  /\ let '(r, _, _) :=
       Chatbot.askQuestion Scenario.blank "Is there a pool?" Scenario.bot Scenario.w0 in
     exists result,
       r = Val result
       /\ Result.error result = None
       /\ Result.answer result = Some EmptyString.
Proof.
  split; [reflexivity |].
  vm_compute.
  eexists.
  repeat (split; [reflexivity |]).
  reflexivity.
Qed.

End Orchestrator.

(* ================================================================== *)
(** * The Cost Accountant: totals, averages and what is displayed      *)
(* ================================================================== *)

Section CostReports.

Local Open Scope Q_scope.

Lemma string_app_assoc (a b c : string) : ((a ++ b) ++ c = a ++ (b ++ c))%string.
Proof. induction a as [| x a IH]; cbn; [reflexivity | now rewrite IH]. Qed.

Lemma string_app_length (a b : string) :
  String.length (a ++ b) = (String.length a + String.length b)%nat.
Proof. induction a as [| x a IH]; cbn; [reflexivity | now rewrite IH]. Qed.

(** The counts [trackQuery] prices are never negative when the reported
    ones are not, and never both zero. *)
Lemma countTokens_positive (question : string) (response : Response.t) :
  (0 <= fst (CostTracker.reportedTokens response))%Z ->
  (0 <= snd (CostTracker.reportedTokens response))%Z ->
  (0 <= fst (CostTracker.countTokens question response))%Z
  /\ (0 <= snd (CostTracker.countTokens question response))%Z
  /\ (0 < fst (CostTracker.countTokens question response)
          + snd (CostTracker.countTokens question response))%Z.
Proof.
  unfold CostTracker.countTokens.
  destruct (CostTracker.reportedTokens response) as [i o]. cbn [fst snd].
  intros Hi Ho.
  destruct (Z.eqb_spec i 0) as [-> | Hi0]; [destruct (Z.eqb_spec o 0) as [-> | Ho0] |];
    cbn [andb fst snd]; try lia.
  rewrite !ceil_div_4.
  assert (Hq : (0 <= JS.length question)%Z) by (unfold JS.length; lia).
  assert (Ha : (0 <= CostTracker.answerLength response)%Z).
  { unfold CostTracker.answerLength, JS.length.
    destruct (Response.answer response); lia. }
  assert (H1 := Z.div_mod (JS.length question + 1000 + 3) 4).
  assert (B1 := Z.mod_pos_bound (JS.length question + 1000 + 3) 4).
  assert (H2 := Z.div_mod (CostTracker.answerLength response + 3) 4).
  assert (B2 := Z.mod_pos_bound (CostTracker.answerLength response + 3) 4).
  lia.
Qed.

(** Every entry of the log is the price, at the rates of [that], of its
    own two counts, and the token total is the sum of the other two. *)
Lemma run_entries_priced (that : CostTracker.t) (calls : list CostTracker.call) :
  forall this : CostTracker.t,
    CostTracker.pricing this = CostTracker.pricing that ->
    Forall (fun s => Session.tokens s
                     = CostTracker.estimateCost
                         that (QueryCost.inputTokens (Session.tokens s))
                         (QueryCost.outputTokens (Session.tokens s)))
           (CostTracker.sessions this) ->
    (TokenTotals.total (CostTracker.totalTokens this)
     = TokenTotals.input (CostTracker.totalTokens this)
       + TokenTotals.output (CostTracker.totalTokens this))%Z ->
    let after := CostTracker.run this calls in
    Forall (fun s => Session.tokens s
                     = CostTracker.estimateCost
                         that (QueryCost.inputTokens (Session.tokens s))
                         (QueryCost.outputTokens (Session.tokens s)))
           (CostTracker.sessions after)
    /\ (TokenTotals.total (CostTracker.totalTokens after)
        = TokenTotals.input (CostTracker.totalTokens after)
          + TokenTotals.output (CostTracker.totalTokens after))%Z.
Proof.
  induction calls as [| c calls IH]; intros this Hp Hall Ht; [split; assumption |].
  change (CostTracker.run this (c :: calls))
    with (CostTracker.run (CostTracker.step this c) calls).
  destruct c; cbn [CostTracker.step]; try (apply IH; assumption).
  unfold CostTracker.trackQuery.
  destruct (CostTracker.countTokens question response) as [i o].
  cbn [fst]. apply IH; cbn [CostTracker.pricing CostTracker.totalTokens CostTracker.sessions
                            TokenTotals.total TokenTotals.input TokenTotals.output].
  - exact Hp.
  - apply Forall_app. split; [exact Hall |]. constructor; [| constructor].
    cbn [Session.tokens]. unfold CostTracker.estimateCost, CostTracker.calculateQueryCost.
    cbn [QueryCost.inputTokens QueryCost.outputTokens]. now rewrite Hp.
  - cbn [CostTracker.calculateQueryCost QueryCost.totalTokens]. lia.
Qed.

(** X1.  At every point of the life of a tracker, every entry of the log
    is exactly what [estimateCost] returns for the entry's own input and
    output counts (all seven fields: the entry was priced at the rates the
    tracker still has), the input and output totals are the sums of the
    entries' counts, and the token total is the sum of those two totals. *)
Theorem logged_entries_are_priced_counts (calls : list CostTracker.call) :
  let this := CostTracker.run CostTracker.constructor calls in
  let totals := CostTracker.totalTokens this in
  Forall (fun s => Session.tokens s
                   = CostTracker.estimateCost
                       this (QueryCost.inputTokens (Session.tokens s))
                       (QueryCost.outputTokens (Session.tokens s)))
         (CostTracker.sessions this)
  /\ TokenTotals.input totals = sumTokens QueryCost.inputTokens (CostTracker.sessions this)
  /\ TokenTotals.output totals = sumTokens QueryCost.outputTokens (CostTracker.sessions this)
  /\ TokenTotals.total totals = (TokenTotals.input totals + TokenTotals.output totals)%Z
  /\ Forall (fun s => QueryCost.totalTokens (Session.tokens s)
                      = (QueryCost.inputTokens (Session.tokens s)
                         + QueryCost.outputTokens (Session.tokens s))%Z)
            (CostTracker.sessions this).
Proof.
  intros this totals.
  destruct (run_entries_priced this calls CostTracker.constructor)
    as [Hall Ht]; [symmetry; apply run_pricing | constructor | reflexivity |].
  fold this in Hall, Ht.
  destruct (totals_agree_run calls _ totals_agree_constructor) as (_ & Hi & Ho & _).
  fold this in Hi, Ho.
  split; [exact Hall |]. split; [exact Hi |]. split; [exact Ho |].
  split; [exact Ht |].
  eapply Forall_impl; [| exact Hall].
  intros s Hs. rewrite Hs. reflexivity.
Qed.

(** X2.  A query tracked from a response whose reported counts are not
    negative always has a positive token total (the estimate alone is at
    least 250 input tokens), so the line [displayQueryCost] prints for it
    always shows the three counts: the "Tokens: estimated" wording is never
    printed for a tracked query, not even when the counts were estimated. *)
Theorem tracked_cost_never_shown_as_estimated
        (this : CostTracker.t) (question : string) (response : Response.t)
        (responseTime now : Z) :
  (0 <= fst (CostTracker.reportedTokens response))%Z ->
  (0 <= snd (CostTracker.reportedTokens response))%Z ->
  let cost := snd (CostTracker.trackQuery this question response responseTime now) in
  (0 < QueryCost.totalTokens cost)%Z
  /\ (fst (CostTracker.reportedTokens response) = 0%Z ->
      snd (CostTracker.reportedTokens response) = 0%Z ->
      (250 <= QueryCost.inputTokens cost)%Z)
  /\ CostReport.displayQueryCost cost responseTime
     = ("💰 Query cost: " ++ QueryCost.formattedCost cost
          ++ " | Tokens: " ++ JS.show_Z (QueryCost.totalTokens cost)
          ++ " (" ++ JS.show_Z (QueryCost.inputTokens cost)
          ++ "+" ++ JS.show_Z (QueryCost.outputTokens cost) ++ ")"
          ++ " | Time: " ++ JS.show_Z responseTime ++ "ms")%string.
Proof.
  intros Hi Ho cost.
  destruct (countTokens_positive question response Hi Ho) as (Hi' & Ho' & Hpos).
  assert (Hcost : cost = CostTracker.calculateQueryCost this
                           (fst (CostTracker.countTokens question response))
                           (snd (CostTracker.countTokens question response)))
    by apply trackQuery_cost.
  assert (Htot : (0 < QueryCost.totalTokens cost)%Z) by (rewrite Hcost; exact Hpos).
  split; [exact Htot |]. split.
  - intros Hi0 Ho0. rewrite Hcost. cbn [CostTracker.calculateQueryCost QueryCost.inputTokens].
    unfold CostTracker.countTokens.
    destruct (CostTracker.reportedTokens response) as [i o]. cbn [fst snd] in *.
    subst i o. cbn [Z.eqb andb fst]. rewrite ceil_div_4.
    assert (Hq : (0 <= JS.length question)%Z) by (unfold JS.length; lia).
    assert (H1 := Z.div_mod (JS.length question + 1000 + 3) 4).
    assert (B1 := Z.mod_pos_bound (JS.length question + 1000 + 3) 4).
    lia.
  - unfold CostReport.displayQueryCost.
    apply Z.ltb_lt in Htot. rewrite Htot.
    rewrite !string_app_assoc. cbn [String.append]. reflexivity.
Qed.

Lemma tracked_cost_never_shown_as_estimated_witness :
  let reply := Response.mk "hello" (Some "Hello!"%string) None None None None None in
  CostReport.displayQueryCost
    (snd (CostTracker.trackQuery CostTracker.constructor "hello" reply 850 0)) 850
  = "💰 Query cost: $0.000382 | Tokens: 254 (252+2) | Time: 850ms"%string.
Proof.
  intros reply.
  destruct (tracked_cost_never_shown_as_estimated
              CostTracker.constructor "hello" reply 850 0) as (_ & _ & H);
    [cbn; lia | cbn; lia |].
  rewrite H. reflexivity.
Defined.

Lemma sumTokens_bounds (f : QueryCost.t -> Z) (lo hi : Z) (l : list Session.t) :
  Forall (fun s => (lo <= f (Session.tokens s) <= hi)%Z) l ->
  (Z.of_nat (List.length l) * lo <= sumTokens f l <= Z.of_nat (List.length l) * hi)%Z.
Proof.
  unfold sumTokens.
  induction 1 as [| s l Hs _ IH]; cbn [fold_right List.length]; lia.
Qed.

(** X3.  Whenever the log is not empty, the average token count that
    [getSessionStats] reports is a finite number that lies between the
    smallest and the largest token total of the logged entries. *)
Theorem average_tokens_between_extremes (calls : list CostTracker.call) (lo hi : Z) :
  let this := CostTracker.run CostTracker.constructor calls in
  CostTracker.sessions this <> [] ->
  Forall (fun s => (lo <= QueryCost.totalTokens (Session.tokens s) <= hi)%Z)
         (CostTracker.sessions this) ->
  exists average,
    Stats.averageTokensPerQuery (CostTracker.getSessionStats this) = JS.Finite average
    /\ inject_Z lo <= average <= inject_Z hi
    /\ Stats.totalQueries (CostTracker.getSessionStats this)
       = Z.of_nat (List.length (CostTracker.sessions this)).
Proof.
  intros this Hne Hall.
  destruct (totals_agree_run calls _ totals_agree_constructor) as (_ & _ & _ & Ht).
  fold this in Ht.
  pose proof (sumTokens_bounds QueryCost.totalTokens lo hi _ Hall) as Hsum.
  rewrite <- Ht in Hsum.
  unfold CostTracker.getSessionStats.
  cbn [Stats.averageTokensPerQuery Stats.totalQueries].
  set (n := Z.of_nat (List.length (CostTracker.sessions this))) in *.
  set (total := TokenTotals.total (CostTracker.totalTokens this)) in *.
  assert (Hpos : (0 < n)%Z).
  { unfold n. destruct (CostTracker.sessions this); [contradiction | cbn; lia]. }
  rewrite (proj2 (Z.ltb_lt 0 n) Hpos).
  unfold JS.div.
  destruct (Qeq_bool (inject_Z n) 0) eqn:E.
  { apply Qeq_bool_eq in E. unfold Qeq in E. cbn in E. lia. }
  eexists. split; [reflexivity |].
  assert (Hn : 0 < inject_Z n) by (rewrite <- (Zlt_Qlt 0); exact Hpos).
  split; [split |]; [| | reflexivity].
  - apply Qle_shift_div_l; [exact Hn |].
    rewrite <- inject_Z_mult, <- Zle_Qle. lia.
  - apply Qle_shift_div_r; [exact Hn |].
    rewrite <- inject_Z_mult, <- Zle_Qle. lia.
Qed.

Lemma average_tokens_between_extremes_witness :
  let reply n :=
    Response.mk "q" (Some "a"%string) (Some n)
                (Some (Usage.mk (Some 0%Z) (Some n) (Some n))) None None None in
  let stats :=
    CostTracker.getSessionStats
      (CostTracker.run CostTracker.constructor
         [ CostTracker.TrackQuery "q" (reply 50%Z) 800 0;
           CostTracker.TrackQuery "q" (reply 100%Z) 900 1000 ]) in
  exists average,
    Stats.averageTokensPerQuery stats = JS.Finite average
    /\ 50 <= average <= 100
    /\ Stats.totalQueries stats = 2%Z.
Proof.
  intros reply stats.
  apply (average_tokens_between_extremes
           [ CostTracker.TrackQuery "q" (reply 50%Z) 800 0;
             CostTracker.TrackQuery "q" (reply 100%Z) 900 1000 ] 50 100).
  - discriminate.
  - repeat constructor; cbn; lia.
Defined.

(** With the constructor's rates and counts that are not negative, a call
    never lowers the total cost. *)
Lemma run_cost_monotone (calls : list CostTracker.call) :
  forall this : CostTracker.t,
    CostTracker.pricing this = CostTracker.pricing CostTracker.constructor ->
    Forall reports_nonnegative calls ->
    CostTracker.totalCost this <= CostTracker.totalCost (CostTracker.run this calls).
Proof.
  induction calls as [| c calls IH]; intros this Hp Hall; [apply Qle_refl |].
  change (CostTracker.run this (c :: calls))
    with (CostTracker.run (CostTracker.step this c) calls).
  inversion Hall as [| c' calls' Hc Hrest]; subst.
  destruct c; cbn [CostTracker.step]; try (apply IH; assumption).
  destruct Hc as [Hi Ho].
  destruct (countTokens_positive question response Hi Ho) as (Hi' & Ho' & _).
  eapply Qle_trans; [| apply IH; [| exact Hrest]].
  - rewrite trackQuery_totalCost, trackQuery_cost.
    cbn [CostTracker.calculateQueryCost QueryCost.totalCost].
    rewrite Hp. cbn [CostTracker.constructor CostTracker.pricing Pricing.input Pricing.output].
    rewrite <- (Qplus_0_r (CostTracker.totalCost this)) at 1.
    apply Qplus_le_r.
    rewrite (Zle_Qle 0) in Hi', Ho'.
    assert (R1 : 0 <= 0.0015 / 1000) by (unfold Qle; cbn; lia).
    assert (R2 : 0 <= 0.002 / 1000) by (unfold Qle; cbn; lia).
    rewrite <- (Qplus_0_r 0).
    apply Qplus_le_compat; apply Qmult_le_0_compat; assumption.
  - unfold CostTracker.trackQuery.
    destruct (CostTracker.countTokens question response). exact Hp.
Qed.

(** X4.  Along a session whose reported counts are never negative the
    total cost never goes down, so the closing line of the summary never
    gets milder: once it advises shorter prompts it keeps doing so, and
    once it has left "Excellent" it never returns to it. *)
Theorem summary_tip_never_improves (calls more : list CostTracker.call) :
  Forall reports_nonnegative more ->
  let before := CostTracker.run CostTracker.constructor calls in
  let after := CostTracker.run before more in
  CostTracker.totalCost before <= CostTracker.totalCost after
  /\ (CostReport.costTip (CostTracker.totalCost before)
      = "💡 Tip: Consider using shorter prompts to reduce costs"%string ->
      CostReport.costTip (CostTracker.totalCost after)
      = "💡 Tip: Consider using shorter prompts to reduce costs"%string)
  /\ (CostReport.costTip (CostTracker.totalCost after)
      = "💡 Excellent: Very cost-effective session!"%string ->
      CostReport.costTip (CostTracker.totalCost before)
      = "💡 Excellent: Very cost-effective session!"%string).
Proof.
  intros Hall before after.
  assert (Hle : CostTracker.totalCost before <= CostTracker.totalCost after).
  { apply run_cost_monotone; [| exact Hall]. unfold before. apply run_pricing. }
  split; [exact Hle |].
  unfold CostReport.costTip.
  destruct (Qlt_le_dec 0.01 (CostTracker.totalCost before)) as [Hb1 | Hb1];
    destruct (Qlt_le_dec 0.01 (CostTracker.totalCost after)) as [Ha1 | Ha1];
    destruct (Qlt_le_dec 0.001 (CostTracker.totalCost before)) as [Hb2 | Hb2];
    destruct (Qlt_le_dec 0.001 (CostTracker.totalCost after)) as [Ha2 | Ha2];
    split; intros H; try reflexivity; try discriminate H;
    exfalso; lra.
Qed.

Lemma summary_tip_never_improves_witness :
  let reply n :=
    Response.mk "q" (Some "a"%string) (Some n)
                (Some (Usage.mk (Some n) (Some 0%Z) (Some n))) None None None in
  let before :=
    CostTracker.run CostTracker.constructor [ CostTracker.TrackQuery "q" (reply 7000%Z) 800 0 ] in
  let after := CostTracker.run before [ CostTracker.TrackQuery "q" (reply 10%Z) 900 1000 ] in
  CostReport.costTip (CostTracker.totalCost after)
  = "💡 Tip: Consider using shorter prompts to reduce costs"%string.
Proof.
  intros reply before after.
  apply (summary_tip_never_improves
           [ CostTracker.TrackQuery "q" (reply 7000%Z) 800 0 ]
           [ CostTracker.TrackQuery "q" (reply 10%Z) 900 1000 ]).
  - repeat constructor; cbn; lia.
  - reflexivity.
Defined.

Lemma div_by_count (x : Q) (n : Z) :
  (0 < n)%Z -> JS.div x (inject_Z n) = JS.Finite (x / inject_Z n).
Proof.
  intros Hn. unfold JS.div.
  destruct (Qeq_bool (inject_Z n) 0) eqn:E; [| reflexivity].
  apply Qeq_bool_eq in E. unfold Qeq in E. cbn in E. lia.
Qed.

(** X5.  The summary printed at the end of a session: its last line is
    the cost tip and its seventh the total cost with six decimals.  For a
    session without a tracked query it has nine lines and shows no
    average; otherwise it has eleven, and the two averages it shows are
    numbers, never [NaN] or [Infinity]: the total cost divided by the
    number of queries, with six decimals, and the token total divided by
    the number of queries, rounded to the nearest whole number. *)
Theorem summary_shows_finite_averages
        (toLocaleString : Z -> string) (this : CostTracker.t) :
  let lines := CostReport.displaySessionSummary toLocaleString this in
  let n := Z.of_nat (List.length (CostTracker.sessions this)) in
  last lines EmptyString = CostReport.costTip (CostTracker.totalCost this)
  /\ nth_error lines 6
     = Some ("Total Cost: $" ++ JS.toFixed 6 (CostTracker.totalCost this))%string
  /\ (CostTracker.sessions this = [] -> List.length lines = 9%nat)
  /\ (CostTracker.sessions this <> [] ->
      List.length lines = 11%nat
      /\ nth_error lines 7
         = Some ("Average per query: $"
                   ++ JS.toFixed 6 (CostTracker.totalCost this / inject_Z n))%string
      /\ nth_error lines 8
         = Some ("Average tokens: "
                   ++ JS.show_Z
                        (Qfloor (inject_Z (TokenTotals.total (CostTracker.totalTokens this))
                                 / inject_Z n + (1 # 2))))%string).
Proof.
  intros lines n. unfold lines, CostReport.displaySessionSummary.
  unfold CostTracker.getSessionStats.
  cbn [Stats.averageCostPerQuery Stats.averageTokensPerQuery Stats.totalQueries
       Stats.totalCost Stats.totalTokens Stats.sessions Stats.formattedTotalCost].
  fold n.
  destruct (CostTracker.sessions this) as [| s0 rest] eqn:Hs.
  - change (0 <? n)%Z with false. cbv iota.
    split; [reflexivity |]. split; [reflexivity |]. split; [reflexivity |].
    intros H. contradiction.
  - assert (Hn : (0 < n)%Z) by (unfold n; cbn [List.length]; lia).
    rewrite !div_by_count by exact Hn.
    apply Z.ltb_lt in Hn. rewrite Hn.
    split; [reflexivity |]. split; [reflexivity |].
    split; [discriminate |]. intros _.
    split; [reflexivity |]. split; reflexivity.
Qed.

End CostReports.

(* ================================================================== *)
(** * The Completion Client: requests, responses and the prompt        *)
(* ================================================================== *)

Section ServiceCalls.

Import Async.
Local Open Scope string_scope.

(** X6.  A call of [answerQuestion] never throws and makes at most one
    attempt.  Without a catalog it sends nothing, leaves the service and
    the clock as they are and reports "No property data loaded".  With a
    catalog it sends exactly one request, whether the client then resolves
    or rejects: the configured model and token limit, no streaming, and two
    messages, the system prompt (never empty) and "Question: " followed by
    the question; the clock advances by the time that one request took. *)
Theorem answerQuestion_one_attempt
        (create : client) (q : string) (this : LLMService.t) (w : World.t) :
  let '(r, this', w') := LLMService.answerQuestion create q this w in
  exists response,
    r = Val response
    /\ Response.question response = q
    /\ match LLMService.properties this with
       | [] =>
           this' = this /\ w' = w
           /\ Response.error response
              = Some "No property data loaded. Please load properties first."
       | _ :: _ =>
           exists prompt request,
             requests (World.trace w') = (requests (World.trace w) ++ [request])%list
             /\ Request.messages request
                = [ Message.mk "system" prompt; Message.mk "user" ("Question: " ++ q) ]
             /\ prompt <> EmptyString
             /\ Request.model request = LLMService.model (LLMService.options this)
             /\ Request.max_tokens request = LLMService.maxTokens (LLMService.options this)
             /\ Request.temperature request
                = LLMService.temperature (LLMService.options this)
             /\ Request.stream request = false
             /\ World.now w' = (World.now w + Settlement.elapsed (create request))%Z
             /\ LLMService.properties this' = LLMService.properties this
             /\ LLMService.options this' = LLMService.options this
       end.
Proof.
  destruct (LLMService.properties this) as [| p0 ps] eqn:Hprops.
  - rewrite (answerQuestion_no_properties create q this w Hprops).
    eexists. split; [reflexivity |]. cbn. auto.
  - destruct (answerQuestion_sends create q this w) as (p & g & c & Heq & Ht & Hg & _).
    { rewrite Hprops. discriminate. }
    cbv zeta in Heq. rewrite Heq. clear Heq.
    eexists. split; [reflexivity |]. split.
    { unfold response_for.
      destruct (Settlement.result _) as [r | e]; [| reflexivity].
      destruct (Completion.first_content r) as [[| c0 rest] |]; reflexivity. }
    exists p. eexists. cbn [World.trace World.now].
    rewrite !requests_app. cbn [requests].
    assert (Hreq : requests g = []) by (destruct Hg as [(-> & _) | (-> & _)]; reflexivity).
    rewrite Hreq, app_nil_r.
    split; [reflexivity |]. split; [reflexivity |].
    split; [exact (truthy_nonempty _ Ht) |].
    cbn. rewrite Hprops. repeat split; reflexivity.
Qed.

(** X7.  The response of [answerQuestion] has one of two shapes, never a
    mix.  Either it is a success: no [error], the answer is the trimmed text
    of the first choice of a completion the client resolved with (a text
    that was not empty), and [usage], [tokensUsed] and [model] are present,
    [tokensUsed] being the reported total or 0.  Or it is the fallback: an
    [error] message, the fixed apology as answer, and none of [usage],
    [tokensUsed] and [model].  Both carry a timestamp. *)
Theorem answerQuestion_response_shape
        (create : client) (q : string) (this : LLMService.t) (w : World.t) :
  let '(r, _, _) := LLMService.answerQuestion create q this w in
  exists response,
    r = Val response
    /\ Response.timestamp response <> None
    /\ ((Response.error response = None
         /\ (exists request completion text,
                Settlement.result (create request) = Settlement.Resolved completion
                /\ Completion.first_content completion = Some text
                /\ text <> EmptyString
                /\ Response.answer response = Some (JS.trim text)
                /\ Response.tokensUsed response
                   = Some (match Completion.usage completion with
                           | Some u => JS.or_zero (Usage.total_tokens u)
                           | None => 0%Z
                           end))
         /\ Response.usage response <> None
         /\ Response.model response = Some (LLMService.model (LLMService.options this)))
        \/ (exists message, Response.error response = Some message)
           /\ Response.answer response = Some LLMService.apology
           /\ Response.usage response = None
           /\ Response.tokensUsed response = None
           /\ Response.model response = None).
Proof.
  destruct (LLMService.properties this) as [| p0 ps] eqn:Hprops.
  - rewrite (answerQuestion_no_properties create q this w Hprops).
    eexists. split; [reflexivity |]. split; [discriminate |].
    right. cbn. repeat split; eauto.
  - destruct (answerQuestion_sends create q this w) as (p & g & c & Heq & _).
    { rewrite Hprops. discriminate. }
    cbv zeta in Heq. rewrite Heq. clear Heq.
    eexists. split; [reflexivity |].
    unfold response_for.
    destruct (Settlement.result (create _)) as [r | e] eqn:Hres.
    + destruct (Completion.first_content r) as [[| c0 rest] |] eqn:Hcontent.
      * split; [discriminate |]. right. cbn. repeat split; eauto.
      * split; [discriminate |]. left. cbn.
        split; [reflexivity |]. split; [| split; [discriminate | reflexivity]].
        do 3 eexists. split; [exact Hres |]. split; [exact Hcontent |].
        split; [discriminate |]. split; [reflexivity |].
        destruct (Completion.usage r); reflexivity.
      * split; [discriminate |]. right. cbn. repeat split; eauto.
    + split; [discriminate |]. right. cbn. repeat split; eauto.
Qed.

(** X8.  The cached prompt survives [setProperties].  With caching on,
    once a question was asked, loading another catalog changes the
    catalog the service holds but not the prompt: every later call still
    sends the prompt stored by the first call (the one generated from the
    catalog of that time, if nothing was cached before), and generates
    nothing. *)
Theorem setProperties_keeps_cached_prompt
        (create : client) (q : string) (catalog' : list Property.t)
        (later : list (client * string)) (this : LLMService.t) (w : World.t) :
  LLMService.cacheSystemPrompt (LLMService.options this) = true ->
  LLMService.properties this <> [] ->
  catalog' <> [] ->
  let '(_, this1, w1) := LLMService.answerQuestion create q this w in
  let '(_, thisN, wN) :=
    LLMService.answer_all later (LLMService.setProperties this1 catalog') w1 in
  exists prompt sent,
    LLMService.cachedSystemPrompt this1 = Some prompt
    /\ (JS.truthy (LLMService.cachedSystemPrompt this) = false ->
        prompt = LLMService.generateSystemPrompt this)
    /\ LLMService.properties thisN = catalog'
    /\ LLMService.cachedSystemPrompt thisN = Some prompt
    /\ World.trace wN = (World.trace w1 ++ map World.Sent sent)%list
    /\ List.length sent = List.length later
    /\ Forall (fun request => system_prompt_of request = Some prompt) sent.
Proof.
  intros Hcache Hprops Hnew.
  destruct (answerQuestion_sends create q this w Hprops)
    as (p & g & c & Heq & Htruthy & Hg & Hc).
  cbv zeta in Heq. rewrite Heq. clear Heq.
  rewrite Hcache in Hc. subst c.
  set (this1 := LLMService.mk (LLMService.options this) (Some p) (LLMService.properties this)).
  set (w1 := World.mk _ _).
  destruct (answer_all_cached later (LLMService.setProperties this1 catalog') w1 p
              Hcache Hnew eq_refl Htruthy)
    as (rs & sent & wN & HeqN & _ & HtraceN & Hlen & Hall).
  rewrite HeqN.
  exists p, sent.
  split; [reflexivity |]. split.
  { intros Hfalsy. destruct Hg as [(_ & Hp & _) | (_ & Hp & _)]; [| exact Hp].
    rewrite Hp, Htruthy in Hfalsy. discriminate Hfalsy. }
  repeat split; auto.
Qed.

Lemma setProperties_keeps_cached_prompt_witness :
  let svc := LLMService.setProperties
               (LLMService.constructor "gpt-3.5-turbo" 0.2 400 30000 true)
               Scenario.catalog in
  let other := [ Property.mk 1 "Oslo Cabin" "Oslo, Norway" "$60/night" "A cabin."
                             "1 bedrooms, 1 bathrooms, 0 parking spaces" "Skogveien 3" ] in
  let '(_, this1, w1) :=
    LLMService.answerQuestion Scenario.slow "Anything in Rio?" svc Scenario.w0 in
  let '(_, thisN, wN) :=
    LLMService.answer_all [(Scenario.slow, "And in Oslo?")]
                          (LLMService.setProperties this1 other) w1 in
  exists prompt sent,
    LLMService.cachedSystemPrompt this1 = Some prompt
    /\ (JS.truthy (LLMService.cachedSystemPrompt svc) = false ->
        prompt = LLMService.generateSystemPrompt svc)
    /\ LLMService.properties thisN = other
    /\ LLMService.cachedSystemPrompt thisN = Some prompt
    /\ World.trace wN = (World.trace w1 ++ map World.Sent sent)%list
    /\ List.length sent = 1%nat
    /\ Forall (fun request => system_prompt_of request = Some prompt) sent.
Proof.
  intros svc other.
  apply (setProperties_keeps_cached_prompt
           Scenario.slow "Anything in Rio?" other [(Scenario.slow, "And in Oslo?")]
           svc Scenario.w0); [reflexivity | discriminate | discriminate].
Defined.

(** X9.  With caching off the prompt is generated afresh at every call,
    from the catalog the service holds at that moment, and the service is
    left exactly as it was: nothing is ever stored. *)
Theorem uncached_prompt_is_fresh
        (create : client) (q : string) (this : LLMService.t) (w : World.t) :
  LLMService.cacheSystemPrompt (LLMService.options this) = false ->
  LLMService.properties this <> [] ->
  let '(_, this', w') := LLMService.answerQuestion create q this w in
  this' = this
  /\ exists request,
       World.trace w'
       = (World.trace w
            ++ [ World.Generated (LLMService.generateSystemPrompt this);
                 World.Sent request ])%list
       /\ system_prompt_of request = Some (LLMService.generateSystemPrompt this).
Proof.
  intros Hcache Hprops.
  destruct (answerQuestion_sends create q this w Hprops)
    as (p & g & c & Heq & _ & Hg & Hc).
  cbv zeta in Heq. rewrite Heq. clear Heq.
  rewrite Hcache in Hc. subst c.
  destruct Hg as [(_ & _ & Htrue) | (-> & -> & _)];
    [rewrite Hcache in Htrue; discriminate Htrue |].
  split; [now destruct this |].
  eexists. cbn [World.trace]. rewrite <- app_assoc. split; reflexivity.
Qed.

Lemma uncached_prompt_is_fresh_witness :
  let svc := LLMService.setProperties
               (LLMService.constructor "gpt-3.5-turbo" 0.2 400 30000 false)
               Scenario.catalog in
  let '(_, this', w') :=
    LLMService.answerQuestion Scenario.slow "Anything in Rio?" svc Scenario.w0 in
  this' = svc
  /\ exists request,
       World.trace w'
       = (World.trace Scenario.w0
            ++ [ World.Generated (LLMService.generateSystemPrompt svc);
                 World.Sent request ])%list
       /\ system_prompt_of request = Some (LLMService.generateSystemPrompt svc).
Proof.
  intros svc.
  apply (uncached_prompt_is_fresh Scenario.slow "Anything in Rio?" svc Scenario.w0);
    [reflexivity | discriminate].
Defined.

Lemma contains_refl (s : string) : contains s s.
Proof. exists EmptyString, EmptyString. cbn. now rewrite append_empty_r. Qed.

Lemma contains_trans (a b c : string) : contains a b -> contains b c -> contains a c.
Proof.
  intros (p1 & s1 & ->) (p2 & s2 & ->).
  exists (p2 ++ p1), (s1 ++ s2). now rewrite !string_app_assoc.
Qed.

Lemma contains_app_l (a b c : string) : contains a b -> contains a (b ++ c).
Proof.
  intros (p & s & ->). exists p, (s ++ c). now rewrite !string_app_assoc.
Qed.

Lemma contains_app_r (a b c : string) : contains a c -> contains a (b ++ c).
Proof.
  intros (p & s & ->). exists (b ++ p), s. now rewrite !string_app_assoc.
Qed.

(** Each part of a joined list occurs in the result. *)
Lemma join_contains (sep : string) (parts : list string) (part : string) :
  In part parts -> contains part (LLMService.join sep parts).
Proof.
  induction parts as [| p parts IH]; intros Hin; [contradiction |].
  destruct parts as [| p' parts].
  - destruct Hin as [-> | []]. apply contains_refl.
  - change (LLMService.join sep (p :: p' :: parts))
      with (p ++ sep ++ LLMService.join sep (p' :: parts)).
    destruct Hin as [-> | Hin].
    + apply contains_app_l, contains_refl.
    + apply contains_app_r, contains_app_r, IH, Hin.
Qed.

(** The blocks of the catalog, as one piece, are in the prompt. *)
Lemma prompt_contains_catalog (this : LLMService.t) :
  contains (LLMService.join (LLMService.nl ++ LLMService.nl)
                            (map LLMService.propertyBlock (LLMService.properties this)))
           (LLMService.generateSystemPrompt this).
Proof.
  unfold LLMService.generateSystemPrompt. apply join_contains. cbn [In]. auto.
Qed.

Lemma prompt_contains_block (this : LLMService.t) (property : Property.t) :
  In property (LLMService.properties this) ->
  contains (LLMService.propertyBlock property) (LLMService.generateSystemPrompt this).
Proof.
  intros Hin. eapply contains_trans; [| apply prompt_contains_catalog].
  apply join_contains, in_map, Hin.
Qed.

Lemma prompt_contains_lines (this : LLMService.t) (property : Property.t) :
  In property (LLMService.properties this) ->
  contains ("Property " ++ JS.show_Z (Property.index property) ++ ": "
              ++ Property.title property)
           (LLMService.generateSystemPrompt this)
  /\ contains ("- Price: " ++ Property.priceDisplay property)
              (LLMService.generateSystemPrompt this).
Proof.
  intros Hin. pose proof (prompt_contains_block this property Hin) as Hblock.
  split.
  - eapply contains_trans; [| exact Hblock].
    unfold LLMService.propertyBlock. apply join_contains. cbn [In]. auto.
  - eapply contains_trans; [| exact Hblock].
    unfold LLMService.propertyBlock. apply join_contains. cbn [In]. auto.
Qed.

Lemma prompt_contains_count (this : LLMService.t) :
  contains ("You have access to "
              ++ JS.show_nat (List.length (LLMService.properties this))
              ++ " rental properties")
           (LLMService.generateSystemPrompt this).
Proof.
  unfold LLMService.generateSystemPrompt.
  eapply contains_trans; [| apply join_contains; cbn [In]; left; reflexivity].
  match goal with
  | |- contains _ (?a ++ ?n ++ ?b) =>
      exists "You are a helpful and knowledgeable rental property assistant. ",
             " and can answer questions about them quickly and accurately."
  end.
  cbn [String.append]. rewrite !string_app_assoc. reflexivity.
Qed.

(** X10.  The generated prompt holds the whole catalog: the blocks of all
    properties, joined by blank lines in catalog order, occur in it as one
    piece, so the block of every property of the catalog (with its number,
    title, location, price, description, facilities and address) is in the
    prompt, and so is the number of properties. *)
Theorem prompt_lists_every_property (this : LLMService.t) (property : Property.t) :
  In property (LLMService.properties this) ->
  let prompt := LLMService.generateSystemPrompt this in
  contains (LLMService.join (LLMService.nl ++ LLMService.nl)
                            (map LLMService.propertyBlock (LLMService.properties this)))
           prompt
  /\ contains (LLMService.propertyBlock property) prompt
  /\ contains ("Property " ++ JS.show_Z (Property.index property) ++ ": "
                 ++ Property.title property) prompt
  /\ contains ("- Price: " ++ Property.priceDisplay property) prompt
  /\ contains ("You have access to "
                 ++ JS.show_nat (List.length (LLMService.properties this))
                 ++ " rental properties") prompt.
Proof.
  intros Hin prompt. unfold prompt.
  destruct (prompt_contains_lines this property Hin) as [Htitle Hprice].
  split; [apply prompt_contains_catalog |].
  split; [now apply prompt_contains_block |].
  split; [exact Htitle |].
  split; [exact Hprice | apply prompt_contains_count].
Qed.

Lemma prompt_lists_every_property_witness :
  let svc := LLMService.setProperties
               (LLMService.constructor "gpt-3.5-turbo" 0.2 400 30000 true)
               Scenario.catalog in
  contains "Property 2: Lisbon Loft" (LLMService.generateSystemPrompt svc)
  /\ contains "- Price: $95/night" (LLMService.generateSystemPrompt svc)
  /\ contains "You have access to 2 rental properties" (LLMService.generateSystemPrompt svc).
Proof.
  intros svc.
  destruct (prompt_lists_every_property
              svc
              (Property.mk 2 "Lisbon Loft" "Lisbon, Portugal" "$95/night"
                           "A loft under the roofs of the old town."
                           "1 bedrooms, 1 bathrooms, 1 parking spaces"
                           "Address not provided"))
    as (_ & _ & Htitle & Hprice & Hcount).
  - cbn. auto.
  - repeat split; assumption.
Defined.

End ServiceCalls.

(* ================================================================== *)
(** * The interactive session                                          *)
(* ================================================================== *)

Section Lines.

Import Async.
Local Open Scope string_scope.

Lemma trimEnd_idempotent (s : string) : JS.trimEnd (JS.trimEnd s) = JS.trimEnd s.
Proof.
  induction s as [| c s IH]; [reflexivity |].
  cbn [JS.trimEnd].
  destruct (JS.trimEnd s) as [| c' r] eqn:Hr.
  - destruct (JS.is_white_space c) eqn:Hc; [reflexivity |].
    cbn [JS.trimEnd]. now rewrite Hc.
  - cbn [JS.trimEnd]. cbn [JS.trimEnd] in IH.
    destruct (match JS.trimEnd r with
              | EmptyString =>
                  if JS.is_white_space c' then EmptyString else String c' EmptyString
              | String a r0 => String c' (String a r0)
              end); [discriminate IH | now rewrite IH].
Qed.

(** [trimEnd] keeps a first character that is not white space. *)
Lemma trimEnd_head (c : ascii) (s : string) :
  JS.is_white_space c = false ->
  exists r, JS.trimEnd (String c s) = String c r.
Proof.
  intros Hc. cbn [JS.trimEnd]. rewrite Hc.
  destruct (JS.trimEnd s); eauto.
Qed.

(** What [trim] returns is empty or starts with a character that is not
    white space. *)
Lemma trim_head (s : string) :
  JS.trim s = EmptyString
  \/ exists c r, JS.trim s = String c r /\ JS.is_white_space c = false.
Proof.
  unfold JS.trim.
  induction s as [| c s IH]; [now left |].
  cbn [JS.trimStart].
  destruct (JS.is_white_space c) eqn:Hc; [exact IH |].
  right. destruct (trimEnd_head c s Hc) as (r & ->). eauto.
Qed.

Lemma trimStart_fixed (c : ascii) (r : string) :
  JS.is_white_space c = false -> JS.trimStart (String c r) = String c r.
Proof. intros Hc. cbn [JS.trimStart]. now rewrite Hc. Qed.

Lemma trim_idempotent (s : string) : JS.trim (JS.trim s) = JS.trim s.
Proof.
  destruct (trim_head s) as [H | (c & r & H & Hc)].
  - rewrite H. reflexivity.
  - unfold JS.trim at 1. rewrite H, (trimStart_fixed c r Hc), <- H.
    unfold JS.trim. apply trimEnd_idempotent.
Qed.

(** What [trimEnd] returns does not end with white space. *)
Lemma trimEnd_last (s : string) :
  forall body c, JS.trimEnd s = (body ++ String c EmptyString)%string ->
                 JS.is_white_space c = false.
Proof.
  induction s as [| a s IH]; intros body c H.
  - destruct body; discriminate H.
  - cbn [JS.trimEnd] in H.
    destruct (JS.trimEnd s) as [| a' r] eqn:Hr.
    + destruct (JS.is_white_space a) eqn:Ha.
      * destruct body; discriminate H.
      * destruct body as [| b body]; cbn in H.
        -- now injection H as <-.
        -- injection H as _ H. destruct body; discriminate H.
    + destruct body as [| b body]; cbn in H; [discriminate H |].
      injection H as _ H. exact (IH body c H).
Qed.

(** The question of a line that is asked. *)
Lemma dispatch_ask_is_trim (input question : string) :
  Interactive.dispatch input = Interactive.Ask question -> question = JS.trim input.
Proof.
  unfold Interactive.dispatch.
  destruct (Interactive.includes _ _); [discriminate |].
  destruct (negb _); [discriminate |].
  destruct (Interactive.includes _ _); [discriminate |].
  now intros [= <-].
Qed.

(** X11.  A line reaches [askQuestion] only as its trimmed text, and only
    if that text is not empty and is none of the exit and help words in any
    letter case: the question asked neither starts nor ends with white
    space, and trimming it again changes nothing. *)
Theorem dispatch_asks_trimmed_question (input question : string) :
  Interactive.dispatch input = Interactive.Ask question ->
  question = JS.trim input
  /\ question <> EmptyString
  /\ JS.trim question = question
  /\ (exists c rest, question = String c rest /\ JS.is_white_space c = false)
  /\ (forall body c, question = body ++ String c EmptyString ->
                     JS.is_white_space c = false)
  /\ Interactive.includes ["exit"; "quit"; "bye"; "goodbye"; "help"; "?"]
                          (Interactive.toLowerCase question) = false.
Proof.
  unfold Interactive.dispatch.
  destruct (Interactive.includes ["exit"; "quit"; "bye"; "goodbye"]
                                 (Interactive.toLowerCase (JS.trim input))) eqn:Hexit;
    [discriminate |].
  destruct (JS.truthy (Some (JS.trim input))) eqn:Htruthy; cbn [negb]; [| discriminate].
  destruct (Interactive.includes ["help"; "?"]
                                 (Interactive.toLowerCase (JS.trim input))) eqn:Hhelp;
    [discriminate |].
  intros [= <-].
  split; [reflexivity |].
  split; [exact (truthy_nonempty _ Htruthy) |].
  split; [apply trim_idempotent |].
  split.
  { destruct (trim_head input) as [H | H]; [| exact H].
    rewrite H in Htruthy. discriminate Htruthy. }
  split.
  { intros body c H. unfold JS.trim in H. exact (trimEnd_last _ body c H). }
  unfold Interactive.includes in *. cbn [existsb] in *.
  repeat match goal with
         | H : (_ || _)%bool = false |- _ => apply orb_false_elim in H as [? ?]
         end.
  repeat match goal with
         | H : ?x = false |- context [?x] => rewrite H
         end.
  reflexivity.
Qed.

Lemma dispatch_asks_trimmed_question_witness :
  Interactive.dispatch "  Anything near the beach? " = Interactive.Ask "Anything near the beach?"
  /\ JS.trim "Anything near the beach?" = "Anything near the beach?".
Proof.
  split; [reflexivity |].
  exact (proj1 (proj2 (proj2 (dispatch_asks_trimmed_question
                                "  Anything near the beach? "
                                "Anything near the beach?" eq_refl)))).
Defined.

(** X12.  The handler looks at the trimmed line only, and at its letter
    case not at all when it tests for the exit and help words: padding a
    line with white space never changes what is done with it, a line of
    white space only is never asked, and two lines whose trimmed texts
    differ only in letter case are handled alike (both asked, or both the
    same command). *)
Theorem dispatch_ignores_padding_and_case :
  (forall input, Interactive.dispatch (JS.trim input) = Interactive.dispatch input)
  /\ (forall input, JS.trim input = EmptyString ->
                    Interactive.dispatch input = Interactive.Reprompt)
  /\ (forall input input',
        Interactive.toLowerCase (JS.trim input) = Interactive.toLowerCase (JS.trim input') ->
        match Interactive.dispatch input, Interactive.dispatch input' with
        | Interactive.Ask _, Interactive.Ask _ => True
        | a, a' => a = a'
        end).
Proof.
  split; [| split].
  - intros input. unfold Interactive.dispatch. now rewrite trim_idempotent.
  - intros input H. unfold Interactive.dispatch. rewrite H. reflexivity.
  - intros input input' H. unfold Interactive.dispatch. rewrite <- H.
    assert (Hempty : JS.truthy (Some (JS.trim input)) = JS.truthy (Some (JS.trim input'))).
    { destruct (JS.trim input), (JS.trim input'); try reflexivity; discriminate H. }
    rewrite <- Hempty.
    destruct (Interactive.includes ["exit"; "quit"; "bye"; "goodbye"] _); [reflexivity |].
    destruct (JS.truthy (Some (JS.trim input))); cbn [negb]; [| reflexivity].
    destruct (Interactive.includes ["help"; "?"] _); [reflexivity | exact I].
Qed.

End Lines.

Section Sessions.

Import Async.
Local Open Scope string_scope.

(** What one question does to an initialized chatbot, in one statement. *)
Lemma askQuestion_step (create : client) (q : string) (this : Chatbot.t) (w : World.t) :
  Chatbot.isInitialized this = true ->
  exists result this' w',
    Chatbot.askQuestion create q this w = (Val result, this', w')
    /\ Chatbot.isInitialized this' = true
    /\ Chatbot.config this' = Chatbot.config this
    /\ Chatbot.questionCount this' = (Chatbot.questionCount this + 1)%Z
    /\ Result.questionNumber result = (Chatbot.questionCount this + 1)%Z
    /\ Result.question result = q
    /\ (Chatbot.llmService this = None <-> Chatbot.llmService this' = None)
    /\ Chatbot.thinkingAnimation this' = animation_after this
    /\ (Config.enableCostTracking (Chatbot.config this) = false ->
        Chatbot.costTracker this' = Chatbot.costTracker this
        /\ Result.cost result
           = match Chatbot.llmService this with
             | Some _ => CostNull
             | None => CostAbsent
             end)
    /\ (Config.enableCostTracking (Chatbot.config this) = true ->
        Chatbot.llmService this <> None ->
        exists entry,
          CostTracker.sessions (Chatbot.costTracker this')
          = (CostTracker.sessions (Chatbot.costTracker this) ++ [entry])%list
          /\ Result.cost result = CostOf (Session.tokens entry)
          /\ Session.responseTime entry = Result.responseTime result).
Proof.
  intros Hinit.
  destruct (Chatbot.llmService this) as [svc |] eqn:Hsvc.
  - destruct (answerQuestion_returns create q svc w) as (response & svc' & w' & Heq & Hq & _).
    rewrite (askQuestion_initialized create q this w Hinit svc svc' response w' Hsvc Heq).
    do 3 eexists. split; [reflexivity |].
    cbn [Chatbot.isInitialized Chatbot.config Chatbot.questionCount Chatbot.llmService
         Chatbot.thinkingAnimation Chatbot.costTracker result_of Result.questionNumber
         Result.question Result.cost Result.responseTime].
    do 5 (split; [auto |]).
    split; [split; discriminate |]. split; [reflexivity |].
    split.
    + intros ->. auto.
    + intros -> _. rewrite trackQuery_sessions. eexists. split; [reflexivity |].
      split; reflexivity.
  - destruct (askQuestion_no_service create q this w Hinit Hsvc)
      as (result & Heq & Hq & _ & _ & Hn & Hcost).
    rewrite Heq. do 3 eexists. split; [reflexivity |].
    cbn [Chatbot.isInitialized Chatbot.config Chatbot.questionCount Chatbot.llmService
         Chatbot.thinkingAnimation Chatbot.costTracker].
    do 5 (split; [auto |]).
    split; [tauto |]. split; [reflexivity |].
    split; [auto |]. intros _ H. contradiction.
Qed.

(** The numbers [count + 1], ..., [count + n]. *)
Lemma numbers_shift (count : Z) (n : nat) :
  map (fun k => (count + 1 + Z.of_nat k)%Z) (seq 1 n)
  = map (fun k => (count + Z.of_nat k)%Z) (seq 2 n).
Proof.
  rewrite <- (seq_shift n 1), map_map. apply map_ext. intros k. lia.
Qed.

(** A whole session, question after question. *)
Lemma ask_all_session (qs : list (client * string)) :
  forall (this : Chatbot.t) (w : World.t),
    Chatbot.isInitialized this = true ->
    exists results this' w',
      Chatbot.ask_all qs this w = (Val results, this', w')
      /\ Chatbot.isInitialized this' = true
      /\ Chatbot.config this' = Chatbot.config this
      /\ Chatbot.questionCount this'
         = (Chatbot.questionCount this + Z.of_nat (List.length qs))%Z
      /\ map Result.questionNumber results
         = map (fun k => (Chatbot.questionCount this + Z.of_nat k)%Z)
               (seq 1 (List.length qs))
      /\ map Result.question results = map snd qs
      /\ (Config.enableCostTracking (Chatbot.config this) = false ->
          Chatbot.costTracker this' = Chatbot.costTracker this
          /\ Forall (fun r => Result.cost r
                              = match Chatbot.llmService this with
                                | Some _ => CostNull
                                | None => CostAbsent
                                end)
                    results)
      /\ (Config.enableCostTracking (Chatbot.config this) = true ->
          Chatbot.llmService this <> None ->
          exists entries,
            CostTracker.sessions (Chatbot.costTracker this')
            = (CostTracker.sessions (Chatbot.costTracker this) ++ entries)%list
            /\ map Result.cost results = map (fun e => CostOf (Session.tokens e)) entries
            /\ map Result.responseTime results = map Session.responseTime entries).
Proof.
  induction qs as [| [create q] qs IH]; intros this w Hinit.
  - exists [], this, w. cbn. rewrite Z.add_0_r.
    repeat split; auto. intros _ _. exists []. now rewrite app_nil_r.
  - destruct (askQuestion_step create q this w Hinit)
      as (r & this1 & w1 & Heq & Hinit1 & Hcfg1 & Hcount1 & Hnum1 & Hq1 & Hllm1 & _
          & Hoff1 & Hon1).
    destruct (IH this1 w1 Hinit1)
      as (rs & this2 & w2 & Heq2 & Hinit2 & Hcfg2 & Hcount2 & Hnum2 & Hq2 & Hoff2 & Hon2).
    exists (r :: rs), this2, w2.
    cbn [Chatbot.ask_all]. unfold bind at 1. rewrite Heq.
    unfold bind at 1. rewrite Heq2.
    split; [reflexivity |]. split; [exact Hinit2 |].
    split; [congruence |].
    split; [cbn [List.length]; lia |].
    split.
    { cbn [List.length seq map]. rewrite Hnum1, Hnum2, Hcount1.
      f_equal. apply numbers_shift. }
    split; [cbn [map snd]; congruence |].
    rewrite Hcfg1 in Hoff2, Hon2.
    split.
    + intros Hoff. destruct (Hoff1 Hoff) as [Ht1 Hc1].
      destruct (Hoff2 Hoff) as [Ht2 Hc2].
      split; [congruence |]. constructor; [exact Hc1 |].
      destruct (Chatbot.llmService this), (Chatbot.llmService this1);
        try exact Hc2; exfalso; destruct Hllm1 as [H1 H2];
        [discriminate (H2 eq_refl) | discriminate (H1 eq_refl)].
    + intros Hon Hsvc. destruct (Hon1 Hon Hsvc) as (entry & Hlog1 & Hc1 & Ht1).
      destruct (Hon2 Hon) as (entries & Hlog2 & Hc2 & Ht2); [tauto |].
      exists (entry :: entries). rewrite Hlog2, Hlog1, <- app_assoc.
      split; [reflexivity |]. cbn [map]. split; congruence.
Qed.

(** X13.  On an initialized chatbot every question of a session resolves
    to a Result, in the order asked, each echoing its question; the Results
    are numbered consecutively from the counter's value plus one, and the
    counter ends increased by the number of questions, whether the
    completion attempts failed or not. *)
Theorem session_numbers_questions
        (qs : list (client * string)) (this : Chatbot.t) (w : World.t) :
  Chatbot.isInitialized this = true ->
  let '(r, this', _) := Chatbot.ask_all qs this w in
  exists results,
    r = Val results
    /\ map Result.question results = map snd qs
    /\ map Result.questionNumber results
       = map (fun k => (Chatbot.questionCount this + Z.of_nat k)%Z)
             (seq 1 (List.length qs))
    /\ Chatbot.questionCount this'
       = (Chatbot.questionCount this + Z.of_nat (List.length qs))%Z
    /\ Chatbot.isInitialized this' = true.
Proof.
  intros Hinit.
  destruct (ask_all_session qs this w Hinit)
    as (rs & this' & w' & Heq & Hinit' & _ & Hcount & Hnum & Hq & _).
  rewrite Heq. exists rs. auto.
Qed.

Lemma session_numbers_questions_witness :
  let '(r, this', _) :=
    Chatbot.ask_all [ (Scenario.slow, "Anything in Rio?");
                      (Scenario.timing_out, "And in Lisbon?");
                      (Scenario.blank, "Is there a pool?") ]
                    Scenario.bot Scenario.w0 in
  exists results,
    r = Val results
    /\ map Result.question results
       = ["Anything in Rio?"; "And in Lisbon?"; "Is there a pool?"]
    /\ map Result.questionNumber results = [1; 2; 3]%Z
    /\ Chatbot.questionCount this' = 3%Z
    /\ Chatbot.isInitialized this' = true.
Proof.
  exact (session_numbers_questions
           [ (Scenario.slow, "Anything in Rio?");
             (Scenario.timing_out, "And in Lisbon?");
             (Scenario.blank, "Is there a pool?") ]
           Scenario.bot Scenario.w0 eq_refl).
Defined.

(** X14.  With cost tracking switched off, no session ever touches the
    cost tracker: after any number of questions it is the tracker the
    session started with, and every question still gets its Result, whose
    [cost] is [null] when the service object exists (the question went
    through the [try] block), and is missing only when there is no service
    object (the Result was made by the [catch] block). *)
Theorem untracked_session_leaves_tracker
        (qs : list (client * string)) (this : Chatbot.t) (w : World.t) :
  Chatbot.isInitialized this = true ->
  Config.enableCostTracking (Chatbot.config this) = false ->
  let '(r, this', _) := Chatbot.ask_all qs this w in
  Chatbot.costTracker this' = Chatbot.costTracker this
  /\ exists results,
       r = Val results
       /\ map Result.question results = map snd qs
       /\ Forall (fun result => Result.cost result
                               = match Chatbot.llmService this with
                                 | Some _ => CostNull
                                 | None => CostAbsent
                                 end) results.
Proof.
  intros Hinit Hoff.
  destruct (ask_all_session qs this w Hinit)
    as (rs & this' & w' & Heq & _ & _ & _ & _ & Hq & Hoff' & _).
  rewrite Heq. destruct (Hoff' Hoff) as [Ht Hc].
  split; [exact Ht |]. exists rs. auto.
Qed.

Lemma untracked_session_leaves_tracker_witness :
  let quiet :=
    snd (fst (Chatbot.initialize
                (Chatbot.mkStartup true (Val Scenario.catalog))
                (Chatbot.constructor
                   (Config.mk (Some "sk-test") "gpt-3.5-turbo" 0.2 400 30000
                              false true true true))
                Scenario.w0)) in
  let '(r, this', _) :=
    Chatbot.ask_all [ (Scenario.slow, "Anything in Rio?");
                      (Scenario.timing_out, "And in Lisbon?") ] quiet Scenario.w0 in
  Chatbot.llmService quiet <> None
  /\ Chatbot.costTracker this' = CostTracker.constructor
  /\ exists results,
       r = Val results
       /\ map Result.question results = [ "Anything in Rio?"; "And in Lisbon?" ]
       /\ Forall (fun result => Result.cost result = CostNull) results.
Proof.
  intros quiet.
  pose proof (untracked_session_leaves_tracker
                [ (Scenario.slow, "Anything in Rio?");
                  (Scenario.timing_out, "And in Lisbon?") ]
                quiet Scenario.w0 eq_refl eq_refl) as H.
  destruct (Chatbot.ask_all _ quiet Scenario.w0) as [[r this'] w'].
  destruct H as (Ht & results & Hr & Hq & Hc).
  split; [discriminate |]. split; [exact Ht |].
  exists results. split; [exact Hr |]. split; [exact Hq | exact Hc].
Defined.

(** X15.  With cost tracking on and a service in place, every question of
    a session adds exactly one entry to the cost log, failed attempts
    included: the log grows by as many entries as questions were asked, in
    their order, and the [cost] and response time of each Result are those
    of its entry. *)
Theorem tracked_session_logs_every_question
        (qs : list (client * string)) (this : Chatbot.t) (w : World.t) :
  Chatbot.isInitialized this = true ->
  Chatbot.llmService this <> None ->
  Config.enableCostTracking (Chatbot.config this) = true ->
  let '(r, this', _) := Chatbot.ask_all qs this w in
  exists results entries,
    r = Val results
    /\ CostTracker.sessions (Chatbot.costTracker this')
       = (CostTracker.sessions (Chatbot.costTracker this) ++ entries)%list
    /\ List.length entries = List.length qs
    /\ map Result.cost results = map (fun e => CostOf (Session.tokens e)) entries
    /\ map Result.responseTime results = map Session.responseTime entries.
Proof.
  intros Hinit Hsvc Hon.
  destruct (ask_all_session qs this w Hinit)
    as (rs & this' & w' & Heq & _ & _ & _ & _ & Hq & _ & Hon').
  rewrite Heq. destruct (Hon' Hon Hsvc) as (entries & Hlog & Hc & Ht).
  exists rs, entries. repeat split; auto.
  rewrite <- (length_map Session.responseTime), <- Ht, length_map,
    <- (length_map Result.question), Hq, length_map. reflexivity.
Qed.

Lemma tracked_session_logs_every_question_witness :
  let '(r, this', _) :=
    Chatbot.ask_all [ (Scenario.slow, "Anything in Rio?");
                      (Scenario.timing_out, "And in Lisbon?") ]
                    Scenario.bot Scenario.w0 in
  exists results entries,
    r = Val results
    /\ CostTracker.sessions (Chatbot.costTracker this')
       = (CostTracker.sessions (Chatbot.costTracker Scenario.bot) ++ entries)%list
    /\ List.length entries = 2%nat
    /\ map Result.cost results = map (fun e => CostOf (Session.tokens e)) entries
    /\ map Result.responseTime results = map Session.responseTime entries.
Proof.
  refine (tracked_session_logs_every_question
            [ (Scenario.slow, "Anything in Rio?");
              (Scenario.timing_out, "And in Lisbon?") ]
            Scenario.bot Scenario.w0 eq_refl _ eq_refl).
  discriminate.
Defined.

(** X16.  After a question on an initialized chatbot the spinner is never
    left running when animations are enabled, whichever way the question
    went; when they are disabled the spinner is not touched at all. *)
Theorem spinner_never_left_running
        (create : client) (q : string) (this : Chatbot.t) (w : World.t) :
  Chatbot.isInitialized this = true ->
  let '(_, this', _) := Chatbot.askQuestion create q this w in
  if Config.enableAnimations (Chatbot.config this)
  then ThinkingAnimation.isAnimating (Chatbot.thinkingAnimation this') = false
  else Chatbot.thinkingAnimation this' = Chatbot.thinkingAnimation this.
Proof.
  intros Hinit.
  destruct (askQuestion_step create q this w Hinit)
    as (r & this' & w' & Heq & _ & _ & _ & _ & _ & _ & Hanim & _).
  rewrite Heq, Hanim. unfold animation_after.
  destruct (Config.enableAnimations (Chatbot.config this)); reflexivity.
Qed.

Lemma spinner_never_left_running_witness :
  let '(_, this', _) :=
    Chatbot.askQuestion Scenario.timing_out "Anything in Rio?"
      (Chatbot.set_thinkingAnimation (ThinkingAnimation.mk true) Scenario.bot)
      Scenario.w0 in
  ThinkingAnimation.isAnimating (Chatbot.thinkingAnimation this') = false.
Proof.
  exact (spinner_never_left_running
           Scenario.timing_out "Anything in Rio?"
           (Chatbot.set_thinkingAnimation (ThinkingAnimation.mk true) Scenario.bot)
           Scenario.w0 eq_refl).
Defined.

(** X17.  [initialize()] on a fresh chatbot never throws: it resolves to
    [true] exactly when the API key is set, the connection check succeeds
    and the loader returns a catalog that is not empty, and to [false]
    otherwise.  The chatbot is marked initialized exactly in the first
    case; in the other it rejects every question.  The service object
    exists exactly when the API key was set, and neither the question
    counter nor the cost tracker is touched. *)
Theorem initialize_succeeds_exactly_when
        (env : Chatbot.startup) (config : Config.t) (w : World.t) :
  let ready :=
    (JS.truthy (Config.openaiApiKey config) && Chatbot.isConnected env
     && match Chatbot.loaded env with Val (_ :: _) => true | _ => false end)%bool in
  exists this',
    Chatbot.initialize env (Chatbot.constructor config) w = (Val ready, this', w)
    /\ Chatbot.isInitialized this' = ready
    /\ (Chatbot.llmService this' = None <-> JS.truthy (Config.openaiApiKey config) = false)
    /\ Chatbot.questionCount this' = 0%Z
    /\ Chatbot.costTracker this' = CostTracker.constructor
    /\ (ready = false ->
        forall (create : client) (q : string) (w' : World.t),
          Chatbot.askQuestion create q this' w'
          = (Exn (JS.Error "Chatbot not initialized. Please call initialize() first."),
             this', w')).
Proof.
  destruct env as [connected loaded].
  destruct config as [key mdl temp maxTok timeout tracking cache animations metrics].
  cbn [Config.openaiApiKey Chatbot.isConnected Chatbot.loaded].
  unfold Chatbot.initialize, Chatbot.when, Chatbot.on_llmService, Chatbot.constructor,
    Chatbot.set_llmService, Chatbot.set_isInitialized,
    try_catch, bind, get, throw, ret, modify.
  cbn [Chatbot.config Config.openaiApiKey Chatbot.isConnected Chatbot.loaded
       Chatbot.llmService Chatbot.isInitialized Chatbot.questionCount Chatbot.costTracker
       Chatbot.thinkingAnimation Config.openaiModel Config.temperature Config.maxTokens
       Config.responseTimeout Config.cacheSystemPrompt].
  destruct (JS.truthy key); cbn [negb andb].
  2:{ eexists. split; [reflexivity |]. cbn. repeat split; auto;
      intros _ create q w'; now apply askQuestion_uninitialized. }
  cbn [Chatbot.config Config.openaiApiKey Chatbot.isConnected Chatbot.loaded
       Chatbot.llmService Chatbot.isInitialized Chatbot.questionCount Chatbot.costTracker
       Chatbot.thinkingAnimation Config.openaiModel Config.temperature Config.maxTokens
       Config.responseTimeout Config.cacheSystemPrompt].
  destruct connected; cbn [negb andb].
  2:{ eexists. split; [reflexivity |]. cbn. repeat split; auto; try discriminate;
      intros _ create q w'; now apply askQuestion_uninitialized. }
  destruct loaded as [[| p0 ps] | e];
    cbn [Chatbot.llmService Chatbot.isInitialized Chatbot.questionCount Chatbot.costTracker
         Chatbot.thinkingAnimation Chatbot.config];
    eexists; (split; [reflexivity |]); cbn; repeat split; auto; try discriminate;
    intros _ create q w'; now apply askQuestion_uninitialized.
Qed.

(** X18.  [initialize()] never clears the initialized mark.  Called on a
    chatbot that is already initialized, with the API key set but the
    connection check failing, it resolves to [false] and yet leaves the
    chatbot marked initialized, now with a new service that holds no
    catalog: the next question is not rejected, it is counted and answered
    with the fallback "No property data loaded", and no request is sent. *)
Theorem failed_reinitialize_keeps_flag
        (env : Chatbot.startup) (this : Chatbot.t) (w : World.t)
        (create : client) (q : string) :
  Chatbot.isInitialized this = true ->
  JS.truthy (Config.openaiApiKey (Chatbot.config this)) = true ->
  Chatbot.isConnected env = false ->
  exists this',
    Chatbot.initialize env this w = (Val false, this', w)
    /\ Chatbot.isInitialized this' = true
    /\ (exists svc, Chatbot.llmService this' = Some svc /\ LLMService.properties svc = [])
    /\ exists result this'' w'',
         Chatbot.askQuestion create q this' w = (Val result, this'', w'')
         /\ Result.error result
            = Some "No property data loaded. Please load properties first."
         /\ Result.answer result = Some LLMService.apology
         /\ Result.questionNumber result = (Chatbot.questionCount this + 1)%Z
         /\ World.trace w'' = World.trace w.
Proof.
  intros Hinit Hkey Hconn.
  destruct env as [connected loaded]. cbn [Chatbot.isConnected] in Hconn. subst connected.
  destruct this as [llm init count tracker anim cfg].
  cbn [Chatbot.isInitialized Chatbot.config] in Hinit, Hkey. subst init.
  unfold Chatbot.initialize, Chatbot.when, Chatbot.on_llmService,
    Chatbot.set_llmService, Chatbot.set_isInitialized,
    try_catch, bind, get, throw, ret, modify.
  cbn [Chatbot.config Chatbot.isConnected Chatbot.loaded
       Chatbot.llmService Chatbot.isInitialized Chatbot.questionCount Chatbot.costTracker
       Chatbot.thinkingAnimation].
  rewrite Hkey. cbn [negb].
  cbn [Chatbot.config Chatbot.isConnected Chatbot.loaded
       Chatbot.llmService Chatbot.isInitialized Chatbot.questionCount Chatbot.costTracker
       Chatbot.thinkingAnimation].
  eexists. split; [reflexivity |]. split; [reflexivity |].
  split; [eexists; split; reflexivity |].
  match goal with
  | |- context [Chatbot.askQuestion create q ?b w] => set (this' := b)
  end.
  set (svc := LLMService.constructor _ _ _ _ _) in this'.
  pose proof (answerQuestion_no_properties create q svc w eq_refl) as Heq.
  rewrite (askQuestion_initialized create q this' w eq_refl svc svc _ w eq_refl Heq).
  do 3 eexists. split; [reflexivity |]. cbn. auto.
Qed.

Lemma failed_reinitialize_keeps_flag_witness :
  exists this',
    Chatbot.initialize (Chatbot.mkStartup false (Val Scenario.catalog)) Scenario.bot Scenario.w0
    = (Val false, this', Scenario.w0)
    /\ Chatbot.isInitialized this' = true
    /\ exists result this'' w'',
         Chatbot.askQuestion Scenario.slow "Anything in Rio?" this' Scenario.w0
         = (Val result, this'', w'')
         /\ Result.error result
            = Some "No property data loaded. Please load properties first.".
Proof.
  destruct (failed_reinitialize_keeps_flag
              (Chatbot.mkStartup false (Val Scenario.catalog)) Scenario.bot Scenario.w0
              Scenario.slow "Anything in Rio?" eq_refl eq_refl eq_refl)
    as (this' & Heq & Hinit & _ & result & this'' & w'' & Hask & Herr & _).
  exists this'. split; [exact Heq |]. split; [exact Hinit |].
  exists result, this'', w''. split; [exact Hask | exact Herr].
Defined.

(** X19.  Once the service object exists (the handler is installed only
    after [initialize()] succeeded), the line handler never throws, whatever
    line it is given.  An exit word, a help word or a blank line leaves the
    chatbot and the world exactly as they were: nothing is counted, priced
    or sent.  Any other line is asked once, as its trimmed text, and the
    answer of the Result is what is shown; only a chatbot that is not
    initialized makes the handler show its own apology instead.  Without a
    service object a help word makes the handler throw a [TypeError]. *)
Theorem onLine_never_throws
        (create : client) (input : string) (this : Chatbot.t) (w : World.t) :
  (Chatbot.llmService this <> None ->
   let '(r, this', w') := Interactive.onLine create input this w in
   exists shown,
     r = Val shown
     /\ match Interactive.dispatch input with
        | Interactive.Ask question =>
            question = JS.trim input
            /\ if Chatbot.isInitialized this
               then exists result,
                   Chatbot.askQuestion create question this w = (Val result, this', w')
                   /\ shown = Interactive.Answer (Result.answer result)
                   /\ Chatbot.questionCount this' = (Chatbot.questionCount this + 1)%Z
               else shown = Interactive.Sorry /\ this' = this /\ w' = w
        | Interactive.ExitSession =>
            this' = this /\ w' = w
            /\ shown = Interactive.Goodbye
                         (Chatbot.questionCount this)
                         (Config.enableCostTracking (Chatbot.config this)
                          && (0 <? Chatbot.questionCount this)%Z)
        | Interactive.Reprompt => this' = this /\ w' = w /\ shown = Interactive.Prompt
        | Interactive.ShowHelp => this' = this /\ w' = w /\ shown = Interactive.Help
        end)
  /\ (Chatbot.llmService this = None ->
      Interactive.dispatch input = Interactive.ShowHelp ->
      Interactive.onLine create input this w
      = (Exn (JS.TypeError
                "Cannot read properties of null (reading 'getSuggestedQuestions')"),
         this, w)).
Proof.
  split.
  - intros Hsvc. unfold Interactive.onLine.
    destruct (Interactive.dispatch input) as [| | | question] eqn:Hd.
    + eexists; split; [reflexivity |]; auto.
    + eexists; split; [reflexivity |]; auto.
    + unfold Chatbot.on_llmService, ret.
      destruct this as [[svc |] init count tracker anim cfg];
        cbn [Chatbot.llmService] in *; [| congruence].
      eexists; split; [reflexivity |]; auto.
    + pose proof (dispatch_ask_is_trim input question Hd) as Hq.
      unfold try_catch, bind at 1.
      destruct (Chatbot.isInitialized this) eqn:Hinit.
      * destruct (askQuestion_step create question this w Hinit)
          as (result & this' & w' & Heq & _ & _ & Hcount & _).
        rewrite Heq. eexists. split; [reflexivity |]. split; [exact Hq |].
        exists result. auto.
      * rewrite (askQuestion_uninitialized create question this w Hinit).
        eexists. split; [reflexivity |]. auto.
  - intros Hnone Hd. unfold Interactive.onLine. rewrite Hd.
    unfold Chatbot.on_llmService. rewrite Hnone. reflexivity.
Qed.

End Sessions.

(* ================================================================== *)
(** * The data loader: the file, the catalog and what is drawn from it *)
(* ================================================================== *)

Section Catalogs.

Import Async.
Local Open Scope Z_scope.

(** Reading the digits of [d] after those of [d'] (least significant
    first) gives the number of both. *)
Lemma digitsPrefix_revapp (d : Decimal.uint) : forall d' : Decimal.uint,
  DataLoader.digitsPrefix 10 (NilEmpty.string_of_uint d)
                          (Some (Z.of_N (DecimalPos.Unsigned.of_lu d')))
  = Some (Z.of_N (DecimalPos.Unsigned.of_lu (Decimal.revapp d d'))).
Proof.
  induction d; intros d'; cbn [NilEmpty.string_of_uint Decimal.revapp];
    [reflexivity | ..];
    rewrite <- IHd; cbn [DataLoader.digitsPrefix];
    match goal with
    | |- context [DataLoader.digitValue 10 ?c] =>
        let v := eval vm_compute in (DataLoader.digitValue 10 c) in
        change (DataLoader.digitValue 10 c) with v
    end;
    cbv iota; cbn [DecimalPos.Unsigned.of_lu]; do 2 f_equal; lia.
Qed.

Lemma digitsPrefix_uint (d : Decimal.uint) :
  d <> Decimal.Nil ->
  DataLoader.digitsPrefix 10 (NilEmpty.string_of_uint d) None
  = Some (Z.of_uint d).
Proof.
  intros Hd. unfold Z.of_uint. rewrite DecimalPos.Unsigned.of_uint_alt. unfold Decimal.rev.
  destruct d; [congruence | ..];
    cbn [NilEmpty.string_of_uint Decimal.revapp DataLoader.digitsPrefix];
    rewrite <- digitsPrefix_revapp; reflexivity.
Qed.

Lemma parseIntString_uint (d : Decimal.uint) :
  d <> Decimal.Nil ->
  DataLoader.parseIntString (NilEmpty.string_of_uint d)
  = Some (DataLoader.toDouble (Z.of_uint d))
  /\ DataLoader.parseIntString (String "-" (NilEmpty.string_of_uint d))
     = Some (DataLoader.toDouble (- Z.of_uint d)).
Proof.
  intros Hd. pose proof (digitsPrefix_uint d Hd) as H.
  unfold DataLoader.parseIntString.
  change (JS.trimStart (String "-" (NilEmpty.string_of_uint d)))
    with (String "-" (NilEmpty.string_of_uint d)).
  destruct d as [|d|d|d|d|d|d|d|d|d|d]; [congruence | ..];
    cbn [NilEmpty.string_of_uint JS.trimStart] in *;
    match goal with
    | |- context [JS.is_white_space ?c] =>
        change (JS.is_white_space c) with false
    end; cbv beta iota zeta.
  all: try (rewrite H; split; do 2 f_equal; lia).
  destruct d; cbn [NilEmpty.string_of_uint] in *; cbv beta iota zeta;
    rewrite H; split; do 2 f_equal; lia.
Qed.

Lemma parseIntString_show_Z (n : Z) :
  DataLoader.parseIntString (JS.show_Z n) = Some (DataLoader.toDouble n).
Proof.
  unfold JS.show_Z.
  rewrite <- (DecimalZ.of_to n) at 2.
  destruct n as [|p|p]; [reflexivity | |].
  - cbn [Z.to_int NilZero.string_of_int Z.of_int].
    assert (Hp : Pos.to_uint p <> Decimal.Nil).
    { intros E. pose proof (DecimalPos.Unsigned.of_to p) as H. rewrite E in H. discriminate. }
    unfold NilZero.string_of_uint.
    destruct (parseIntString_uint _ Hp) as [H _].
    destruct (Pos.to_uint p); [congruence | ..]; exact H.
  - cbn [Z.to_int NilZero.string_of_int Z.of_int].
    assert (Hp : Pos.to_uint p <> Decimal.Nil).
    { intros E. pose proof (DecimalPos.Unsigned.of_to p) as H. rewrite E in H. discriminate. }
    unfold NilZero.string_of_uint.
    destruct (parseIntString_uint _ Hp) as [_ H].
    destruct (Pos.to_uint p); [congruence | ..]; exact H.
Qed.

Lemma show_Z_nonempty (n : Z) : exists c s, JS.show_Z n = String c s.
Proof.
  pose proof (parseIntString_show_Z n) as H.
  destruct (JS.show_Z n) as [| c s]; [discriminate | eauto].
Qed.

(** An integer below 2^53 in absolute value is a double. *)
Lemma toDouble_safe (n : Z) : Z.abs n < 2 ^ 53 -> DataLoader.toDouble n = n.
Proof.
  intros H. unfold DataLoader.toDouble. apply Z.ltb_lt in H. now rewrite H.
Qed.

Lemma parseIntOr0_show_Z (n : Z) :
  Z.abs n < 2 ^ 53 ->
  DataLoader.truthyCount (DataLoader.CStr (JS.show_Z n)) = true
  /\ DataLoader.parseIntOr0 (DataLoader.CStr (JS.show_Z n)) = n.
Proof.
  intros Hn. split.
  - destruct (show_Z_nonempty n) as (c & s & ->). reflexivity.
  - unfold DataLoader.parseIntOr0, DataLoader.parseInt.
    now rewrite parseIntString_show_Z, toDouble_safe.
Qed.

Lemma parseIntOr0_number (n : Z) :
  Z.abs n < 2 ^ 53 -> DataLoader.parseIntOr0 (DataLoader.CNum n) = n.
Proof.
  intros Hn. unfold DataLoader.parseIntOr0, DataLoader.parseInt.
  rewrite toDouble_safe by exact Hn. cbv zeta.
  replace (Z.abs n <? 10 ^ 21) with true; [reflexivity |].
  symmetry. apply Z.ltb_lt. assert (2 ^ 53 < 10 ^ 21) by (vm_compute; reflexivity). lia.
Qed.

(** X20.  For counts that doubles hold exactly (below 2^53 in absolute
    value), [normalizeFacilities] reads a count written as a string of
    decimal digits as the number it writes, so a file that quotes its
    counts gives the same bedrooms and bathrooms as one that does not.  For
    the parking count the two differ at 0: the quoted "0" under [parkings]
    is truthy and is used, while the number 0 is falsy and makes the code
    fall back to [parking]. *)
Theorem normalizeFacilities_reads_quoted_counts
        (bedrooms bathrooms parkings : Z) (parking : DataLoader.count) :
  Z.abs bedrooms < 2 ^ 53 -> Z.abs bathrooms < 2 ^ 53 -> Z.abs parkings < 2 ^ 53 ->
  let quoted :=
    Value (DataLoader.RawFacilities.mk
             (DataLoader.CStr (JS.show_Z bedrooms)) (DataLoader.CStr (JS.show_Z bathrooms))
             (DataLoader.CStr (JS.show_Z parkings)) parking) in
  let plain :=
    Value (DataLoader.RawFacilities.mk
             (DataLoader.CNum bedrooms) (DataLoader.CNum bathrooms)
             (DataLoader.CNum parkings) parking) in
  DataLoader.normalizeFacilities quoted
  = DataLoader.Facilities.mk bedrooms bathrooms parkings
  /\ DataLoader.normalizeFacilities plain
     = DataLoader.Facilities.mk bedrooms bathrooms
         (if parkings =? 0 then DataLoader.parseIntOr0 parking else parkings).
Proof.
  intros Hb Ht Hk quoted plain. unfold quoted, plain, DataLoader.normalizeFacilities.
  cbn [DataLoader.RawFacilities.bedrooms DataLoader.RawFacilities.bathrooms
       DataLoader.RawFacilities.parkings DataLoader.RawFacilities.parking].
  destruct (parseIntOr0_show_Z bedrooms Hb) as [_ ->].
  destruct (parseIntOr0_show_Z bathrooms Ht) as [_ ->].
  destruct (parseIntOr0_show_Z parkings Hk) as [-> ->].
  rewrite !parseIntOr0_number by assumption.
  split; [reflexivity |].
  cbn [DataLoader.truthyCount].
  destruct (parkings =? 0); cbn [negb]; [reflexivity |].
  now rewrite parseIntOr0_number.
Qed.

Lemma normalizeFacilities_reads_quoted_counts_witness :
  DataLoader.normalizeFacilities
    (Value (DataLoader.RawFacilities.mk
              (DataLoader.CStr "3") (DataLoader.CStr "2")
              (DataLoader.CStr "0") (DataLoader.CNum 4)))
  = DataLoader.Facilities.mk 3 2 0
  /\ DataLoader.normalizeFacilities
       (Value (DataLoader.RawFacilities.mk
                 (DataLoader.CNum 3) (DataLoader.CNum 2)
                 (DataLoader.CNum 0) (DataLoader.CNum 4)))
     = DataLoader.Facilities.mk 3 2 4.
Proof.
  apply (normalizeFacilities_reads_quoted_counts 3 2 0 (DataLoader.CNum 4));
    reflexivity.
Defined.

(* ------------------------------------------------------------------ *)
(** ** Formatting the file                                             *)
(* ------------------------------------------------------------------ *)

Lemma mapi_length {A B : Type} (f : A -> nat -> B) (l : list A) :
  forall start, List.length (DataLoader.mapi f start l) = List.length l.
Proof. induction l as [| x l IH]; intros start; cbn; [reflexivity | now rewrite IH]. Qed.

Lemma mapi_nth_error {A B : Type} (f : A -> nat -> B) (l : list A) :
  forall start i x,
    nth_error l i = Some x ->
    nth_error (DataLoader.mapi f start l) i = Some (f x (start + i)%nat).
Proof.
  induction l as [| y l IH]; intros start [| i] x H; cbn in *; try discriminate.
  - injection H as ->. now rewrite Nat.add_0_r.
  - rewrite (IH (S start) i x H). f_equal. f_equal. lia.
Qed.

Lemma mapi_index (l : list DataLoader.Raw.t) :
  forall start,
    map DataLoader.Formatted.index (DataLoader.mapi DataLoader.formatProperty start l)
    = map Z.of_nat (seq (S start) (List.length l)).
Proof.
  induction l as [| y l IH]; intros start; [reflexivity |].
  cbn [DataLoader.mapi map List.length seq]. rewrite IH.
  f_equal. cbn [DataLoader.formatProperty DataLoader.Formatted.index]. lia.
Qed.

Lemma stringOr_nonempty (f : field string) (d : string) :
  d <> EmptyString -> DataLoader.stringOr f d <> EmptyString.
Proof. intros Hd. destruct f as [| | [| c s]]; cbn; congruence. Qed.

Lemma substring_length_le (s : string) :
  forall n m, (String.length (String.substring n m s) <= m)%nat.
Proof.
  induction s as [| c s IH]; intros [| n] [| m]; cbn; try lia.
  - specialize (IH 0%nat m). lia.
  - apply (IH n 0%nat).
  - apply (IH n (S m)).
Qed.


(** X21.  [getProperties()] hands over the whole file: whatever
    [maxProperties] the loader was built with, an array of [n] properties
    gives [n] formatted properties, in the order of the file and numbered
    1 to [n]; each has a description of at most 300 characters and a title
    and an address that are not empty.  A file that cannot be read or
    parsed, or has no [properties] array, makes it throw. *)
Theorem getProperties_formats_whole_file
        (maxProperties : Z) (allProperties : list DataLoader.Raw.t) :
  exists properties,
    DataLoader.getProperties maxProperties (Val (Some allProperties)) = Val properties
    /\ List.length properties = List.length allProperties
    /\ map DataLoader.Formatted.index properties
       = map Z.of_nat (seq 1 (List.length allProperties))
    /\ (forall i property,
          nth_error allProperties i = Some property ->
          nth_error properties i = Some (DataLoader.formatProperty property i))
    /\ Forall (fun p =>
                 JS.length (DataLoader.Formatted.description p) <= 300
                 /\ DataLoader.Formatted.title p <> EmptyString
                 /\ DataLoader.Formatted.address p <> EmptyString)
              properties
    /\ (forall e, DataLoader.getProperties maxProperties (Exn e) = Exn e)
    /\ DataLoader.getProperties maxProperties (Val None)
       = Exn (JS.Error "Invalid JSON structure: properties array not found").
Proof.
  exists (DataLoader.formatPropertiesForAI allProperties).
  unfold DataLoader.formatPropertiesForAI.
  split; [reflexivity |].
  split; [apply mapi_length |].
  split; [apply mapi_index |].
  split; [intros i property H; apply (mapi_nth_error _ _ 0%nat i property H) |].
  split; [| split; [reflexivity | reflexivity]].
  generalize 0%nat.
  induction allProperties as [| p l IH]; intros start; cbn [DataLoader.mapi];
    [constructor | constructor; [| apply IH]].
  cbn [DataLoader.formatProperty DataLoader.Formatted.description
       DataLoader.Formatted.title DataLoader.Formatted.address].
  split.
  { unfold JS.length, JS.substring0.
    pose proof (substring_length_le (DataLoader.stringOr (DataLoader.Raw.description p) "")
                                    0 300).
    lia. }
  split; apply stringOr_nonempty; discriminate.
Qed.


Local Open Scope string_scope.

(** [initialize()] on a fresh chatbot, when nothing fails. *)
Lemma initialize_ready (config : Config.t) (env : Chatbot.startup)
      (p : Property.t) (ps : list Property.t) (w : World.t) :
  JS.truthy (Config.openaiApiKey config) = true ->
  Chatbot.isConnected env = true ->
  Chatbot.loaded env = Val (p :: ps) ->
  Chatbot.initialize env (Chatbot.constructor config) w
  = (Val true,
     Chatbot.mk (Some (LLMService.setProperties
                         (LLMService.constructor
                            (Config.openaiModel config) (Config.temperature config)
                            (Config.maxTokens config) (Config.responseTimeout config)
                            (Config.cacheSystemPrompt config))
                         (p :: ps)))
                true 0 CostTracker.constructor (ThinkingAnimation.mk false) config,
     w).
Proof.
  destruct env as [connected loaded].
  destruct config as [key mdl temp maxTok timeout tracking cache animations metrics].
  cbn [Config.openaiApiKey Chatbot.isConnected Chatbot.loaded].
  intros Hkey -> ->.
  unfold Chatbot.initialize, Chatbot.when, Chatbot.on_llmService, Chatbot.constructor,
    Chatbot.set_llmService, Chatbot.set_isInitialized,
    try_catch, bind, get, throw, ret, modify.
  cbn [Chatbot.config Config.openaiApiKey Chatbot.isConnected Chatbot.loaded
       Chatbot.llmService Chatbot.isInitialized Chatbot.questionCount Chatbot.costTracker
       Chatbot.thinkingAnimation Config.openaiModel Config.temperature Config.maxTokens
       Config.responseTimeout Config.cacheSystemPrompt].
  rewrite Hkey. reflexivity.
Qed.

(** X22.  From the file to the model: a chatbot initialized against a file
    with at least one property resolves to [true], and the first question
    it is asked sends one request whose system message tells the number of
    properties of the file and, for every property of the file, its
    position in the file (from 1), its title (or "Untitled Property") and
    its price line, which reads "$undefined/night" or "$null/night" for a
    property whose price is missing or [null]. *)
Theorem first_question_carries_the_file
        (config : Config.t) (maxProperties : Z) (allProperties : list DataLoader.Raw.t)
        (create : client) (q : string) (w w1 : World.t) :
  JS.truthy (Config.openaiApiKey config) = true ->
  allProperties <> [] ->
  exists this',
    Chatbot.initialize
      (DataLoader.startup true maxProperties (Val (Some allProperties)))
      (Chatbot.constructor config) w
    = (Val true, this', w)
    /\ exists result this'' w2 request prompt,
        Chatbot.askQuestion create q this' w1 = (Val result, this'', w2)
        /\ requests (World.trace w2) = (requests (World.trace w1) ++ [request])%list
        /\ system_prompt_of request = Some prompt
        /\ contains ("You have access to " ++ JS.show_nat (List.length allProperties)
                       ++ " rental properties") prompt
        /\ forall i property,
            nth_error allProperties i = Some property ->
            contains ("Property " ++ JS.show_Z (Z.of_nat i + 1) ++ ": "
                        ++ DataLoader.stringOr (DataLoader.Raw.title property)
                                               "Untitled Property") prompt
            /\ contains ("- Price: $" ++ DataLoader.showNumber (DataLoader.Raw.price property)
                           ++ "/night") prompt.
Proof.
  intros Hkey Hne.
  set (formatted := DataLoader.formatPropertiesForAI allProperties).
  assert (Hloaded : exists p ps,
             map DataLoader.Formatted.forPrompt formatted = p :: ps).
  { unfold formatted, DataLoader.formatPropertiesForAI.
    destruct allProperties as [| r rs]; [congruence |].
    cbn [DataLoader.mapi map]. eauto. }
  destruct Hloaded as (p & ps & Hloaded).
  eexists. split.
  { apply (initialize_ready config _ p ps w Hkey); [reflexivity |].
    cbn [DataLoader.startup Chatbot.loaded DataLoader.getProperties
         DataLoader.loadPropertiesFromFile].
    fold formatted. now rewrite Hloaded. }
  set (svc := LLMService.setProperties _ _).
  assert (Hprops : LLMService.properties svc
                   = map DataLoader.Formatted.forPrompt formatted).
  { unfold svc. now rewrite <- Hloaded. }
  assert (Hcached : LLMService.cachedSystemPrompt svc = None) by reflexivity.
  assert (Hsome : LLMService.properties svc <> []).
  { rewrite Hprops, Hloaded. discriminate. }
  destruct (answerQuestion_sends create q svc w1 Hsome)
    as (prompt & generated & cached' & Heq & _ & Hgen & _).
  cbv zeta in Heq.
  destruct Hgen as [(_ & Hc & _) | (Hg & Hprompt & _)]; [congruence |].
  match type of Heq with
  | _ = (Val ?response, ?svc', ?w') =>
      pose proof (askQuestion_initialized
                    create q
                    (Chatbot.mk (Some svc) true 0 CostTracker.constructor
                                (ThinkingAnimation.mk false) config)
                    w1 eq_refl svc svc' response w' eq_refl Heq) as Hask
  end.
  cbv zeta in Hask.
  do 5 eexists. split; [exact Hask |].
  split.
  { cbn [World.trace]. rewrite !requests_app, Hg. cbn [requests].
    now rewrite app_nil_r. }
  split; [reflexivity |].
  rewrite Hprompt.
  split.
  { pose proof (prompt_contains_count svc) as H.
    rewrite Hprops, length_map in H.
    unfold formatted, DataLoader.formatPropertiesForAI in H.
    now rewrite mapi_length in H. }
  intros i property Hi.
  pose proof (mapi_nth_error DataLoader.formatProperty allProperties 0%nat i property Hi)
    as Hformatted.
  apply nth_error_In in Hformatted.
  apply (in_map DataLoader.Formatted.forPrompt) in Hformatted.
  fold (DataLoader.formatPropertiesForAI allProperties) in Hformatted.
  fold formatted in Hformatted. rewrite <- Hprops in Hformatted.
  exact (prompt_contains_lines svc _ Hformatted).
Qed.


Lemma first_question_carries_the_file_witness :
  exists this' result this'' w2 request prompt,
    Chatbot.initialize
      (DataLoader.startup true 18 (Val (Some Sample.allProperties)))
      (Chatbot.constructor (Config.default "sk-test")) Scenario.w0
    = (Val true, this', Scenario.w0)
    /\ Chatbot.askQuestion Scenario.slow "anything in Porto?" this' Scenario.w0
       = (Val result, this'', w2)
    /\ system_prompt_of request = Some prompt
    /\ requests (World.trace w2) = [request]
    /\ contains "You have access to 3 rental properties" prompt
    /\ contains "Property 2: Untitled Property" prompt
    /\ contains "- Price: $undefined/night" prompt.
Proof.
  destruct (first_question_carries_the_file
              (Config.default "sk-test") 18 Sample.allProperties
              Scenario.slow "anything in Porto?" Scenario.w0 Scenario.w0)
    as (this' & Hinit & result & this'' & w2 & request & prompt
        & Hask & Hreq & Hsys & Hcount & Hall);
    [reflexivity | discriminate |].
  destruct (Hall 1%nat _ eq_refl) as [Htitle Hprice].
  exists this', result, this'', w2, request, prompt.
  repeat split; assumption.
Defined.


(* ------------------------------------------------------------------ *)
(** ** Figures drawn from the catalog                                  *)
(* ------------------------------------------------------------------ *)

Local Open Scope Z_scope.

Lemma fold_min_spec (l : list Z) : forall x,
  In (fold_left Z.min l x) (x :: l)
  /\ forall y, In y (x :: l) -> fold_left Z.min l x <= y.
Proof.
  induction l as [| a l IH]; intros x; cbn [fold_left].
  - split; [now left |]. intros y [<- | []]. lia.
  - destruct (IH (Z.min x a)) as [Hin Hle]. split.
    + destruct Hin as [Hin | Hin]; [| now right; right].
      rewrite <- Hin. destruct (Z.min_spec x a) as [[_ ->] | [_ ->]];
        [now left | now right; left].
    + intros y [<- | [<- | Hy]].
      * specialize (Hle (Z.min x a) (or_introl eq_refl)). lia.
      * specialize (Hle (Z.min x a) (or_introl eq_refl)). lia.
      * apply Hle. now right.
Qed.

Lemma fold_max_spec (l : list Z) : forall x,
  In (fold_left Z.max l x) (x :: l)
  /\ forall y, In y (x :: l) -> y <= fold_left Z.max l x.
Proof.
  induction l as [| a l IH]; intros x; cbn [fold_left].
  - split; [now left |]. intros y [<- | []]. lia.
  - destruct (IH (Z.max x a)) as [Hin Hle]. split.
    + destruct Hin as [Hin | Hin]; [| now right; right].
      rewrite <- Hin. destruct (Z.max_spec x a) as [[_ ->] | [_ ->]];
        [now right; left | now left].
    + intros y [<- | [<- | Hy]].
      * specialize (Hle (Z.max x a) (or_introl eq_refl)). lia.
      * specialize (Hle (Z.max x a) (or_introl eq_refl)). lia.
      * apply Hle. now right.
Qed.

(** The least and the greatest of the positive prices of a catalog that
    has one. *)
Lemma price_range (properties : list DataLoader.Formatted.t) (p : DataLoader.Formatted.t) :
  In p properties -> 0 < DataLoader.Formatted.price p ->
  let prices := Catalog.positive (map DataLoader.Formatted.price properties) in
  exists cheapest dearest,
    Catalog.minOf prices = Int (DataLoader.Formatted.price cheapest)
    /\ Catalog.maxOf prices = Int (DataLoader.Formatted.price dearest)
    /\ In cheapest properties /\ In dearest properties
    /\ 0 < DataLoader.Formatted.price cheapest
    /\ (forall q, In q properties -> 0 < DataLoader.Formatted.price q ->
                  DataLoader.Formatted.price cheapest <= DataLoader.Formatted.price q
                  <= DataLoader.Formatted.price dearest)
    /\ (forall x, In x prices ->
                  DataLoader.Formatted.price cheapest <= x
                  <= DataLoader.Formatted.price dearest).
Proof.
  intros Hin Hpos prices.
  assert (Hmem : forall x, In x prices <->
                           exists q, In q properties /\ DataLoader.Formatted.price q = x
                                     /\ 0 < x).
  { intros x. unfold prices, Catalog.positive. rewrite filter_In, in_map_iff, Z.ltb_lt.
    split.
    - intros [(q & <- & Hq) Hx]. eauto.
    - intros (q & Hq & <- & Hx). eauto. }
  assert (Hp : In (DataLoader.Formatted.price p) prices) by (apply Hmem; eauto).
  destruct prices as [| x rest] eqn:Hprices; [contradiction |].
  cbn [Catalog.minOf Catalog.maxOf].
  destruct (fold_min_spec rest x) as [Hmin_in Hmin_le].
  destruct (fold_max_spec rest x) as [Hmax_in Hmax_le].
  destruct (proj1 (Hmem _) Hmin_in) as (cheapest & Hc_in & Hc_eq & Hc_pos).
  destruct (proj1 (Hmem _) Hmax_in) as (dearest & Hd_in & Hd_eq & Hd_pos).
  exists cheapest, dearest. rewrite Hc_eq, Hd_eq.
  repeat split; auto; try lia.
  - apply Hmin_le, Hmem. eauto.
  - apply Hmax_le, Hmem. eauto.
Qed.

(** X23.  A catalog that is not empty always gives ten suggested
    questions.  When some property has a positive price, the second one
    asks for properties under a whole number of dollars that is the
    midpoint, rounded up at one half, of the cheapest and the dearest
    positive price, so it lies between the two. *)
Theorem suggested_budget_between_prices
        (properties : list DataLoader.Formatted.t) (p : DataLoader.Formatted.t) :
  In p properties -> 0 < DataLoader.Formatted.price p ->
  exists budget cheapest dearest,
    List.length (Catalog.getSuggestedQuestions properties) = 10%nat
    /\ nth_error (Catalog.getSuggestedQuestions properties) 1
       = Some ("Show me properties under $" ++ JS.show_Z budget ++ "/night")%string
    /\ In cheapest properties /\ In dearest properties
    /\ 0 < DataLoader.Formatted.price cheapest
    /\ (forall q, In q properties -> 0 < DataLoader.Formatted.price q ->
                  DataLoader.Formatted.price cheapest <= DataLoader.Formatted.price q
                  <= DataLoader.Formatted.price dearest)
    /\ DataLoader.Formatted.price cheapest <= budget <= DataLoader.Formatted.price dearest
    /\ 2 * budget - 1
       <= DataLoader.Formatted.price cheapest + DataLoader.Formatted.price dearest
       <= 2 * budget.
Proof.
  intros Hin Hpos.
  destruct (price_range properties p Hin Hpos)
    as (cheapest & dearest & Hmin & Hmax & Hc & Hd & Hcpos & Hall & _).
  exists ((DataLoader.Formatted.price cheapest + DataLoader.Formatted.price dearest + 1) / 2),
         cheapest, dearest.
  destruct properties as [| p0 rest]; [contradiction |].
  unfold Catalog.getSuggestedQuestions. rewrite Hmin, Hmax.
  cbn [Catalog.roundedMiddle Catalog.show List.length nth_error].
  pose proof (Hall cheapest Hc Hcpos) as [_ Hcd].
  set (lo := DataLoader.Formatted.price cheapest) in *.
  set (hi := DataLoader.Formatted.price dearest) in *.
  pose proof (Z.mul_succ_div_gt (lo + hi + 1) 2 ltac:(lia)).
  pose proof (Z.mul_div_le (lo + hi + 1) 2 ltac:(lia)).
  split; [reflexivity |]. split; [reflexivity |].
  split; [exact Hc |]. split; [exact Hd |]. split; [exact Hcpos |].
  split; [exact Hall |].
  split; lia.
Qed.


Lemma suggested_budget_between_prices_witness :
  exists budget cheapest dearest,
    List.length (Catalog.getSuggestedQuestions Sample.properties) = 10%nat
    /\ nth_error (Catalog.getSuggestedQuestions Sample.properties) 1
       = Some ("Show me properties under $" ++ JS.show_Z budget ++ "/night")%string
    /\ In cheapest Sample.properties /\ In dearest Sample.properties
    /\ 0 < DataLoader.Formatted.price cheapest
    /\ (forall q, In q Sample.properties -> 0 < DataLoader.Formatted.price q ->
                  DataLoader.Formatted.price cheapest <= DataLoader.Formatted.price q
                  <= DataLoader.Formatted.price dearest)
    /\ DataLoader.Formatted.price cheapest <= budget <= DataLoader.Formatted.price dearest
    /\ 2 * budget - 1
       <= DataLoader.Formatted.price cheapest + DataLoader.Formatted.price dearest
       <= 2 * budget.
Proof.
  apply (suggested_budget_between_prices
           Sample.properties
           (DataLoader.formatProperty (hd (DataLoader.Raw.mk Undefined Undefined Undefined
                                             Undefined Undefined Undefined Undefined
                                             Undefined Undefined)
                                          Sample.allProperties) 0));
    [left; reflexivity | reflexivity].
Defined.

Lemma fold_add_acc (l : list Z) : forall acc,
  fold_left Z.add l acc = acc + fold_left Z.add l 0.
Proof.
  induction l as [| x l IH]; intros acc; cbn [fold_left]; [lia |].
  rewrite (IH (acc + x)), (IH (0 + x)). lia.
Qed.

Lemma fold_add_bounds (lo hi : Z) (l : list Z) :
  (forall x, In x l -> lo <= x <= hi) ->
  Z.of_nat (List.length l) * lo <= fold_left Z.add l 0
  <= Z.of_nat (List.length l) * hi.
Proof.
  induction l as [| x l IH]; intros Hall; [cbn; lia |].
  cbn [fold_left List.length]. rewrite fold_add_acc.
  pose proof (Hall x (or_introl eq_refl)).
  pose proof (IH (fun y Hy => Hall y (or_intror Hy))).
  lia.
Qed.

Lemma unique_length {A : Type} (eqb : A -> A -> bool) (l : list A) : forall seen,
  (List.length (Catalog.unique eqb seen l) <= List.length l)%nat.
Proof.
  induction l as [| x l IH]; intros seen; cbn [Catalog.unique List.length]; [lia |].
  destruct (existsb (eqb x) seen); cbn [List.length].
  - specialize (IH seen). lia.
  - specialize (IH (x :: seen)). lia.
Qed.

(** X24.  The statistics of a catalog in which some property has a positive
    price: the price range runs from the cheapest to the dearest positive
    price, both of them prices of properties of the catalog, and the
    average is the mean of the positive prices rounded to the nearest whole
    number, so it lies in the range.  Properties priced 0 (a missing price
    becomes 0) count in the total but not in the average.  The number of
    countries is that of the list of countries, at least one and at most
    the number of properties. *)
Theorem getStats_price_range
        (properties : list DataLoader.Formatted.t) (p : DataLoader.Formatted.t) :
  In p properties -> 0 < DataLoader.Formatted.price p ->
  let priced := Catalog.positive (map DataLoader.Formatted.price properties) in
  let n := Z.of_nat (List.length priced) in
  let sum := fold_left Z.add priced 0 in
  exists stats cheapest dearest avg,
    Catalog.getStats properties = Some stats
    /\ Catalog.totalProperties stats = Z.of_nat (List.length properties)
    /\ Catalog.priceMin stats = Int (DataLoader.Formatted.price cheapest)
    /\ Catalog.priceMax stats = Int (DataLoader.Formatted.price dearest)
    /\ Catalog.priceAvg stats = Int avg
    /\ In cheapest properties /\ In dearest properties
    /\ (forall q, In q properties -> 0 < DataLoader.Formatted.price q ->
                  DataLoader.Formatted.price cheapest <= DataLoader.Formatted.price q
                  <= DataLoader.Formatted.price dearest)
    /\ 0 < DataLoader.Formatted.price cheapest <= avg
    /\ avg <= DataLoader.Formatted.price dearest
    /\ 0 < n <= Catalog.totalProperties stats
    /\ 2 * sum - n < 2 * n * avg <= 2 * sum + n
    /\ Catalog.countries stats = Z.of_nat (List.length (Catalog.countryList stats))
    /\ 1 <= Catalog.countries stats <= Catalog.totalProperties stats.
Proof.
  intros Hin Hpos priced n sum.
  destruct (price_range properties p Hin Hpos)
    as (cheapest & dearest & Hmin & Hmax & Hc & Hd & Hcpos & Hall & Hprices).
  fold priced in Hmin, Hmax, Hprices.
  assert (Hn : 0 < n).
  { unfold n. destruct priced; [discriminate | cbn [List.length]; lia]. }
  assert (Hlen : n <= Z.of_nat (List.length properties)).
  { unfold n, priced, Catalog.positive.
    pose proof (filter_length_le (fun p => 0 <? p)
                                 (map DataLoader.Formatted.price properties)) as H.
    rewrite length_map in H. lia. }
  pose proof (fold_add_bounds _ _ priced Hprices) as Hsum. fold n sum in Hsum.
  set (lo := DataLoader.Formatted.price cheapest) in *.
  set (hi := DataLoader.Formatted.price dearest) in *.
  assert (Havg : Catalog.roundedMean priced = Int ((2 * sum + n) / (2 * n))).
  { unfold Catalog.roundedMean. destruct priced; [discriminate | reflexivity]. }
  pose proof (Z.mul_succ_div_gt (2 * sum + n) (2 * n) ltac:(lia)) as Hgt.
  pose proof (Z.mul_div_le (2 * sum + n) (2 * n) ltac:(lia)) as Hle.
  assert (Hlo : lo <= (2 * sum + n) / (2 * n))
    by (apply Z.div_le_lower_bound; nia).
  assert (Hhi : (2 * sum + n) / (2 * n) <= hi).
  { apply Z.lt_succ_r, Z.div_lt_upper_bound; nia. }
  destruct properties as [| p0 rest]; [contradiction |].
  eexists _, cheapest, dearest, ((2 * sum + n) / (2 * n)).
  unfold Catalog.getStats. fold priced. rewrite Hmin, Hmax, Havg.
  cbn [Catalog.totalProperties Catalog.priceMin Catalog.priceMax Catalog.priceAvg].
  split; [reflexivity |]. split; [reflexivity |].
  split; [reflexivity |]. split; [reflexivity |]. split; [reflexivity |].
  split; [exact Hc |]. split; [exact Hd |]. split; [exact Hall |].
  split; [lia |]. split; [lia |].
  split; [cbn [Catalog.totalProperties]; lia |].
  split; [nia |].
  cbn [Catalog.totalProperties Catalog.countries Catalog.countryList].
  split; [reflexivity |].
  cbn [map Catalog.unique existsb List.length].
  match goal with
  | |- context [Catalog.unique Catalog.optionEqb ?seen ?l] =>
      pose proof (unique_length Catalog.optionEqb l seen) as Hu;
      rewrite length_map in Hu
  end.
  lia.
Qed.

Lemma getStats_price_range_witness :
  exists stats,
    Catalog.getStats Sample.properties = Some stats
    /\ Catalog.totalProperties stats = 3
    /\ Catalog.priceMin stats = Int 18
    /\ Catalog.priceMax stats = Int 95
    /\ Catalog.priceAvg stats = Int 57.
Proof.
  destruct (getStats_price_range
              Sample.properties
              (DataLoader.formatProperty (hd (DataLoader.Raw.mk Undefined Undefined Undefined
                                                Undefined Undefined Undefined Undefined
                                                Undefined Undefined)
                                             Sample.allProperties) 0))
    as (stats & cheapest & dearest & avg & Hstats & _);
    [left; reflexivity | reflexivity |].
  exists stats. split; [exact Hstats |].
  injection Hstats as <-. repeat split.
Defined.

Lemma positive_none (l : list Z) :
  (forall x, In x l -> x <= 0) -> Catalog.positive l = [].
Proof.
  induction l as [| x l IH]; intros H; [reflexivity |].
  cbn [Catalog.positive filter].
  pose proof (H x (or_introl eq_refl)) as Hx.
  apply Z.ltb_ge in Hx. rewrite Hx.
  apply IH. intros y Hy. apply H. now right.
Qed.

Lemma mapi_price (l : list DataLoader.Raw.t) : forall start,
  map DataLoader.Formatted.price (DataLoader.mapi DataLoader.formatProperty start l)
  = map (fun property => DataLoader.numberOr0 (DataLoader.Raw.price property)) l.
Proof.
  induction l as [| x l IH]; intros start; [reflexivity |].
  cbn [DataLoader.mapi map]. now rewrite IH.
Qed.

(** X25.  A file in which no property has a positive price (each price is
    missing, [null], 0 or negative): the loader still formats it, the
    second suggested question reads "Show me properties under $NaN/night",
    and the statistics show the price range from [Infinity] to
    [-Infinity] with the average [NaN]. *)
Theorem unpriced_file_gives_NaN (allProperties : list DataLoader.Raw.t) :
  allProperties <> [] ->
  (forall property, In property allProperties ->
                    DataLoader.numberOr0 (DataLoader.Raw.price property) <= 0) ->
  let properties := DataLoader.formatPropertiesForAI allProperties in
  nth_error (Catalog.getSuggestedQuestions properties) 1
  = Some "Show me properties under $NaN/night"%string
  /\ exists stats,
      Catalog.getStats properties = Some stats
      /\ Catalog.totalProperties stats = Z.of_nat (List.length allProperties)
      /\ Catalog.priceMin stats = PlusInfinity
      /\ Catalog.priceMax stats = MinusInfinity
      /\ Catalog.priceAvg stats = NotANumber.
Proof.
  intros Hne Hall properties.
  assert (Hnone : Catalog.positive (map DataLoader.Formatted.price properties) = []).
  { unfold properties, DataLoader.formatPropertiesForAI. rewrite mapi_price.
    apply positive_none. intros x (property & <- & Hin)%in_map_iff. now apply Hall. }
  assert (Hlen : List.length properties = List.length allProperties)
    by apply mapi_length.
  destruct properties as [| p0 rest] eqn:Hprops.
  { destruct allProperties; [congruence | discriminate]. }
  unfold Catalog.getSuggestedQuestions, Catalog.getStats. rewrite Hnone.
  split; [reflexivity |].
  eexists. split; [reflexivity |].
  cbn [Catalog.totalProperties Catalog.priceMin Catalog.priceMax Catalog.priceAvg].
  rewrite Hlen. repeat split.
Qed.

Lemma unpriced_file_gives_NaN_witness :
  let unpriced := [nth 1 Sample.allProperties
                       (DataLoader.Raw.mk Undefined Undefined Undefined Undefined
                                          Undefined Undefined Undefined Undefined
                                          Undefined)] in
  nth_error (Catalog.getSuggestedQuestions (DataLoader.formatPropertiesForAI unpriced)) 1
  = Some "Show me properties under $NaN/night"%string.
Proof.
  intros unpriced.
  destruct (unpriced_file_gives_NaN unpriced) as [H _].
  - discriminate.
  - intros property [<- | []]. cbn. lia.
  - exact H.
Defined.


Lemma beforeComma_app (a b : string) :
  Catalog.beforeComma (a ++ String "," b)%string = Catalog.beforeComma a.
Proof.
  induction a as [| c a IH]; cbn [String.append Catalog.beforeComma].
  - reflexivity.
  - destruct (Ascii.eqb c ","); [reflexivity | now rewrite IH].
Qed.

Lemma mapi_place (l : list DataLoader.Raw.t) : forall start,
  map (fun p => Catalog.beforeComma (DataLoader.Formatted.location p))
      (DataLoader.mapi DataLoader.formatProperty start l)
  = map (fun property =>
           Catalog.beforeComma (DataLoader.stringOr (DataLoader.Raw.city property) "Unknown"))
        l.
Proof.
  induction l as [| x l IH]; intros start; [reflexivity |].
  cbn [DataLoader.mapi map]. rewrite IH. f_equal.
  cbn [DataLoader.formatProperty DataLoader.Formatted.location].
  apply (beforeComma_app _ (" " ++ _)).
Qed.

(** The first element that [[...new Set(x :: l)]] holds after [x]. *)
Lemma unique_second (x : string) (l : list string) :
  match Catalog.unique String.eqb [x] l with
  | [] => find (fun y => negb (String.eqb y x)) l = None
  | y :: _ => find (fun y => negb (String.eqb y x)) l = Some y
  end.
Proof.
  induction l as [| y l IH]; [reflexivity |].
  cbn [Catalog.unique existsb find]. rewrite orb_false_r.
  destruct (String.eqb y x); cbn [negb]; [exact IH | reflexivity].
Qed.

(** X26.  The places named by the suggested questions of a file: the third
    question names the city of the first property of the file (up to its
    first comma, "Unknown" if it has none), and the eighth names the city
    of the first property whose city is another one, or again the first
    city when every property has the same city or that other city is the
    empty string. *)
Theorem suggested_places_follow_file_order
        (first : DataLoader.Raw.t) (others : list DataLoader.Raw.t) :
  let place := fun property =>
    Catalog.beforeComma (DataLoader.stringOr (DataLoader.Raw.city property) "Unknown") in
  let questions :=
    Catalog.getSuggestedQuestions (DataLoader.formatPropertiesForAI (first :: others)) in
  nth_error questions 2
  = Some ("What properties are available in " ++ place first ++ "?")%string
  /\ nth_error questions 7
     = Some ("Do you have anything in "
               ++ match find (fun property =>
                                negb (String.eqb (place property) (place first))) others with
                  | Some other =>
                      if String.eqb (place other) "" then place first else place other
                  | None => place first
                  end
               ++ "?")%string.
Proof.
  intros place questions. unfold questions, DataLoader.formatPropertiesForAI.
  cbn [DataLoader.mapi]. unfold Catalog.getSuggestedQuestions.
  cbn [map Catalog.unique existsb].
  rewrite mapi_place.
  assert (Hfirst : Catalog.beforeComma
                     (DataLoader.Formatted.location (DataLoader.formatProperty first 0))
                   = place first)
    by apply (beforeComma_app _ (" " ++ _)).
  rewrite Hfirst.
  cbn [nth_error]. split; [reflexivity |].
  pose proof (unique_second (place first) (map place others)) as H.
  fold place.
  assert (Hfind : forall l,
             find (fun y => negb (String.eqb y (place first))) (map place l)
             = option_map place
                 (find (fun property =>
                          negb (String.eqb (place property) (place first))) l)).
  { induction l as [| r l IH]; [reflexivity |].
    cbn [map find]. destruct (negb _); [reflexivity | exact IH]. }
  rewrite Hfind in H.
  destruct (Catalog.unique String.eqb [place first] (map place others)) as [| y rest];
    destruct (find _ others) as [other |]; cbn [option_map] in H; try discriminate.
  - reflexivity.
  - injection H as <-. destruct (place other); reflexivity.
Qed.

(* ------------------------------------------------------------------ *)
(** ** The diverse selection                                           *)
(* ------------------------------------------------------------------ *)

Lemma subsequence_nil_l {A : Type} (l : list A) : subsequence [] l.
Proof. induction l; constructor; assumption. Qed.

Lemma subsequence_In {A : Type} (l l' : list A) :
  subsequence l l' -> forall x, In x l -> In x l'.
Proof.
  induction 1 as [| y l l' _ IH | y l l' _ IH]; intros x Hx; [contradiction | |].
  - right. now apply IH.
  - destruct Hx as [-> | Hx]; [now left | right; now apply IH].
Qed.

Lemma subsequence_length {A : Type} (l l' : list A) :
  subsequence l l' -> (List.length l <= List.length l')%nat.
Proof. induction 1; cbn [List.length]; lia. Qed.

Lemma insert_perm (x : DataLoader.Raw.t) (l : list DataLoader.Raw.t) :
  Permutation (Selection.insert x l) (x :: l).
Proof.
  induction l as [| y l IH]; cbn [Selection.insert]; [reflexivity |].
  destruct (Selection.compare x y <=? 0); [reflexivity |].
  rewrite IH. apply perm_swap.
Qed.

Lemma sorted_perm (l : list DataLoader.Raw.t) : Permutation (Selection.sorted l) l.
Proof.
  induction l as [| x l IH]; [reflexivity |].
  unfold Selection.sorted in *. cbn [fold_right].
  rewrite insert_perm. now constructor.
Qed.

(** What the loop adds to [selected] is picked in order from the list it
    runs over, and it never goes beyond [maxProperties]. *)
Lemma loop_spec (maxProperties : Z) (properties : list DataLoader.Raw.t) :
  forall selected usedCountries priceRanges,
  exists picked,
    Selection.loop maxProperties properties selected usedCountries priceRanges
    = (selected ++ picked)%list
    /\ subsequence picked properties
    /\ (picked = [] \/ Z.of_nat (List.length (selected ++ picked)) <= maxProperties).
Proof.
  induction properties as [| p rest IH]; intros selected used ranges;
    cbn [Selection.loop].
  - exists []. rewrite app_nil_r. repeat split; [constructor | now left].
  - destruct (maxProperties <=? Z.of_nat (List.length selected)) eqn:Hfull.
    + exists []. rewrite app_nil_r.
      repeat split; [apply subsequence_nil_l | now left].
    + apply Z.leb_gt in Hfull.
      match goal with
      | |- context [if ?c then _ else _] => destruct c
      end.
      * match goal with
        | |- context [Selection.loop _ _ _ ?u ?r] =>
            destruct (IH (selected ++ [p])%list u r) as (picked & Heq & Hsub & Hlen)
        end.
        exists (p :: picked). rewrite Heq, <- app_assoc. cbn [app].
        split; [reflexivity |]. split; [now constructor |]. right.
        destruct Hlen as [-> | Hlen].
        -- rewrite length_app. cbn [List.length]. lia.
        -- rewrite <- app_assoc in Hlen. exact Hlen.
      * destruct (IH selected used ranges) as (picked & Heq & Hsub & Hlen).
        exists picked. split; [exact Heq |]. split; [now constructor | exact Hlen].
Qed.

(** While fewer than five are selected and there is room, the loop takes
    each property it meets. *)
Lemma loop_first (maxProperties : Z) (k : nat) :
  forall properties selected usedCountries priceRanges,
    (List.length selected + k <= 5)%nat ->
    Z.of_nat (List.length selected + k) <= maxProperties ->
    (k <= List.length properties)%nat ->
    exists tail,
      Selection.loop maxProperties properties selected usedCountries priceRanges
      = (selected ++ firstn k properties ++ tail)%list
      /\ subsequence tail (skipn k properties).
Proof.
  induction k as [| k IH]; intros properties selected used ranges H5 Hmax Hk.
  - destruct (loop_spec maxProperties properties selected used ranges)
      as (picked & Heq & Hsub & _).
    exists picked. cbn [firstn skipn app]. auto.
  - destruct properties as [| p rest]; [cbn in Hk; lia |].
    cbn [Selection.loop firstn skipn].
    replace (maxProperties <=? Z.of_nat (List.length selected)) with false
      by (symmetry; apply Z.leb_gt; lia).
    replace (Z.of_nat (List.length selected) <? 5) with true
      by (symmetry; apply Z.ltb_lt; lia).
    rewrite !orb_true_r.
    match goal with
    | |- context [Selection.loop _ _ _ ?u ?r] =>
        destruct (IH rest (selected ++ [p])%list u r) as (tail & Heq & Hsub)
    end.
    + rewrite length_app. cbn [List.length]. lia.
    + rewrite length_app. cbn [List.length]. lia.
    + cbn [List.length] in Hk. lia.
    + exists tail. rewrite Heq, <- app_assoc. cbn [app]. auto.
Qed.

(** X27.  The diverse selection, whatever order the sort leaves the
    properties in: it never selects more than [maxProperties]; what it
    selects are properties of the file, in the order of the sorted list and
    none more often than the list holds it; and the first five of the
    sorted list (or as many as there are, or as [maxProperties] allows)
    are always selected, whatever their country or price. *)
Theorem selection_bounded_and_keeps_first_five
        (maxProperties : Z) (allProperties sortedProperties : list DataLoader.Raw.t)
        (k : nat) :
  0 <= maxProperties ->
  Permutation sortedProperties allProperties ->
  (k <= 5)%nat -> Z.of_nat k <= maxProperties -> (k <= List.length allProperties)%nat ->
  let selected :=
    Selection.loop maxProperties sortedProperties [] [] (Selection.mkCounts 0 0 0) in
  Selection.selectDiverseProperties maxProperties allProperties
  = Selection.loop maxProperties (Selection.sorted allProperties) [] []
                   (Selection.mkCounts 0 0 0)
  /\ Permutation (Selection.sorted allProperties) allProperties
  /\ Z.of_nat (List.length selected) <= maxProperties
  /\ subsequence selected sortedProperties
  /\ (forall property, In property selected -> In property allProperties)
  /\ firstn k selected = firstn k sortedProperties
  /\ (k <= List.length selected)%nat.
Proof.
  intros Hmax Hperm H5 Hk Hlen selected.
  split; [reflexivity |]. split; [apply sorted_perm |].
  destruct (loop_spec maxProperties sortedProperties [] [] (Selection.mkCounts 0 0 0))
    as (picked & Heq & Hsub & Hbound).
  cbn [app] in Heq, Hbound. fold selected in Heq. rewrite Heq.
  split; [destruct Hbound as [-> | Hbound]; [cbn [List.length]; lia | exact Hbound] |].
  split; [exact Hsub |].
  split.
  { intros property Hin. eapply Permutation_in; [exact Hperm |].
    eapply subsequence_In; eassumption. }
  rewrite <- Heq. unfold selected.
  destruct (loop_first maxProperties k sortedProperties [] [] (Selection.mkCounts 0 0 0))
    as (tail & Hfirst & _).
  - cbn [List.length]. lia.
  - cbn [List.length]. lia.
  - rewrite (Permutation_length Hperm). exact Hlen.
  - rewrite Hfirst. cbn [app].
    assert (Hk' : List.length (firstn k sortedProperties) = k).
    { rewrite length_firstn, (Permutation_length Hperm). lia. }
    split.
    + rewrite firstn_app, Hk', Nat.sub_diag. cbn [firstn].
      rewrite app_nil_r. rewrite <- Hk' at 1. apply firstn_all.
    + rewrite length_app, Hk'. lia.
Qed.


Lemma selection_bounded_and_keeps_first_five_witness :
  firstn 2 (Selection.selectDiverseProperties 2 Sample.allProperties)
  = firstn 2 (Selection.sorted Sample.allProperties)
  /\ Z.of_nat (List.length (Selection.selectDiverseProperties 2 Sample.allProperties)) <= 2.
Proof.
  destruct (selection_bounded_and_keeps_first_five
              2 Sample.allProperties (Selection.sorted Sample.allProperties) 2)
    as (Hdef & _ & Hlen & _ & _ & Hfirst & _).
  - lia.
  - apply sorted_perm.
  - lia.
  - lia.
  - cbn. lia.
  - rewrite Hdef. split; assumption.
Defined.

(** The comparator on two properties whose prices are not missing. *)
Lemma compare_le (a b : DataLoader.Raw.t) :
  DataLoader.Raw.price a <> Undefined -> DataLoader.Raw.price b <> Undefined ->
  (Selection.compare a b <= 0
   <-> (DataLoader.isCompleteProperty a = false ->
        DataLoader.isCompleteProperty b = false)
       /\ (DataLoader.isCompleteProperty a = DataLoader.isCompleteProperty b ->
           DataLoader.numberOr0 (DataLoader.Raw.price a)
           <= DataLoader.numberOr0 (DataLoader.Raw.price b))).
Proof.
  intros Ha Hb. unfold Selection.compare.
  destruct (DataLoader.isCompleteProperty a), (DataLoader.isCompleteProperty b);
    cbn [Bool.eqb negb];
    destruct (DataLoader.Raw.price a) as [| | pa]; try congruence;
    destruct (DataLoader.Raw.price b) as [| | pb]; try congruence;
    cbn [DataLoader.numberOr0];
    (split;
     [ intros H; split; intros E;
       first [reflexivity | discriminate | lia | exfalso; lia]
     | intros [H1 H2];
       try (specialize (H1 eq_refl); discriminate);
       try specialize (H2 eq_refl); lia ]).
Qed.

(** X28.  The order in which the selection visits a file in which no
    price is missing: a permutation of the file in which no incomplete
    property comes before a complete one and, among the complete ones and
    among the incomplete ones, prices ascend ([null] counting as 0). *)
Theorem sorted_complete_first_then_price (allProperties : list DataLoader.Raw.t) :
  (forall property, In property allProperties ->
                    DataLoader.Raw.price property <> Undefined) ->
  Permutation (Selection.sorted allProperties) allProperties
  /\ StronglySorted
       (fun a b =>
          (DataLoader.isCompleteProperty a = false ->
           DataLoader.isCompleteProperty b = false)
          /\ (DataLoader.isCompleteProperty a = DataLoader.isCompleteProperty b ->
              DataLoader.numberOr0 (DataLoader.Raw.price a)
              <= DataLoader.numberOr0 (DataLoader.Raw.price b)))
       (Selection.sorted allProperties).
Proof.
  intros Hall. split; [apply sorted_perm |].
  set (R := fun a b : DataLoader.Raw.t => _ /\ _).
  assert (Htrans : forall a b c, R a b -> R b c -> R a c).
  { unfold R. intros a b c [H1 H2] [H3 H4].
    destruct (DataLoader.isCompleteProperty a), (DataLoader.isCompleteProperty b),
      (DataLoader.isCompleteProperty c);
      split; intros; try congruence; try (specialize (H1 eq_refl); discriminate);
      try (specialize (H3 eq_refl); discriminate);
      specialize (H2 eq_refl); specialize (H4 eq_refl); lia. }
  induction allProperties as [| x l IH]; [constructor |].
  assert (Hl : forall property, In property l ->
                                DataLoader.Raw.price property <> Undefined)
    by (intros property Hin; apply Hall; now right).
  specialize (IH Hl).
  pose proof (Hall x (or_introl eq_refl)) as Hx.
  assert (Hs : forall property, In property (Selection.sorted l) ->
                                DataLoader.Raw.price property <> Undefined).
  { intros property Hin. apply Hl. eapply Permutation_in; [apply sorted_perm | exact Hin]. }
  change (Selection.sorted (x :: l)) with (Selection.insert x (Selection.sorted l)).
  revert IH Hs. generalize (Selection.sorted l) as s. clear Hall Hl l.
  induction s as [| y s IHs]; intros Hsorted Hs; cbn [Selection.insert].
  - repeat constructor.
  - pose proof (Hs y (or_introl eq_refl)) as Hy.
    apply StronglySorted_inv in Hsorted. destruct Hsorted as [Hsorted Hys].
    destruct (Selection.compare x y <=? 0) eqn:Hcmp.
    + apply Z.leb_le, (compare_le x y Hx Hy) in Hcmp.
      constructor; [constructor; assumption |].
      constructor; [exact Hcmp |].
      eapply Forall_impl; [| exact Hys]. intros z Hz. now apply (Htrans x y z).
    + apply Z.leb_gt in Hcmp.
      assert (Hyx : R y x).
      { apply (compare_le y x Hy Hx).
        assert (Hnot : ~ R x y) by (intros H; apply (compare_le x y Hx Hy) in H; lia).
        unfold R in Hnot.
        unfold Selection.compare in *.
        destruct (DataLoader.isCompleteProperty x), (DataLoader.isCompleteProperty y);
          cbn [Bool.eqb negb] in *;
          destruct (DataLoader.Raw.price x) as [| | px]; try congruence;
          destruct (DataLoader.Raw.price y) as [| | py]; try congruence;
          cbn [DataLoader.numberOr0] in *; lia. }
      constructor.
      * apply IHs; [exact Hsorted | intros property Hin; apply Hs; now right].
      * apply Forall_forall. intros z Hz.
        apply (Permutation_in _ (insert_perm x s)) in Hz.
        destruct Hz as [<- | Hz]; [exact Hyx |].
        rewrite Forall_forall in Hys. now apply Hys.
Qed.

Lemma sorted_complete_first_then_price_witness :
  let priced := [nth 2 Sample.allProperties
                     (DataLoader.Raw.mk Undefined Undefined Undefined Undefined
                                        Undefined Undefined Undefined Undefined Undefined);
                 nth 0 Sample.allProperties
                     (DataLoader.Raw.mk Undefined Undefined Undefined Undefined
                                        Undefined Undefined Undefined Undefined Undefined)] in
  Permutation (Selection.sorted priced) priced.
Proof.
  intros priced.
  apply (sorted_complete_first_then_price priced).
  intros property [<- | [<- | []]]; discriminate.
Defined.

End Catalogs.
